(** * JSON / YAML codecs of the Electra block containers

    A shallow embedding of three files of the client library:

    - the JSON codec of the consensus type [SignedBeaconBlock]
      ([MarshalJSON], [UnmarshalJSON], [unpack]);
    - [api/v1/electra/blindedbeaconblockbody_json.go]
      ([BlindedBeaconBlockBody.MarshalJSON], [UnmarshalJSON], [unpack]);
    - [api/v1/electra/signedblockcontents_yaml.go]
      ([SignedBlockContents.MarshalYAML], [UnmarshalYAML]).

    Go strings are byte strings and are modelled by [string]; byte slices
    and byte arrays are [list byte]; a pointer is an [option] ([None] is
    [nil]); a slice is an [option (list _)] so that the [nil] slice and the
    empty slice stay distinct, as they are for [== nil] in the source.
    A method with a pointer receiver is a computation in a state-and-error
    monad over the receiver: what was written to the receiver before an
    error is returned stays written.

    The libraries [encoding/json] and [go-yaml], and the codecs of the
    nested containers, are parameters; [encoding/hex], [strings.TrimPrefix],
    [fmt.Sprintf] with [%#x] and [%d], [copy] and [bytes.ReplaceAll] are
    modelled as far as these files call them. *)

From Stdlib Require Import NArith Ascii String List Lia.
From stdpp Require Import base option list sets strings pretty.

Local Open Scope string_scope.
Local Open Scope list_scope.

Abbreviation byte := Byte.byte.

#[global] Instance byte_eq_decision : EqDecision byte := Byte.byte_eq_dec.

(** ** Errors *)

(** [errors.New], [fmt.Errorf] (with its rendered message) and
    [errors.Wrap]; the two errors of [encoding/hex]; and the errors of the
    JSON and YAML libraries, which are opaque here. *)
Inductive error : Type :=
| errors_New (msg : string)
| fmt_Errorf (msg : string)
| errors_Wrap (cause : error) (msg : string)
| hex_ErrLength
| hex_InvalidByteError (c : ascii)
| lib_error (msg : string).

Abbreviation result A := (error + A)%type.

(** ** [encoding/hex], [strings.TrimPrefix], [fmt.Sprintf("%#x", _)] *)

Module hex.

(** [hex.reverseHexTable]: the value of a hexadecimal digit of either case,
    [None] where the table holds [0xff]. *)
Definition fromHexChar (c : ascii) : option N :=
  let n := N_of_ascii c in
  if (48 <=? n)%N && (n <=? 57)%N then Some (n - 48)%N
  else if (97 <=? n)%N && (n <=? 102)%N then Some (n - 97 + 10)%N
  else if (65 <=? n)%N && (n <=? 70)%N then Some (n - 65 + 10)%N
  else None.

(** The byte [(a << 4) | b] of two digit values. *)
Definition join (a b : N) : byte :=
  match Byte.of_N (N.lor (N.shiftl a 4) b) with
  | Some x => x
  | None => Byte.x00
  end.

(** [hex.DecodeString]: pairs of digits become bytes; an invalid character
    is reported where it is met, and an odd length after the last complete
    pair (an invalid last character first).  The bytes decoded before an
    error are dropped, as every caller in the source drops them. *)
Fixpoint DecodeString (s : string) : result (list byte) :=
  match s with
  | EmptyString => inr []
  | String p EmptyString =>
      match fromHexChar p with
      | None => inl (hex_InvalidByteError p)
      | Some _ => inl hex_ErrLength
      end
  | String p (String q rest) =>
      match fromHexChar p with
      | None => inl (hex_InvalidByteError p)
      | Some a =>
          match fromHexChar q with
          | None => inl (hex_InvalidByteError q)
          | Some b =>
              match DecodeString rest with
              | inl e => inl e
              | inr bs => inr (join a b :: bs)
              end
          end
      end
  end.

(** [hextable = "0123456789abcdef"]. *)
Definition hextable : string := "0123456789abcdef".

Definition digit (n : N) : ascii :=
  match String.get (N.to_nat n) hextable with
  | Some c => c
  | None => "0"%char
  end.

(** [hex.EncodeToString]: [hextable[v>>4]], [hextable[v&0x0f]] per byte. *)
Fixpoint EncodeToString (bs : list byte) : string :=
  match bs with
  | [] => EmptyString
  | v :: bs' =>
      String (digit (N.shiftr (Byte.to_N v) 4))
        (String (digit (N.land (Byte.to_N v) 15)) (EncodeToString bs'))
  end.

End hex.

Module strings.

(** [strings.HasPrefix], returning the rest of the string after the prefix. *)
Fixpoint CutPrefix (s prefix : string) {struct prefix} : option string :=
  match prefix with
  | EmptyString => Some s
  | String p prefix' =>
      match s with
      | EmptyString => None
      | String c s' =>
          if Ascii.eqb c p then CutPrefix s' prefix' else None
      end
  end.

(** [strings.TrimPrefix]: [s] without the prefix when it has it, [s]
    itself otherwise. *)
Definition TrimPrefix (s prefix : string) : string :=
  match CutPrefix s prefix with
  | Some rest => rest
  | None => s
  end.

End strings.

Module fmt.

(** [fmt.Sprintf("%#x", b)] on a byte slice or byte array: the lowercase
    digits of every byte after a leading [0x]; nothing at all for no
    bytes. *)
Definition Sprintf_sharp_x (b : list byte) : string :=
  match b with
  | [] => EmptyString
  | _ => "0x" ++ hex.EncodeToString b
  end.

(** [%d] of a slice index. *)
Definition Sprintf_d (i : nat) : string := pretty i.

End fmt.

(** [copy(dst[:], src)] on byte slices: the first [min (len dst) (len src)]
    bytes of [dst] are overwritten. *)
Definition copy (dst src : list byte) : list byte :=
  take (length dst) src ++ drop (length src) dst.

(** ** Receiver methods: state and error *)

(** A method on a pointer receiver of type [S] that returns an [error]:
    it reads and writes the receiver and either fails or yields a value.
    The receiver is threaded through a failure too. *)
Definition M (S A : Type) : Type := S -> S * result A.

#[global] Instance M_ret {S} : MRet (M S) := fun A x s => (s, inr x).

#[global] Instance M_bind {S} : MBind (M S) := fun A B f m s =>
  match m s with
  | (s', inl e) => (s', inl e)
  | (s', inr a) => f a s'
  end.

(** [return err] *)
Definition raise {S A} (e : error) : M S A := fun s => (s, inl e).

(** [if c { return err }] *)
Definition return_if {S} (c : bool) (e : error) : M S unit :=
  if c then raise e else mret ().

(** [x, err := f(); if err != nil { return errors.Wrap(err, msg) }] *)
Definition wrap_err {S A} (r : result A) (msg : string) : M S A :=
  match r with
  | inl e => raise (errors_Wrap e msg)
  | inr a => mret a
  end.

(** an assignment to a field of the receiver *)
Definition modify {S} (f : S -> S) : M S unit := fun s => (f s, inr ()).

(** [p == nil] on a pointer or a slice *)
Definition is_nil {A} (p : option A) : bool :=
  match p with
  | None => true
  | Some _ => false
  end.

(** The elements a [for i := range sl] visits: none for the [nil] slice. *)
Definition elems {A} (sl : option (list A)) : list A :=
  match sl with
  | None => []
  | Some l => l
  end.

(** [for i := range l { body }], counting from [i]; a [return] in the body
    leaves the loop and the method. *)
Fixpoint for_range_from {S A} (i : nat) (l : list A) (body : nat -> A -> M S unit) : M S unit :=
  match l with
  | [] => mret ()
  | x :: l' => body i x;; for_range_from (Datatypes.S i) l' body
  end.

Definition for_range {S A} (sl : option (list A)) (body : nat -> A -> M S unit) : M S unit :=
  for_range_from 0 (elems sl) body.

(** The [error] a method returns: [None] is [nil]. *)
Definition err_of {S} (r : S * result unit) : option error :=
  match r.2 with
  | inl e => Some e
  | inr _ => None
  end.

(** ** Collaborators outside these files *)

(** The nested containers, which come with codecs of their own. *)
Class SubObjects : Type := {
  electra_BeaconBlock : Type;
  phase0_ETH1Data : Type;
  phase0_ProposerSlashing : Type;
  electra_AttesterSlashing : Type;
  electra_Attestation : Type;
  phase0_Deposit : Type;
  phase0_SignedVoluntaryExit : Type;
  altair_SyncAggregate : Type;
  deneb_ExecutionPayloadHeader : Type;
  capella_SignedBLSToExecutionChange : Type;
  electra_ExecutionRequests : Type;
}.

(** [json.Marshal] and [json.Unmarshal] at a wire struct [W];
    [json.Unmarshal] starts from the zero value of [W]. *)
Class JSON (W : Type) : Type := {
  json_Marshal : W -> result (list byte);
  json_Unmarshal : list byte -> result W;
}.

Module phase0.

(** Modelled from the spec: the constants [phase0.SignatureLength] and
    [phase0.GraffitiLength], declared outside these files; signatures and
    RANDAO reveals have 96 bytes and the graffiti has 32. *)
Definition SignatureLength : nat := 96.
Definition GraffitiLength : nat := 32.

End phase0.

Module deneb.

(** Modelled from the spec: the constant [deneb.KZGCommitmentLength],
    declared outside these files; a blob KZG commitment has 48 bytes. *)
Definition KZGCommitmentLength : nat := 48.

(** Modelled from the spec: [KZGCommitment.String], declared outside these
    files; the bytes as lowercase hex after [0x]. *)
Definition KZGCommitment_String (k : list byte) : string :=
  fmt.Sprintf_sharp_x k.

End deneb.

(** ** [SignedBeaconBlock]: the JSON codec *)

(** [signedBeaconBlockJSON] is the spec representation of the struct. *)
Module signedBeaconBlockJSON.
Section Def.
Context `{SubObjects}.

Record t : Type := mk {
  Message : option electra_BeaconBlock;
  Signature : string;
}.

End Def.
End signedBeaconBlockJSON.

Module SignedBeaconBlock.
Section Def.
Context `{SubObjects}.

(** The struct itself is declared outside these files: a pointer to the
    block and a [phase0.BLSSignature], an array of 96 bytes. *)
Record t : Type := mk {
  Message : option electra_BeaconBlock;
  Signature : list byte;
}.

Definition set_Message (v : option electra_BeaconBlock) (s : t) : t :=
  {| Message := v; Signature := Signature s |}.

Definition set_Signature (v : list byte) (s : t) : t :=
  {| Message := Message s; Signature := v |}.

Context `{JSON signedBeaconBlockJSON.t}.

(** [MarshalJSON] implements [json.Marshaler]. *)
Definition MarshalJSON (s : t) : result (list byte) :=
  json_Marshal {|
    signedBeaconBlockJSON.Message := Message s;
    signedBeaconBlockJSON.Signature := fmt.Sprintf_sharp_x (Signature s);
  |}.

Definition unpack (data : signedBeaconBlockJSON.t) : M t unit :=
  return_if (is_nil (signedBeaconBlockJSON.Message data))
    (errors_New "message missing");;
  modify (set_Message (signedBeaconBlockJSON.Message data));;
  return_if (String.eqb (signedBeaconBlockJSON.Signature data) EmptyString)
    (errors_New "signature missing");;
  signature ← wrap_err
    (hex.DecodeString (strings.TrimPrefix (signedBeaconBlockJSON.Signature data) "0x"))
    "invalid value for signature";
  return_if (negb (Nat.eqb (length signature) phase0.SignatureLength))
    (fmt_Errorf ("incorrect length " ++ fmt.Sprintf_d (length signature) ++ " for signature"));;
  modify (fun s => set_Signature (copy (Signature s) signature) s);;
  mret ().

(** [UnmarshalJSON] implements [json.Unmarshaler]. *)
Definition UnmarshalJSON (input : list byte) : M t unit :=
  data ← wrap_err (json_Unmarshal input) "invalid JSON";
  unpack data.

End Def.
End SignedBeaconBlock.

(** ** [BlindedBeaconBlockBody]: the JSON codec, [blindedbeaconblockbody_json.go] *)

(** [blindedBeaconBlockBodyJSON] is the spec representation of the struct. *)
Module blindedBeaconBlockBodyJSON.
Section Def.
Context `{SubObjects}.

Record t : Type := mk {
  RANDAOReveal : string;
  ETH1Data : option phase0_ETH1Data;
  Graffiti : string;
  ProposerSlashings : option (list (option phase0_ProposerSlashing));
  AttesterSlashings : option (list (option electra_AttesterSlashing));
  Attestations : option (list (option electra_Attestation));
  Deposits : option (list (option phase0_Deposit));
  VoluntaryExits : option (list (option phase0_SignedVoluntaryExit));
  SyncAggregate : option altair_SyncAggregate;
  ExecutionPayloadHeader : option deneb_ExecutionPayloadHeader;
  BLSToExecutionChanges : option (list (option capella_SignedBLSToExecutionChange));
  BlobKZGCommitments : option (list string);
  ExecutionRequests : option electra_ExecutionRequests;
}.

End Def.
End blindedBeaconBlockBodyJSON.

Module BlindedBeaconBlockBody.
Section Def.
Context `{SubObjects}.

(** The struct itself is declared outside these files: [RANDAOReveal] is
    an array of 96 bytes, [Graffiti] an array of 32 bytes, a
    [deneb.KZGCommitment] an array of 48 bytes; the containers are held by
    pointers and slices of pointers. *)
Record t : Type := mk {
  RANDAOReveal : list byte;
  ETH1Data : option phase0_ETH1Data;
  Graffiti : list byte;
  ProposerSlashings : option (list (option phase0_ProposerSlashing));
  AttesterSlashings : option (list (option electra_AttesterSlashing));
  Attestations : option (list (option electra_Attestation));
  Deposits : option (list (option phase0_Deposit));
  VoluntaryExits : option (list (option phase0_SignedVoluntaryExit));
  SyncAggregate : option altair_SyncAggregate;
  ExecutionPayloadHeader : option deneb_ExecutionPayloadHeader;
  BLSToExecutionChanges : option (list (option capella_SignedBLSToExecutionChange));
  BlobKZGCommitments : option (list (list byte));
  ExecutionRequests : option electra_ExecutionRequests;
}.

Definition set_RANDAOReveal (v : list byte) (b : t) : t :=
  {| RANDAOReveal := v;
     ETH1Data := ETH1Data b;
     Graffiti := Graffiti b;
     ProposerSlashings := ProposerSlashings b;
     AttesterSlashings := AttesterSlashings b;
     Attestations := Attestations b;
     Deposits := Deposits b;
     VoluntaryExits := VoluntaryExits b;
     SyncAggregate := SyncAggregate b;
     ExecutionPayloadHeader := ExecutionPayloadHeader b;
     BLSToExecutionChanges := BLSToExecutionChanges b;
     BlobKZGCommitments := BlobKZGCommitments b;
     ExecutionRequests := ExecutionRequests b |}.

Definition set_ETH1Data (v : option phase0_ETH1Data) (b : t) : t :=
  {| RANDAOReveal := RANDAOReveal b;
     ETH1Data := v;
     Graffiti := Graffiti b;
     ProposerSlashings := ProposerSlashings b;
     AttesterSlashings := AttesterSlashings b;
     Attestations := Attestations b;
     Deposits := Deposits b;
     VoluntaryExits := VoluntaryExits b;
     SyncAggregate := SyncAggregate b;
     ExecutionPayloadHeader := ExecutionPayloadHeader b;
     BLSToExecutionChanges := BLSToExecutionChanges b;
     BlobKZGCommitments := BlobKZGCommitments b;
     ExecutionRequests := ExecutionRequests b |}.

Definition set_Graffiti (v : list byte) (b : t) : t :=
  {| RANDAOReveal := RANDAOReveal b;
     ETH1Data := ETH1Data b;
     Graffiti := v;
     ProposerSlashings := ProposerSlashings b;
     AttesterSlashings := AttesterSlashings b;
     Attestations := Attestations b;
     Deposits := Deposits b;
     VoluntaryExits := VoluntaryExits b;
     SyncAggregate := SyncAggregate b;
     ExecutionPayloadHeader := ExecutionPayloadHeader b;
     BLSToExecutionChanges := BLSToExecutionChanges b;
     BlobKZGCommitments := BlobKZGCommitments b;
     ExecutionRequests := ExecutionRequests b |}.

Definition set_ProposerSlashings (v : option (list (option phase0_ProposerSlashing))) (b : t) : t :=
  {| RANDAOReveal := RANDAOReveal b;
     ETH1Data := ETH1Data b;
     Graffiti := Graffiti b;
     ProposerSlashings := v;
     AttesterSlashings := AttesterSlashings b;
     Attestations := Attestations b;
     Deposits := Deposits b;
     VoluntaryExits := VoluntaryExits b;
     SyncAggregate := SyncAggregate b;
     ExecutionPayloadHeader := ExecutionPayloadHeader b;
     BLSToExecutionChanges := BLSToExecutionChanges b;
     BlobKZGCommitments := BlobKZGCommitments b;
     ExecutionRequests := ExecutionRequests b |}.

Definition set_AttesterSlashings (v : option (list (option electra_AttesterSlashing))) (b : t) : t :=
  {| RANDAOReveal := RANDAOReveal b;
     ETH1Data := ETH1Data b;
     Graffiti := Graffiti b;
     ProposerSlashings := ProposerSlashings b;
     AttesterSlashings := v;
     Attestations := Attestations b;
     Deposits := Deposits b;
     VoluntaryExits := VoluntaryExits b;
     SyncAggregate := SyncAggregate b;
     ExecutionPayloadHeader := ExecutionPayloadHeader b;
     BLSToExecutionChanges := BLSToExecutionChanges b;
     BlobKZGCommitments := BlobKZGCommitments b;
     ExecutionRequests := ExecutionRequests b |}.

Definition set_Attestations (v : option (list (option electra_Attestation))) (b : t) : t :=
  {| RANDAOReveal := RANDAOReveal b;
     ETH1Data := ETH1Data b;
     Graffiti := Graffiti b;
     ProposerSlashings := ProposerSlashings b;
     AttesterSlashings := AttesterSlashings b;
     Attestations := v;
     Deposits := Deposits b;
     VoluntaryExits := VoluntaryExits b;
     SyncAggregate := SyncAggregate b;
     ExecutionPayloadHeader := ExecutionPayloadHeader b;
     BLSToExecutionChanges := BLSToExecutionChanges b;
     BlobKZGCommitments := BlobKZGCommitments b;
     ExecutionRequests := ExecutionRequests b |}.

Definition set_Deposits (v : option (list (option phase0_Deposit))) (b : t) : t :=
  {| RANDAOReveal := RANDAOReveal b;
     ETH1Data := ETH1Data b;
     Graffiti := Graffiti b;
     ProposerSlashings := ProposerSlashings b;
     AttesterSlashings := AttesterSlashings b;
     Attestations := Attestations b;
     Deposits := v;
     VoluntaryExits := VoluntaryExits b;
     SyncAggregate := SyncAggregate b;
     ExecutionPayloadHeader := ExecutionPayloadHeader b;
     BLSToExecutionChanges := BLSToExecutionChanges b;
     BlobKZGCommitments := BlobKZGCommitments b;
     ExecutionRequests := ExecutionRequests b |}.

Definition set_VoluntaryExits (v : option (list (option phase0_SignedVoluntaryExit))) (b : t) : t :=
  {| RANDAOReveal := RANDAOReveal b;
     ETH1Data := ETH1Data b;
     Graffiti := Graffiti b;
     ProposerSlashings := ProposerSlashings b;
     AttesterSlashings := AttesterSlashings b;
     Attestations := Attestations b;
     Deposits := Deposits b;
     VoluntaryExits := v;
     SyncAggregate := SyncAggregate b;
     ExecutionPayloadHeader := ExecutionPayloadHeader b;
     BLSToExecutionChanges := BLSToExecutionChanges b;
     BlobKZGCommitments := BlobKZGCommitments b;
     ExecutionRequests := ExecutionRequests b |}.

Definition set_SyncAggregate (v : option altair_SyncAggregate) (b : t) : t :=
  {| RANDAOReveal := RANDAOReveal b;
     ETH1Data := ETH1Data b;
     Graffiti := Graffiti b;
     ProposerSlashings := ProposerSlashings b;
     AttesterSlashings := AttesterSlashings b;
     Attestations := Attestations b;
     Deposits := Deposits b;
     VoluntaryExits := VoluntaryExits b;
     SyncAggregate := v;
     ExecutionPayloadHeader := ExecutionPayloadHeader b;
     BLSToExecutionChanges := BLSToExecutionChanges b;
     BlobKZGCommitments := BlobKZGCommitments b;
     ExecutionRequests := ExecutionRequests b |}.

Definition set_ExecutionPayloadHeader (v : option deneb_ExecutionPayloadHeader) (b : t) : t :=
  {| RANDAOReveal := RANDAOReveal b;
     ETH1Data := ETH1Data b;
     Graffiti := Graffiti b;
     ProposerSlashings := ProposerSlashings b;
     AttesterSlashings := AttesterSlashings b;
     Attestations := Attestations b;
     Deposits := Deposits b;
     VoluntaryExits := VoluntaryExits b;
     SyncAggregate := SyncAggregate b;
     ExecutionPayloadHeader := v;
     BLSToExecutionChanges := BLSToExecutionChanges b;
     BlobKZGCommitments := BlobKZGCommitments b;
     ExecutionRequests := ExecutionRequests b |}.

Definition set_BLSToExecutionChanges (v : option (list (option capella_SignedBLSToExecutionChange))) (b : t) : t :=
  {| RANDAOReveal := RANDAOReveal b;
     ETH1Data := ETH1Data b;
     Graffiti := Graffiti b;
     ProposerSlashings := ProposerSlashings b;
     AttesterSlashings := AttesterSlashings b;
     Attestations := Attestations b;
     Deposits := Deposits b;
     VoluntaryExits := VoluntaryExits b;
     SyncAggregate := SyncAggregate b;
     ExecutionPayloadHeader := ExecutionPayloadHeader b;
     BLSToExecutionChanges := v;
     BlobKZGCommitments := BlobKZGCommitments b;
     ExecutionRequests := ExecutionRequests b |}.

Definition set_BlobKZGCommitments (v : option (list (list byte))) (b : t) : t :=
  {| RANDAOReveal := RANDAOReveal b;
     ETH1Data := ETH1Data b;
     Graffiti := Graffiti b;
     ProposerSlashings := ProposerSlashings b;
     AttesterSlashings := AttesterSlashings b;
     Attestations := Attestations b;
     Deposits := Deposits b;
     VoluntaryExits := VoluntaryExits b;
     SyncAggregate := SyncAggregate b;
     ExecutionPayloadHeader := ExecutionPayloadHeader b;
     BLSToExecutionChanges := BLSToExecutionChanges b;
     BlobKZGCommitments := v;
     ExecutionRequests := ExecutionRequests b |}.

Definition set_ExecutionRequests (v : option electra_ExecutionRequests) (b : t) : t :=
  {| RANDAOReveal := RANDAOReveal b;
     ETH1Data := ETH1Data b;
     Graffiti := Graffiti b;
     ProposerSlashings := ProposerSlashings b;
     AttesterSlashings := AttesterSlashings b;
     Attestations := Attestations b;
     Deposits := Deposits b;
     VoluntaryExits := VoluntaryExits b;
     SyncAggregate := SyncAggregate b;
     ExecutionPayloadHeader := ExecutionPayloadHeader b;
     BLSToExecutionChanges := BLSToExecutionChanges b;
     BlobKZGCommitments := BlobKZGCommitments b;
     ExecutionRequests := v |}.

Context `{JSON blindedBeaconBlockBodyJSON.t}.

Import blindedBeaconBlockBodyJSON (mk).

(** [MarshalJSON] implements [json.Marshaler]. *)
Definition MarshalJSON (b : t) : result (list byte) :=
  let blobKZGCommitments :=
    Some (map deneb.KZGCommitment_String (elems (BlobKZGCommitments b))) in
  json_Marshal {|
    blindedBeaconBlockBodyJSON.RANDAOReveal := fmt.Sprintf_sharp_x (RANDAOReveal b);
    blindedBeaconBlockBodyJSON.ETH1Data := ETH1Data b;
    blindedBeaconBlockBodyJSON.Graffiti := fmt.Sprintf_sharp_x (Graffiti b);
    blindedBeaconBlockBodyJSON.ProposerSlashings := ProposerSlashings b;
    blindedBeaconBlockBodyJSON.AttesterSlashings := AttesterSlashings b;
    blindedBeaconBlockBodyJSON.Attestations := Attestations b;
    blindedBeaconBlockBodyJSON.Deposits := Deposits b;
    blindedBeaconBlockBodyJSON.VoluntaryExits := VoluntaryExits b;
    blindedBeaconBlockBodyJSON.SyncAggregate := SyncAggregate b;
    blindedBeaconBlockBodyJSON.ExecutionPayloadHeader := ExecutionPayloadHeader b;
    blindedBeaconBlockBodyJSON.BLSToExecutionChanges := BLSToExecutionChanges b;
    blindedBeaconBlockBodyJSON.BlobKZGCommitments := blobKZGCommitments;
    blindedBeaconBlockBodyJSON.ExecutionRequests := ExecutionRequests b;
  |}.

(** [make([]deneb.KZGCommitment, n)]: [n] zeroed arrays of 48 bytes. *)
Definition make_KZGCommitments (n : nat) : option (list (list byte)) :=
  Some (replicate n (replicate deneb.KZGCommitmentLength Byte.x00)).

(** [copy(b.BlobKZGCommitments[i][:], data)] *)
Definition copy_KZGCommitment (i : nat) (data : list byte) (b : t) : t :=
  set_BlobKZGCommitments
    (alter (fun dst => copy dst data) i <$> BlobKZGCommitments b) b.

Definition unpack (data : blindedBeaconBlockBodyJSON.t) : M t unit :=
  return_if (String.eqb (blindedBeaconBlockBodyJSON.RANDAOReveal data) EmptyString)
    (errors_New "RANDAO reveal missing");;
  randaoReveal ← wrap_err
    (hex.DecodeString (strings.TrimPrefix (blindedBeaconBlockBodyJSON.RANDAOReveal data) "0x"))
    "invalid value for RANDAO reveal";
  return_if (negb (Nat.eqb (length randaoReveal) phase0.SignatureLength))
    (errors_New "incorrect length for RANDAO reveal");;
  modify (fun b => set_RANDAOReveal (copy (RANDAOReveal b) randaoReveal) b);;
  return_if (is_nil (blindedBeaconBlockBodyJSON.ETH1Data data))
    (errors_New "ETH1 data missing");;
  modify (set_ETH1Data (blindedBeaconBlockBodyJSON.ETH1Data data));;
  return_if (String.eqb (blindedBeaconBlockBodyJSON.Graffiti data) EmptyString)
    (errors_New "graffiti missing");;
  graffiti ← wrap_err
    (hex.DecodeString (strings.TrimPrefix (blindedBeaconBlockBodyJSON.Graffiti data) "0x"))
    "invalid value for graffiti";
  return_if (negb (Nat.eqb (length graffiti) phase0.GraffitiLength))
    (errors_New "incorrect length for graffiti");;
  modify (fun b => set_Graffiti (copy (Graffiti b) graffiti) b);;
  return_if (is_nil (blindedBeaconBlockBodyJSON.ProposerSlashings data))
    (errors_New "proposer slashings missing");;
  for_range (blindedBeaconBlockBodyJSON.ProposerSlashings data) (fun i x =>
    return_if (is_nil x)
      (fmt_Errorf ("proposer slashings entry " ++ fmt.Sprintf_d i ++ " missing")));;
  modify (set_ProposerSlashings (blindedBeaconBlockBodyJSON.ProposerSlashings data));;
  return_if (is_nil (blindedBeaconBlockBodyJSON.AttesterSlashings data))
    (errors_New "attester slashings missing");;
  for_range (blindedBeaconBlockBodyJSON.AttesterSlashings data) (fun i x =>
    return_if (is_nil x)
      (fmt_Errorf ("attester slashings entry " ++ fmt.Sprintf_d i ++ " missing")));;
  modify (set_AttesterSlashings (blindedBeaconBlockBodyJSON.AttesterSlashings data));;
  return_if (is_nil (blindedBeaconBlockBodyJSON.Attestations data))
    (errors_New "attestations missing");;
  for_range (blindedBeaconBlockBodyJSON.Attestations data) (fun i x =>
    return_if (is_nil x)
      (fmt_Errorf ("attestations entry " ++ fmt.Sprintf_d i ++ " missing")));;
  modify (set_Attestations (blindedBeaconBlockBodyJSON.Attestations data));;
  return_if (is_nil (blindedBeaconBlockBodyJSON.Deposits data))
    (errors_New "deposits missing");;
  for_range (blindedBeaconBlockBodyJSON.Deposits data) (fun i x =>
    return_if (is_nil x)
      (fmt_Errorf ("deposits entry " ++ fmt.Sprintf_d i ++ " missing")));;
  modify (set_Deposits (blindedBeaconBlockBodyJSON.Deposits data));;
  return_if (is_nil (blindedBeaconBlockBodyJSON.VoluntaryExits data))
    (errors_New "voluntary exits missing");;
  for_range (blindedBeaconBlockBodyJSON.VoluntaryExits data) (fun i x =>
    return_if (is_nil x)
      (fmt_Errorf ("voluntary exits entry " ++ fmt.Sprintf_d i ++ " missing")));;
  modify (set_VoluntaryExits (blindedBeaconBlockBodyJSON.VoluntaryExits data));;
  return_if (is_nil (blindedBeaconBlockBodyJSON.SyncAggregate data))
    (errors_New "sync aggregate missing");;
  modify (set_SyncAggregate (blindedBeaconBlockBodyJSON.SyncAggregate data));;
  return_if (is_nil (blindedBeaconBlockBodyJSON.ExecutionPayloadHeader data))
    (errors_New "execution payload header missing");;
  modify (set_ExecutionPayloadHeader (blindedBeaconBlockBodyJSON.ExecutionPayloadHeader data));;
  (if is_nil (blindedBeaconBlockBodyJSON.BLSToExecutionChanges data)
   then modify (set_BLSToExecutionChanges (Some []))
   else
     for_range (blindedBeaconBlockBodyJSON.BLSToExecutionChanges data) (fun i x =>
       return_if (is_nil x)
         (fmt_Errorf ("bls to execution changes entry " ++ fmt.Sprintf_d i ++ " missing")));;
     modify (set_BLSToExecutionChanges (blindedBeaconBlockBodyJSON.BLSToExecutionChanges data)));;
  return_if (is_nil (blindedBeaconBlockBodyJSON.BlobKZGCommitments data))
    (errors_New "blob KZG commitments missing");;
  for_range (blindedBeaconBlockBodyJSON.BlobKZGCommitments data) (fun i x =>
    return_if (String.eqb x EmptyString)
      (fmt_Errorf ("blob KZG commitments entry " ++ fmt.Sprintf_d i ++ " missing")));;
  modify (set_BlobKZGCommitments
            (make_KZGCommitments (length (elems (blindedBeaconBlockBodyJSON.BlobKZGCommitments data)))));;
  for_range (blindedBeaconBlockBodyJSON.BlobKZGCommitments data) (fun i x =>
    data' ← wrap_err (hex.DecodeString (strings.TrimPrefix x "0x"))
      "failed to parse blob KZG commitment";
    return_if (negb (Nat.eqb (length data') deneb.KZGCommitmentLength))
      (errors_New "incorrect length for blob KZG commitment");;
    modify (copy_KZGCommitment i data'));;
  return_if (is_nil (blindedBeaconBlockBodyJSON.ExecutionRequests data))
    (errors_New "execution requests missing");;
  modify (set_ExecutionRequests (blindedBeaconBlockBodyJSON.ExecutionRequests data));;
  mret ().

(** [UnmarshalJSON] implements [json.Unmarshaler]. *)
Definition UnmarshalJSON (input : list byte) : M t unit :=
  data ← wrap_err (json_Unmarshal input) "invalid JSON";
  unpack data.

End Def.
End BlindedBeaconBlockBody.

(** ** [bytes.ReplaceAll] *)

Module bytes.

(** [bytes.HasPrefix] *)
Fixpoint HasPrefix (s prefix : list byte) {struct prefix} : bool :=
  match prefix with
  | [] => true
  | p :: prefix' =>
      match s with
      | [] => false
      | c :: s' => if Byte.eqb c p then HasPrefix s' prefix' else false
      end
  end.

(** [bytes.ReplaceAll] for a non-empty [old], as at its one call: the
    occurrences of [old] are found from the left and do not overlap;
    [skip] counts the bytes of the occurrence just replaced that are still
    to be passed over. *)
Fixpoint ReplaceAll_from (skip : nat) (s old new : list byte) : list byte :=
  match s with
  | [] => []
  | c :: s' =>
      match skip with
      | Datatypes.S k => ReplaceAll_from k s' old new
      | O =>
          if HasPrefix s old
          then new ++ ReplaceAll_from (length old - 1) s' old new
          else c :: ReplaceAll_from 0 s' old new
      end
  end.

Definition ReplaceAll (s old new : list byte) : list byte :=
  ReplaceAll_from 0 s old new.

End bytes.

(** The one byte of each of the two literals at the call of
    [bytes.ReplaceAll]: the double quote, 0x22, and the single quote, 0x27. *)
Definition double_quote : byte := Byte.x22.
Definition single_quote : byte := Byte.x27.

(** A double quote becomes a single quote, any other byte stays. *)
Definition requote (c : byte) : byte :=
  if Byte.eqb c double_quote then single_quote else c.

(** ** [SignedBlockContents]: the YAML codec, [signedblockcontents_yaml.go] *)

(** [yaml.MarshalWithOptions(_, yaml.Flow(true))] and [yaml.Unmarshal] at a
    struct [W]; the flow-style writer and the parser are black boxes. *)
Class YAMLMarshal (W : Type) : Type := {
  yaml_MarshalWithOptions_Flow : W -> result (list byte);
}.


(** [signedBlockContentsYAML] is the spec representation of the struct. *)
Module signedBlockContentsYAML.
Section Def.
Context `{SubObjects}.

Record t : Type := mk {
  SignedBlock : option SignedBeaconBlock.t;
  KZGProofs : option (list (list byte));
  Blobs : option (list (list byte));
}.

End Def.
End signedBlockContentsYAML.

(** Modelled from the spec: the struct [signedBlockContentsJSON], declared
    in the JSON codec of the bundle, outside these files; a JSON object
    with keys [signed_block] (signed block object), [kzg_proofs] (array of
    hex strings) and [blobs] (array of hex strings). *)
Module signedBlockContentsJSON.
Section Def.
Context `{SubObjects}.

Record t : Type := mk {
  SignedBlock : option SignedBeaconBlock.t;
  KZGProofs : option (list string);
  Blobs : option (list string);
}.

End Def.
End signedBlockContentsJSON.

Module SignedBlockContents.
Section Def.
Context `{SubObjects}.

(** The struct itself is declared outside these files: a pointer to the
    signed block, a slice of [deneb.KZGProof] and a slice of [deneb.Blob],
    both byte arrays. *)
Record t : Type := mk {
  SignedBlock : option SignedBeaconBlock.t;
  KZGProofs : option (list (list byte));
  Blobs : option (list (list byte));
}.

Context `{YAMLMarshal signedBlockContentsYAML.t}.
Context `{YAMLUnmarshal signedBlockContentsJSON.t}.
Context `{JSON signedBlockContentsJSON.t}.

(** [SignedBlockContents.UnmarshalJSON], of the JSON codec of the bundle,
    declared outside these files. *)
Variable UnmarshalJSON : list byte -> M t unit.

(** [MarshalYAML] implements [yaml.Marshaler]. *)
Definition MarshalYAML (s : t) : result (list byte) :=
  match
    yaml_MarshalWithOptions_Flow {|
      signedBlockContentsYAML.SignedBlock := SignedBlock s;
      signedBlockContentsYAML.KZGProofs := KZGProofs s;
      signedBlockContentsYAML.Blobs := Blobs s;
    |}
  with
  | inl err => inl err
  | inr yamlBytes => inr (bytes.ReplaceAll yamlBytes [double_quote] [single_quote])
  end.


(** Modelled from the spec: the wire shape of a bundle, built by the JSON
    codec of the bundle, declared outside these files.  The signed block
    is handed over as it is, every proof and every blob is hex-encoded,
    lowercase after [0x], and a sequence keeps its order; as in the codec
    of the body, a [nil] sequence gives the empty list. *)
Definition wire_shape (s : t) : signedBlockContentsJSON.t :=
  {|
    signedBlockContentsJSON.SignedBlock := SignedBlock s;
    signedBlockContentsJSON.KZGProofs := Some (map fmt.Sprintf_sharp_x (elems (KZGProofs s)));
    signedBlockContentsJSON.Blobs := Some (map fmt.Sprintf_sharp_x (elems (Blobs s)));
  |}.

(** Modelled from the spec: [SignedBlockContents.MarshalJSON], declared
    outside these files, marshals the bundle to its wire shape and
    serializes that to JSON bytes. *)
Definition MarshalJSON (s : t) : result (list byte) :=
  json_Marshal (wire_shape s).

End Def.
End SignedBlockContents.

(** ** The unpacking pass, field by field *)

(** The keys of a blinded block body, in the order of declaration, which is
    the order in which [unpack] validates them. *)
Inductive field : Type :=
| randao_reveal
| eth1_data
| graffiti
| proposer_slashings
| attester_slashings
| attestations
| deposits
| voluntary_exits
| sync_aggregate
| execution_payload_header
| bls_to_execution_changes
| blob_kzg_commitments
| execution_requests.

#[global] Instance field_eq_dec : EqDecision field.
Proof. solve_decision. Defined.

Definition fields : list field :=
  [randao_reveal; eth1_data; graffiti; proposer_slashings; attester_slashings;
   attestations; deposits; voluntary_exits; sync_aggregate;
   execution_payload_header; bls_to_execution_changes; blob_kzg_commitments;
   execution_requests].

(** The fields validated before [f]. *)
Fixpoint fields_before_in (fs : list field) (f : field) : list field :=
  match fs with
  | [] => []
  | g :: fs' => if decide (g = f) then [] else g :: fields_before_in fs' f
  end.

Definition fields_before (f : field) : list field := fields_before_in fields f.

(** The fields validated after [f]. *)
Fixpoint fields_after_in (fs : list field) (f : field) : list field :=
  match fs with
  | [] => []
  | g :: fs' => if decide (g = f) then fs' else fields_after_in fs' f
  end.

Definition fields_after (f : field) : list field := fields_after_in fields f.

(** Every field but the one post-fork list is mandatory. *)
Definition mandatory (f : field) : bool :=
  match f with
  | bls_to_execution_changes => false
  | _ => true
  end.

(** The index of the first element that satisfies [p]. *)
Fixpoint find_index {A} (p : A -> bool) (l : list A) : option nat :=
  match l with
  | [] => None
  | x :: l' => if p x then Some 0 else Datatypes.S <$> find_index p l'
  end.

(** The first error of a list of checks. *)
Fixpoint first_error (l : list (option error)) : option error :=
  match l with
  | [] => None
  | Some e :: _ => Some e
  | None :: l' => first_error l'
  end.

(** The bytes a hex string stands for, once its optional [0x] is cut. *)
Definition hex_bytes (s : string) : result (list byte) :=
  hex.DecodeString (strings.TrimPrefix s "0x").

Definition decoded (s : string) : list byte :=
  match hex_bytes s with
  | inr bs => bs
  | inl _ => []
  end.

(** What the validation of a hex string of [n] bytes reports. *)
Definition hex_value_error (s : string) (n : nat) (invalid wrong_length : string) : option error :=
  match hex_bytes s with
  | inl e => Some (errors_Wrap e invalid)
  | inr bs => if Nat.eqb (length bs) n then None else Some (errors_New wrong_length)
  end.

Definition hex_field_error (s : string) (n : nat) (missing invalid wrong_length : string) : option error :=
  if String.eqb s EmptyString then Some (errors_New missing)
  else hex_value_error s n invalid wrong_length.

Definition pointer_field_error {A} (p : option A) (what : string) : option error :=
  if is_nil p then Some (errors_New (what ++ " missing")) else None.

Definition entries_error {A} (l : list (option A)) (what : string) : option error :=
  match find_index is_nil l with
  | Some i => Some (fmt_Errorf (what ++ " entry " ++ fmt.Sprintf_d i ++ " missing"))
  | None => None
  end.

Definition sequence_field_error {A} (sl : option (list (option A))) (what : string) : option error :=
  match sl with
  | None => Some (errors_New (what ++ " missing"))
  | Some l => entries_error l what
  end.

Definition optional_sequence_field_error {A} (sl : option (list (option A))) (what : string) : option error :=
  match sl with
  | None => None
  | Some l => entries_error l what
  end.

Definition commitment_error (x : string) : option error :=
  hex_value_error x deneb.KZGCommitmentLength
    "failed to parse blob KZG commitment" "incorrect length for blob KZG commitment".

Definition commitments_field_error (sl : option (list string)) : option error :=
  match sl with
  | None => Some (errors_New "blob KZG commitments missing")
  | Some l =>
      match find_index (fun x => String.eqb x EmptyString) l with
      | Some i =>
          Some (fmt_Errorf ("blob KZG commitments entry " ++ fmt.Sprintf_d i ++ " missing"))
      | None => first_error (commitment_error <$> l)
      end
  end.

(** A zeroed [deneb.KZGCommitment]. *)
Definition zero_KZGCommitment : list byte :=
  replicate deneb.KZGCommitmentLength Byte.x00.

(** The message of the error for a missing field; the one optional field
    has none. *)
Definition missing_message (f : field) : option string :=
  match f with
  | randao_reveal => Some "RANDAO reveal missing"
  | eth1_data => Some "ETH1 data missing"
  | graffiti => Some "graffiti missing"
  | proposer_slashings => Some "proposer slashings missing"
  | attester_slashings => Some "attester slashings missing"
  | attestations => Some "attestations missing"
  | deposits => Some "deposits missing"
  | voluntary_exits => Some "voluntary exits missing"
  | sync_aggregate => Some "sync aggregate missing"
  | execution_payload_header => Some "execution payload header missing"
  | bls_to_execution_changes => None
  | blob_kzg_commitments => Some "blob KZG commitments missing"
  | execution_requests => Some "execution requests missing"
  end.

(** The first [nil] pointer of [l] is at index [i]. *)
Definition first_nil_at {A} (l : list (option A)) (i : nat) : Prop :=
  l !! i = Some None /\ forall j, j < i -> exists y, l !! j = Some (Some y).

Section Fields.
Context `{SubObjects}.

Import blindedBeaconBlockBodyJSON.

(** What the validation of one field reports, the field taken on its own. *)
Definition field_error (f : field) (d : blindedBeaconBlockBodyJSON.t) : option error :=
  match f with
  | randao_reveal =>
      hex_field_error (RANDAOReveal d) phase0.SignatureLength "RANDAO reveal missing"
        "invalid value for RANDAO reveal" "incorrect length for RANDAO reveal"
  | eth1_data => pointer_field_error (ETH1Data d) "ETH1 data"
  | graffiti =>
      hex_field_error (Graffiti d) phase0.GraffitiLength "graffiti missing"
        "invalid value for graffiti" "incorrect length for graffiti"
  | proposer_slashings => sequence_field_error (ProposerSlashings d) "proposer slashings"
  | attester_slashings => sequence_field_error (AttesterSlashings d) "attester slashings"
  | attestations => sequence_field_error (Attestations d) "attestations"
  | deposits => sequence_field_error (Deposits d) "deposits"
  | voluntary_exits => sequence_field_error (VoluntaryExits d) "voluntary exits"
  | sync_aggregate => pointer_field_error (SyncAggregate d) "sync aggregate"
  | execution_payload_header =>
      pointer_field_error (ExecutionPayloadHeader d) "execution payload header"
  | bls_to_execution_changes =>
      optional_sequence_field_error (BLSToExecutionChanges d) "bls to execution changes"
  | blob_kzg_commitments => commitments_field_error (BlobKZGCommitments d)
  | execution_requests => pointer_field_error (ExecutionRequests d) "execution requests"
  end.

(** The commitments array when the decoding loop stops: the entries decoded
    so far, zeroed arrays after them. *)
Fixpoint commitments_so_far (l : list string) : list (list byte) :=
  match l with
  | [] => []
  | x :: l' =>
      match commitment_error x with
      | Some _ => replicate (length l) zero_KZGCommitment
      | None => decoded x :: commitments_so_far l'
      end
  end.

Import BlindedBeaconBlockBody.

(** The receiver once field [f] has been validated. *)
Definition write (f : field) (d : blindedBeaconBlockBodyJSON.t) (b : BlindedBeaconBlockBody.t) : BlindedBeaconBlockBody.t :=
  match f with
  | randao_reveal =>
      set_RANDAOReveal
        (copy (RANDAOReveal b) (decoded (blindedBeaconBlockBodyJSON.RANDAOReveal d))) b
  | eth1_data => set_ETH1Data (blindedBeaconBlockBodyJSON.ETH1Data d) b
  | graffiti =>
      set_Graffiti (copy (Graffiti b) (decoded (blindedBeaconBlockBodyJSON.Graffiti d))) b
  | proposer_slashings =>
      set_ProposerSlashings (blindedBeaconBlockBodyJSON.ProposerSlashings d) b
  | attester_slashings =>
      set_AttesterSlashings (blindedBeaconBlockBodyJSON.AttesterSlashings d) b
  | attestations => set_Attestations (blindedBeaconBlockBodyJSON.Attestations d) b
  | deposits => set_Deposits (blindedBeaconBlockBodyJSON.Deposits d) b
  | voluntary_exits => set_VoluntaryExits (blindedBeaconBlockBodyJSON.VoluntaryExits d) b
  | sync_aggregate => set_SyncAggregate (blindedBeaconBlockBodyJSON.SyncAggregate d) b
  | execution_payload_header =>
      set_ExecutionPayloadHeader (blindedBeaconBlockBodyJSON.ExecutionPayloadHeader d) b
  | bls_to_execution_changes =>
      set_BLSToExecutionChanges
        (Some (elems (blindedBeaconBlockBodyJSON.BLSToExecutionChanges d))) b
  | blob_kzg_commitments =>
      set_BlobKZGCommitments
        (Some (decoded <$> elems (blindedBeaconBlockBodyJSON.BlobKZGCommitments d))) b
  | execution_requests =>
      set_ExecutionRequests (blindedBeaconBlockBodyJSON.ExecutionRequests d) b
  end.

(** The receiver when the validation of field [f] fails: untouched, but for
    the commitments, whose array is replaced before its entries are
    decoded. *)
Definition write_failed (f : field) (d : blindedBeaconBlockBodyJSON.t) (b : BlindedBeaconBlockBody.t) : BlindedBeaconBlockBody.t :=
  match f with
  | blob_kzg_commitments =>
      match blindedBeaconBlockBodyJSON.BlobKZGCommitments d with
      | None => b
      | Some l =>
          match find_index (fun x => String.eqb x EmptyString) l with
          | Some _ => b
          | None => set_BlobKZGCommitments (Some (commitments_so_far l)) b
          end
      end
  | _ => b
  end.

(** The pass as the specification has it: the fields in their order, each
    validated and written, the first error ending the pass. *)
Fixpoint unpack_fields (fs : list field) (d : blindedBeaconBlockBodyJSON.t) : M BlindedBeaconBlockBody.t unit :=
  fun b =>
    match fs with
    | [] => (b, inr ())
    | f :: fs' =>
        match field_error f d with
        | Some e => (write_failed f d b, inl e)
        | None => unpack_fields fs' d (write f d b)
        end
    end.

(** The value of field [f] is the same in two bodies. *)
Definition same_field (f : field) (b b' : BlindedBeaconBlockBody.t) : Prop :=
  match f with
  | randao_reveal => RANDAOReveal b = RANDAOReveal b'
  | eth1_data => ETH1Data b = ETH1Data b'
  | graffiti => Graffiti b = Graffiti b'
  | proposer_slashings => ProposerSlashings b = ProposerSlashings b'
  | attester_slashings => AttesterSlashings b = AttesterSlashings b'
  | attestations => Attestations b = Attestations b'
  | deposits => Deposits b = Deposits b'
  | voluntary_exits => VoluntaryExits b = VoluntaryExits b'
  | sync_aggregate => SyncAggregate b = SyncAggregate b'
  | execution_payload_header => ExecutionPayloadHeader b = ExecutionPayloadHeader b'
  | bls_to_execution_changes => BLSToExecutionChanges b = BLSToExecutionChanges b'
  | blob_kzg_commitments => BlobKZGCommitments b = BlobKZGCommitments b'
  | execution_requests => ExecutionRequests b = ExecutionRequests b'
  end.

(** Field [f] is absent from the document: an empty string, a [nil]
    pointer or a [nil] slice in the struct [json.Unmarshal] filled. *)
Definition absent (f : field) (d : blindedBeaconBlockBodyJSON.t) : bool :=
  match f with
  | randao_reveal => String.eqb (blindedBeaconBlockBodyJSON.RANDAOReveal d) EmptyString
  | eth1_data => is_nil (blindedBeaconBlockBodyJSON.ETH1Data d)
  | graffiti => String.eqb (blindedBeaconBlockBodyJSON.Graffiti d) EmptyString
  | proposer_slashings => is_nil (blindedBeaconBlockBodyJSON.ProposerSlashings d)
  | attester_slashings => is_nil (blindedBeaconBlockBodyJSON.AttesterSlashings d)
  | attestations => is_nil (blindedBeaconBlockBodyJSON.Attestations d)
  | deposits => is_nil (blindedBeaconBlockBodyJSON.Deposits d)
  | voluntary_exits => is_nil (blindedBeaconBlockBodyJSON.VoluntaryExits d)
  | sync_aggregate => is_nil (blindedBeaconBlockBodyJSON.SyncAggregate d)
  | execution_payload_header => is_nil (blindedBeaconBlockBodyJSON.ExecutionPayloadHeader d)
  | bls_to_execution_changes => is_nil (blindedBeaconBlockBodyJSON.BLSToExecutionChanges d)
  | blob_kzg_commitments => is_nil (blindedBeaconBlockBodyJSON.BlobKZGCommitments d)
  | execution_requests => is_nil (blindedBeaconBlockBodyJSON.ExecutionRequests d)
  end.

End Fields.

(** ** Well-formed domain objects *)

(** A slice that is there and holds no [nil] pointer. *)
Definition populated {A} (sl : option (list (option A))) : bool :=
  match sl with
  | None => false
  | Some l => forallb (fun x => negb (is_nil x)) l
  end.

(** A slice that holds no [nil] pointer, if it is there at all. *)
Definition no_nil_entry {A} (sl : option (list (option A))) : bool :=
  forallb (fun x => negb (is_nil x)) (elems sl).

(** A slice of byte arrays of [n] bytes each. *)
Definition arrays_of (n : nat) (sl : option (list (list byte))) : bool :=
  match sl with
  | None => false
  | Some l => forallb (fun k => Nat.eqb (length k) n) l
  end.

Section WellFormed.
Context `{SubObjects}.

(** The byte arrays of a signed block have the length of their type. *)
Definition signed_block_arrays (s : SignedBeaconBlock.t) : Prop :=
  length (SignedBeaconBlock.Signature s) = phase0.SignatureLength.

(** A signed block with its mandatory field populated. *)
Definition well_formed_signed_block (s : SignedBeaconBlock.t) : Prop :=
  signed_block_arrays s /\ is_nil (SignedBeaconBlock.Message s) = false.

(** The two byte arrays of a body itself have the length of their type. *)
Definition body_arrays (b : BlindedBeaconBlockBody.t) : Prop :=
  length (BlindedBeaconBlockBody.RANDAOReveal b) = phase0.SignatureLength /\
  length (BlindedBeaconBlockBody.Graffiti b) = phase0.GraffitiLength.

(** A body with every mandatory field populated; nothing is asked of
    [BLSToExecutionChanges], the one field that is not mandatory. *)
Definition well_formed_body (b : BlindedBeaconBlockBody.t) : Prop :=
  body_arrays b /\
  is_nil (BlindedBeaconBlockBody.ETH1Data b) = false /\
  populated (BlindedBeaconBlockBody.ProposerSlashings b) = true /\
  populated (BlindedBeaconBlockBody.AttesterSlashings b) = true /\
  populated (BlindedBeaconBlockBody.Attestations b) = true /\
  populated (BlindedBeaconBlockBody.Deposits b) = true /\
  populated (BlindedBeaconBlockBody.VoluntaryExits b) = true /\
  is_nil (BlindedBeaconBlockBody.SyncAggregate b) = false /\
  is_nil (BlindedBeaconBlockBody.ExecutionPayloadHeader b) = false /\
  arrays_of deneb.KZGCommitmentLength (BlindedBeaconBlockBody.BlobKZGCommitments b) = true /\
  is_nil (BlindedBeaconBlockBody.ExecutionRequests b) = false.

End WellFormed.

(** The JSON library reads back the struct it wrote. *)
Definition json_faithful (W : Type) `{JSON W} : Prop :=
  forall (w : W) (bs : list byte), json_Marshal w = inr bs -> json_Unmarshal bs = inr w.


(** A string of hexadecimal digits. *)
Fixpoint hex_digits (s : string) : bool :=
  match s with
  | EmptyString => true
  | String c s' => bool_decide (is_Some (hex.fromHexChar c)) && hex_digits s'
  end.

(** ** What is accepted, and what is written back *)

(** The first character of [s] that is no hexadecimal digit. *)
Fixpoint first_invalid (s : string) : option ascii :=
  match s with
  | EmptyString => None
  | String c s' =>
      match hex.fromHexChar c with
      | Some _ => first_invalid s'
      | None => Some c
      end
  end.

(** The lowercase form of a hexadecimal digit, and of a string of them. *)
Definition lower_hex (c : ascii) : ascii :=
  let n := N_of_ascii c in
  if (65 <=? n)%N && (n <=? 70)%N then ascii_of_N (n + 32) else c.

Fixpoint lower (s : string) : string :=
  match s with
  | EmptyString => EmptyString
  | String c s' => String (lower_hex c) (lower s')
  end.

(** A string of digits of [hex.hextable] only. *)
Fixpoint lowercase_digits (s : string) : bool :=
  match s with
  | EmptyString => true
  | String c s' =>
      bool_decide (hex.fromHexChar c ≠ None /\ lower_hex c = c) && lowercase_digits s'
  end.

(** A hex string as [MarshalJSON] writes it. *)
Definition canonical_hex (s : string) : string :=
  "0x" +:+ lower (strings.TrimPrefix s "0x").

(** A hex string of [n] bytes: [2 * n] digits of either case, after an
    optional [0x]. *)
Definition accepts_hex (n : nat) (s : string) : bool :=
  hex_digits (strings.TrimPrefix s "0x") &&
  Nat.eqb (String.length (strings.TrimPrefix s "0x")) (2 * n).

(** The errors a hex field, a container, a list can report. *)
Definition hex_error_form (missing invalid wrong_length : string) (e : error) : Prop :=
  e = errors_New missing \/ (exists c, e = errors_Wrap c invalid) \/ e = errors_New wrong_length.

Definition list_error_form (what : string) (e : error) : Prop :=
  e = errors_New (what +:+ " missing") \/
  exists i : nat, e = fmt_Errorf (what +:+ " entry " +:+ fmt.Sprintf_d i +:+ " missing").

(** The errors field [f] can report. *)
Definition error_form (f : field) (e : error) : Prop :=
  match f with
  | randao_reveal =>
      hex_error_form "RANDAO reveal missing" "invalid value for RANDAO reveal"
        "incorrect length for RANDAO reveal" e
  | eth1_data => e = errors_New "ETH1 data missing"
  | graffiti =>
      hex_error_form "graffiti missing" "invalid value for graffiti"
        "incorrect length for graffiti" e
  | proposer_slashings => list_error_form "proposer slashings" e
  | attester_slashings => list_error_form "attester slashings" e
  | attestations => list_error_form "attestations" e
  | deposits => list_error_form "deposits" e
  | voluntary_exits => list_error_form "voluntary exits" e
  | sync_aggregate => e = errors_New "sync aggregate missing"
  | execution_payload_header => e = errors_New "execution payload header missing"
  | bls_to_execution_changes => list_error_form "bls to execution changes" e
  | blob_kzg_commitments =>
      list_error_form "blob KZG commitments" e \/
      (exists c, e = errors_Wrap c "failed to parse blob KZG commitment") \/
      e = errors_New "incorrect length for blob KZG commitment"
  | execution_requests => e = errors_New "execution requests missing"
  end.

(** A hex string of [n] bytes as it is written: [0x], then [2 * n]
    lowercase digits. *)
Definition written_hex (n : nat) (s : string) : bool :=
  match strings.CutPrefix s "0x" with
  | Some h => lowercase_digits h && Nat.eqb (String.length h) (2 * n)
  | None => false
  end.

Section Accepted.
Context `{SubObjects}.

(** The signed block documents that [unpack] accepts. *)
Definition accepted_signed_block (d : signedBeaconBlockJSON.t) : bool :=
  negb (is_nil (signedBeaconBlockJSON.Message d)) &&
  accepts_hex phase0.SignatureLength (signedBeaconBlockJSON.Signature d).

(** The body documents that [unpack] accepts. *)
Definition accepted_body (d : blindedBeaconBlockBodyJSON.t) : bool :=
  accepts_hex phase0.SignatureLength (blindedBeaconBlockBodyJSON.RANDAOReveal d) &&
  negb (is_nil (blindedBeaconBlockBodyJSON.ETH1Data d)) &&
  accepts_hex phase0.GraffitiLength (blindedBeaconBlockBodyJSON.Graffiti d) &&
  populated (blindedBeaconBlockBodyJSON.ProposerSlashings d) &&
  populated (blindedBeaconBlockBodyJSON.AttesterSlashings d) &&
  populated (blindedBeaconBlockBodyJSON.Attestations d) &&
  populated (blindedBeaconBlockBodyJSON.Deposits d) &&
  populated (blindedBeaconBlockBodyJSON.VoluntaryExits d) &&
  negb (is_nil (blindedBeaconBlockBodyJSON.SyncAggregate d)) &&
  negb (is_nil (blindedBeaconBlockBodyJSON.ExecutionPayloadHeader d)) &&
  no_nil_entry (blindedBeaconBlockBodyJSON.BLSToExecutionChanges d) &&
  match blindedBeaconBlockBodyJSON.BlobKZGCommitments d with
  | None => false
  | Some l => forallb (accepts_hex deneb.KZGCommitmentLength) l
  end &&
  negb (is_nil (blindedBeaconBlockBodyJSON.ExecutionRequests d)).

(** The document that [MarshalJSON] writes for the body unpacked from [d]:
    every hex string in its canonical form, the BLS-to-execution changes
    never [nil]. *)
Definition canonical_body (d : blindedBeaconBlockBodyJSON.t) : blindedBeaconBlockBodyJSON.t :=
  blindedBeaconBlockBodyJSON.mk
    (canonical_hex (blindedBeaconBlockBodyJSON.RANDAOReveal d))
    (blindedBeaconBlockBodyJSON.ETH1Data d)
    (canonical_hex (blindedBeaconBlockBodyJSON.Graffiti d))
    (blindedBeaconBlockBodyJSON.ProposerSlashings d)
    (blindedBeaconBlockBodyJSON.AttesterSlashings d)
    (blindedBeaconBlockBodyJSON.Attestations d)
    (blindedBeaconBlockBodyJSON.Deposits d)
    (blindedBeaconBlockBodyJSON.VoluntaryExits d)
    (blindedBeaconBlockBodyJSON.SyncAggregate d)
    (blindedBeaconBlockBodyJSON.ExecutionPayloadHeader d)
    (Some (elems (blindedBeaconBlockBodyJSON.BLSToExecutionChanges d)))
    (Some (canonical_hex <$> elems (blindedBeaconBlockBodyJSON.BlobKZGCommitments d)))
    (blindedBeaconBlockBodyJSON.ExecutionRequests d).

Definition canonical_signed_block (d : signedBeaconBlockJSON.t) : signedBeaconBlockJSON.t :=
  signedBeaconBlockJSON.mk (signedBeaconBlockJSON.Message d)
    (canonical_hex (signedBeaconBlockJSON.Signature d)).

(** The body a valid document is unpacked to. *)
Definition unpacked (d : blindedBeaconBlockBodyJSON.t) : BlindedBeaconBlockBody.t :=
  BlindedBeaconBlockBody.mk
    (decoded (blindedBeaconBlockBodyJSON.RANDAOReveal d))
    (blindedBeaconBlockBodyJSON.ETH1Data d)
    (decoded (blindedBeaconBlockBodyJSON.Graffiti d))
    (blindedBeaconBlockBodyJSON.ProposerSlashings d)
    (blindedBeaconBlockBodyJSON.AttesterSlashings d)
    (blindedBeaconBlockBodyJSON.Attestations d)
    (blindedBeaconBlockBodyJSON.Deposits d)
    (blindedBeaconBlockBodyJSON.VoluntaryExits d)
    (blindedBeaconBlockBodyJSON.SyncAggregate d)
    (blindedBeaconBlockBodyJSON.ExecutionPayloadHeader d)
    (Some (elems (blindedBeaconBlockBodyJSON.BLSToExecutionChanges d)))
    (Some (decoded <$> elems (blindedBeaconBlockBodyJSON.BlobKZGCommitments d)))
    (blindedBeaconBlockBodyJSON.ExecutionRequests d).

(** The bodies whose JSON [UnmarshalJSON] reads back: the mandatory
    pointers and lists are there, and no list holds a [nil] entry. *)
Definition reads_back (o : BlindedBeaconBlockBody.t) : bool :=
  negb (is_nil (BlindedBeaconBlockBody.ETH1Data o)) &&
  populated (BlindedBeaconBlockBody.ProposerSlashings o) &&
  populated (BlindedBeaconBlockBody.AttesterSlashings o) &&
  populated (BlindedBeaconBlockBody.Attestations o) &&
  populated (BlindedBeaconBlockBody.Deposits o) &&
  populated (BlindedBeaconBlockBody.VoluntaryExits o) &&
  negb (is_nil (BlindedBeaconBlockBody.SyncAggregate o)) &&
  negb (is_nil (BlindedBeaconBlockBody.ExecutionPayloadHeader o)) &&
  no_nil_entry (BlindedBeaconBlockBody.BLSToExecutionChanges o) &&
  negb (is_nil (BlindedBeaconBlockBody.ExecutionRequests o)).

(** The byte arrays of a body, those of its commitments included, have the
    lengths of their types. *)
Definition body_arrays_all (o : BlindedBeaconBlockBody.t) : Prop :=
  body_arrays o /\
  Forall (fun k => length k = deneb.KZGCommitmentLength)
    (elems (BlindedBeaconBlockBody.BlobKZGCommitments o)).

End Accepted.

(** ** Sample collaborators and objects *)

Module Sample.

(** Every nested container is a number. *)
#[local] Instance objects : SubObjects := {|
  electra_BeaconBlock := nat;
  phase0_ETH1Data := nat;
  phase0_ProposerSlashing := nat;
  electra_AttesterSlashing := nat;
  electra_Attestation := nat;
  phase0_Deposit := nat;
  phase0_SignedVoluntaryExit := nat;
  altair_SyncAggregate := nat;
  deneb_ExecutionPayloadHeader := nat;
  capella_SignedBLSToExecutionChange := nat;
  electra_ExecutionRequests := nat;
|}.

#[local] Instance signedBeaconBlockJSON_eq_dec : EqDecision signedBeaconBlockJSON.t.
Proof. unfold electra_BeaconBlock, objects. solve_decision. Defined.

#[local] Instance blindedBeaconBlockBodyJSON_eq_dec : EqDecision blindedBeaconBlockBodyJSON.t.
Proof.
  unfold phase0_ETH1Data, phase0_ProposerSlashing, electra_AttesterSlashing,
    electra_Attestation, phase0_Deposit, phase0_SignedVoluntaryExit,
    altair_SyncAggregate, deneb_ExecutionPayloadHeader,
    capella_SignedBLSToExecutionChange, electra_ExecutionRequests, objects.
  solve_decision.
Defined.

(** A JSON library that knows one document, the empty text, which stands
    for the struct [w0]. *)
Definition one_document {W} `{EqDecision W} (w0 : W) : JSON W := {|
  json_Marshal w :=
    if decide (w = w0) then inr [] else inl (lib_error "json: unsupported value");
  json_Unmarshal _ := inr w0;
|}.

Definition signature : list byte := replicate 96 Byte.xab.
Definition signature_hex : string := Eval vm_compute in hex.EncodeToString signature.
Definition graffiti_bytes : list byte := replicate 32 Byte.x4c.
Definition graffiti_hex : string := Eval vm_compute in hex.EncodeToString graffiti_bytes.
Definition commitment : list byte := replicate 48 Byte.xc0.
Definition commitment_hex : string := Eval vm_compute in hex.EncodeToString commitment.

(** A receiver as [new(T)] gives it: zeroed arrays, [nil] everywhere. *)
Definition zero_signed_block : SignedBeaconBlock.t :=
  SignedBeaconBlock.mk None (replicate 96 Byte.x00).

Definition zero_body : BlindedBeaconBlockBody.t :=
  BlindedBeaconBlockBody.mk (replicate 96 Byte.x00) None (replicate 32 Byte.x00)
    None None None None None None None None None None.

Definition signed_block : SignedBeaconBlock.t :=
  SignedBeaconBlock.mk (Some 7) signature.

Definition signed_block_json : signedBeaconBlockJSON.t :=
  signedBeaconBlockJSON.mk (Some 7) ("0x" +:+ signature_hex).

(** A body with every field there. *)
Definition body : BlindedBeaconBlockBody.t :=
  BlindedBeaconBlockBody.mk signature (Some 1) graffiti_bytes
    (Some [Some 2]) (Some []) (Some [Some 3; Some 4]) (Some [Some 5]) (Some [])
    (Some 6) (Some 7) (Some [Some 8]) (Some [commitment; commitment]) (Some 9).

Definition body_json : blindedBeaconBlockBodyJSON.t :=
  blindedBeaconBlockBodyJSON.mk ("0x" +:+ signature_hex) (Some 1) ("0x" +:+ graffiti_hex)
    (Some [Some 2]) (Some []) (Some [Some 3; Some 4]) (Some [Some 5]) (Some [])
    (Some 6) (Some 7) (Some [Some 8])
    (Some ["0x" +:+ commitment_hex; "0x" +:+ commitment_hex]) (Some 9).

(** The same body with [BLSToExecutionChanges] left [nil]. *)
Definition body_without_changes : BlindedBeaconBlockBody.t :=
  BlindedBeaconBlockBody.set_BLSToExecutionChanges None body.

Definition body_json_without_changes : blindedBeaconBlockBodyJSON.t :=
  blindedBeaconBlockBodyJSON.mk ("0x" +:+ signature_hex) (Some 1) ("0x" +:+ graffiti_hex)
    (Some [Some 2]) (Some []) (Some [Some 3; Some 4]) (Some [Some 5]) (Some [])
    (Some 6) (Some 7) None
    (Some ["0x" +:+ commitment_hex; "0x" +:+ commitment_hex]) (Some 9).

(** The body document with [eth1_data] omitted. *)
Definition body_json_without_eth1 : blindedBeaconBlockBodyJSON.t :=
  blindedBeaconBlockBodyJSON.mk ("0x" +:+ signature_hex) None ("0x" +:+ graffiti_hex)
    (Some [Some 2]) (Some []) (Some [Some 3; Some 4]) (Some [Some 5]) (Some [])
    (Some 6) (Some 7) (Some [Some 8])
    (Some ["0x" +:+ commitment_hex; "0x" +:+ commitment_hex]) (Some 9).

(** The signed block document with an empty [signature]. *)
Definition signed_block_json_without_signature : signedBeaconBlockJSON.t :=
  signedBeaconBlockJSON.mk (Some 7) EmptyString.

(** The signed block document with its signature after an uppercase
    prefix, and with no prefix at all. *)
Definition signed_block_json_uppercase : signedBeaconBlockJSON.t :=
  signedBeaconBlockJSON.mk (Some 7) ("0X" +:+ signature_hex).

Definition signed_block_json_digits : signedBeaconBlockJSON.t :=
  signedBeaconBlockJSON.mk (Some 7) signature_hex.

(** A bundle of no block, one proof and no blob, and its documents. *)
Definition contents : SignedBlockContents.t :=
  SignedBlockContents.mk None (Some [commitment]) (Some []).

(** The bytes of a string, and a string between double quotes. *)
Definition bytes_of (s : string) : list byte :=
  byte_of_ascii <$> list_ascii_of_string s.

Definition quoted (s : string) : string :=
  String (ascii_of_byte double_quote) (s +:+ String (ascii_of_byte double_quote) EmptyString).

(** A flow-style writer for bundles of no block and no blob: the proofs
    are written as double-quoted hex scalars. *)
Definition flow_writer : YAMLMarshal signedBlockContentsYAML.t := {|
  yaml_MarshalWithOptions_Flow w :=
    match signedBlockContentsYAML.SignedBlock w, signedBlockContentsYAML.Blobs w with
    | None, Some [] =>
        inr (bytes_of
               ("{signed_block: null, kzg_proofs: [" +:+
                String.concat ", "
                  ((fun k => quoted (fmt.Sprintf_sharp_x k)) <$>
                   elems (signedBlockContentsYAML.KZGProofs w)) +:+
                "], blobs: []}"))
    | _, _ => inl (lib_error "yaml: unsupported value")
    end;
|}.





#[local] Instance SignedBeaconBlock_eq_dec : EqDecision SignedBeaconBlock.t.
Proof. unfold electra_BeaconBlock, objects. solve_decision. Defined.

#[local] Instance signedBlockContentsJSON_eq_dec : EqDecision signedBlockContentsJSON.t.
Proof. solve_decision. Defined.

#[local] Instance signedBlockContentsYAML_eq_dec : EqDecision signedBlockContentsYAML.t.
Proof. solve_decision. Defined.





(** The body document with [nil] for its one deposit. *)
Definition body_json_null_deposit : blindedBeaconBlockBodyJSON.t :=
  blindedBeaconBlockBodyJSON.mk ("0x" +:+ signature_hex) (Some 1) ("0x" +:+ graffiti_hex)
    (Some [Some 2]) (Some []) (Some [Some 3; Some 4]) (Some [None]) (Some [])
    (Some 6) (Some 7) (Some [Some 8])
    (Some ["0x" +:+ commitment_hex; "0x" +:+ commitment_hex]) (Some 9).

(** The body document with [nil] for the second of two changes. *)
Definition body_json_null_change : blindedBeaconBlockBodyJSON.t :=
  blindedBeaconBlockBodyJSON.mk ("0x" +:+ signature_hex) (Some 1) ("0x" +:+ graffiti_hex)
    (Some [Some 2]) (Some []) (Some [Some 3; Some 4]) (Some [Some 5]) (Some [])
    (Some 6) (Some 7) (Some [Some 8; None])
    (Some ["0x" +:+ commitment_hex; "0x" +:+ commitment_hex]) (Some 9).

(** The body document with a bare [0x] for its graffiti. *)
Definition body_json_bare_graffiti : blindedBeaconBlockBodyJSON.t :=
  blindedBeaconBlockBodyJSON.mk ("0x" +:+ signature_hex) (Some 1) "0x"
    (Some [Some 2]) (Some []) (Some [Some 3; Some 4]) (Some [Some 5]) (Some [])
    (Some 6) (Some 7) (Some [Some 8])
    (Some ["0x" +:+ commitment_hex; "0x" +:+ commitment_hex]) (Some 9).

(** The body document with a second commitment of 47 bytes. *)
Definition body_json_short_commitment : blindedBeaconBlockBodyJSON.t :=
  blindedBeaconBlockBodyJSON.mk ("0x" +:+ signature_hex) (Some 1) ("0x" +:+ graffiti_hex)
    (Some [Some 2]) (Some []) (Some [Some 3; Some 4]) (Some [Some 5]) (Some [])
    (Some 6) (Some 7) (Some [Some 8])
    (Some ["0x" +:+ commitment_hex;
           "0x" +:+ hex.EncodeToString (replicate 47 Byte.xc0)]) (Some 9).

(** The signed block document with a signature of 95 bytes, and with a
    bare [0x] for its signature. *)
Definition signed_block_json_short : signedBeaconBlockJSON.t :=
  signedBeaconBlockJSON.mk (Some 7) ("0x" +:+ hex.EncodeToString (replicate 95 Byte.xab)).

Definition signed_block_json_bare : signedBeaconBlockJSON.t :=
  signedBeaconBlockJSON.mk (Some 7) "0x".

(** The signed block document with its signature in uppercase digits. *)
Definition signed_block_json_uppercase_digits : signedBeaconBlockJSON.t :=
  signedBeaconBlockJSON.mk (Some 7) ("0x" +:+ String.concat EmptyString (replicate 96 "AB")).

(** The body document with the prefix of its RANDAO reveal twice. *)
Definition body_json_doubled_prefix : blindedBeaconBlockBodyJSON.t :=
  blindedBeaconBlockBodyJSON.mk ("0x0x" +:+ signature_hex) (Some 1) ("0x" +:+ graffiti_hex)
    (Some [Some 2]) (Some []) (Some [Some 3; Some 4]) (Some [Some 5]) (Some [])
    (Some 6) (Some 7) (Some [Some 8])
    (Some ["0x" +:+ commitment_hex; "0x" +:+ commitment_hex]) (Some 9).

(** The JSON libraries of the samples. *)
Definition signed_block_JSON : JSON signedBeaconBlockJSON.t :=
  one_document signed_block_json.

Definition body_JSON : JSON blindedBeaconBlockBodyJSON.t :=
  one_document body_json.

Definition body_JSON_without_changes : JSON blindedBeaconBlockBodyJSON.t :=
  one_document body_json_without_changes.

End Sample.

(** * Properties *)

(** ** The hex codec *)

Example DecodeString_ab : hex.DecodeString "0aFf" = inr [Byte.x0a; Byte.xff].
Proof. reflexivity. Qed.

Example DecodeString_odd : hex.DecodeString "0aF" = inl hex_ErrLength.
Proof. reflexivity. Qed.

Example DecodeString_bad : hex.DecodeString "0X0a" = inl (hex_InvalidByteError "X").
Proof. reflexivity. Qed.

Example Sprintf_ab : fmt.Sprintf_sharp_x [Byte.x0a; Byte.xff] = "0x0aff".
Proof. reflexivity. Qed.

Example Sprintf_d_12 : fmt.Sprintf_d 12 = "12".
Proof. reflexivity. Qed.

Example copy_short : copy [Byte.x01; Byte.x02; Byte.x03] [Byte.xff] = [Byte.xff; Byte.x02; Byte.x03].
Proof. reflexivity. Qed.

Example DecodeString_mixed_case : hex.DecodeString "aBcD" = inr [Byte.xab; Byte.xcd].
Proof. reflexivity. Qed.

Example DecodeString_bad_before_odd : hex.DecodeString "0g1" = inl (hex_InvalidByteError "g").
Proof. reflexivity. Qed.

Example TrimPrefix_lowercase_only :
  strings.TrimPrefix "0xab" "0x" = "ab" /\ strings.TrimPrefix "0Xab" "0x" = "0Xab" /\
  strings.TrimPrefix "ab" "0x" = "ab".
Proof. by split_and!. Qed.

Example ReplaceAll_sample :
  bytes.ReplaceAll [Byte.x5b; Byte.x22; Byte.x61; Byte.x22; Byte.x5d] [Byte.x22] [Byte.x27] =
  [Byte.x5b; Byte.x27; Byte.x61; Byte.x27; Byte.x5d].
Proof. reflexivity. Qed.

Example ReplaceAll_longer_pattern :
  bytes.ReplaceAll [Byte.x61; Byte.x61; Byte.x61; Byte.x62] [Byte.x61; Byte.x61] [Byte.x63] =
  [Byte.x63; Byte.x61; Byte.x62].
Proof. reflexivity. Qed.

Example unpack_sample_signed_block :
  SignedBeaconBlock.unpack Sample.signed_block_json Sample.zero_signed_block =
  (Sample.signed_block, inr ()).
Proof. vm_compute. reflexivity. Qed.

Example unpack_sample_body :
  BlindedBeaconBlockBody.unpack Sample.body_json Sample.zero_body = (Sample.body, inr ()).
Proof. vm_compute. reflexivity. Qed.

Example unpack_sample_null_change :
  err_of (BlindedBeaconBlockBody.unpack Sample.body_json_null_change Sample.zero_body) =
  Some (fmt_Errorf "bls to execution changes entry 1 missing").
Proof. vm_compute. reflexivity. Qed.

Example unpack_sample_short_commitment :
  err_of (BlindedBeaconBlockBody.unpack Sample.body_json_short_commitment Sample.zero_body) =
    Some (errors_New "incorrect length for blob KZG commitment") /\
  BlindedBeaconBlockBody.BlobKZGCommitments
    (BlindedBeaconBlockBody.unpack Sample.body_json_short_commitment Sample.zero_body).1 =
    Some [Sample.commitment; zero_KZGCommitment].
Proof. split; vm_compute; reflexivity. Qed.

Example MarshalYAML_sample :
  @SignedBlockContents.MarshalYAML Sample.objects Sample.flow_writer Sample.contents =
  inr (Sample.bytes_of
         ("{signed_block: null, kzg_proofs: ['0x" +:+ Sample.commitment_hex +:+
          "'], blobs: []}")).
Proof. vm_compute. reflexivity. Qed.

Lemma DecodeString_pair (p q : ascii) (rest : string) :
  hex.DecodeString (String p (String q rest)) =
  match hex.fromHexChar p with
  | None => inl (hex_InvalidByteError p)
  | Some a =>
      match hex.fromHexChar q with
      | None => inl (hex_InvalidByteError q)
      | Some b =>
          match hex.DecodeString rest with
          | inl e => inl e
          | inr bs => inr (hex.join a b :: bs)
          end
      end
  end.
Proof. reflexivity. Qed.

Lemma byte_digits (v : byte) :
  hex.fromHexChar (hex.digit (N.shiftr (Byte.to_N v) 4)) = Some (N.shiftr (Byte.to_N v) 4) /\
  hex.fromHexChar (hex.digit (N.land (Byte.to_N v) 15)) = Some (N.land (Byte.to_N v) 15) /\
  hex.join (N.shiftr (Byte.to_N v) 4) (N.land (Byte.to_N v) 15) = v.
Proof. destruct v; vm_compute; auto. Qed.

Lemma DecodeString_EncodeToString (bs : list byte) :
  hex.DecodeString (hex.EncodeToString bs) = inr bs.
Proof.
  induction bs as [|v bs IH]; [reflexivity|].
  cbn [hex.EncodeToString]. rewrite DecodeString_pair.
  destruct (byte_digits v) as (-> & -> & ->). by rewrite IH.
Qed.

Lemma TrimPrefix_0x (s : string) : strings.TrimPrefix ("0x" +:+ s) "0x" = s.
Proof. reflexivity. Qed.

Lemma hex_bytes_Sprintf (bs : list byte) :
  hex_bytes (fmt.Sprintf_sharp_x bs) = inr bs.
Proof.
  unfold hex_bytes. destruct bs as [|v bs]; [reflexivity|].
  unfold fmt.Sprintf_sharp_x. rewrite TrimPrefix_0x. apply DecodeString_EncodeToString.
Qed.

Lemma Sprintf_nonempty (bs : list byte) :
  bs <> [] -> String.eqb (fmt.Sprintf_sharp_x bs) EmptyString = false.
Proof. by destruct bs. Qed.

Lemma TrimPrefix_hex_digits (h : string) :
  hex_digits h = true -> strings.TrimPrefix h "0x" = h.
Proof.
  unfold strings.TrimPrefix.
  destruct h as [|c h]; [reflexivity|]. cbn [strings.CutPrefix].
  destruct (Ascii.eqb c "0"); [|reflexivity].
  destruct h as [|c' h]; [reflexivity|].
  destruct (Ascii.eqb_spec c' "x") as [->|]; [|reflexivity].
  cbn [hex_digits]. intros Hh.
  apply andb_prop in Hh as [_ Hh]. apply andb_prop in Hh as [Hh _].
  by apply bool_decide_eq_true in Hh as [? [=]].
Qed.

Lemma DecodeString_0X (h : string) :
  hex.DecodeString (strings.TrimPrefix ("0X" +:+ h) "0x") = inl (hex_InvalidByteError "X").
Proof. reflexivity. Qed.

Lemma hex_bytes_0x (h : string) :
  hex_digits h = true -> hex_bytes ("0x" +:+ h) = hex_bytes h.
Proof. intros Hh. unfold hex_bytes. by rewrite TrimPrefix_0x, TrimPrefix_hex_digits. Qed.

Lemma string_pairs_ind (P : string -> Prop) :
  P EmptyString ->
  (forall c, P (String c EmptyString)) ->
  (forall p q s, P s -> P (String p (String q s))) ->
  forall s, P s.
Proof.
  intros Hnil Hone Hpair. fix IH 1.
  intros [|p [|q s]]; [apply Hnil|apply Hone|apply Hpair, IH].
Qed.

Lemma DecodeString_hex_digits (h : string) :
  hex_digits h = true -> Nat.Even (String.length h) ->
  exists bs, hex.DecodeString h = inr bs /\ 2 * length bs = String.length h.
Proof.
  induction h as [|c|p q h IH] using string_pairs_ind; intros Hh Hev.
  - by exists [].
  - destruct Hev as [k Hk]. cbn in Hk. lia.
  - cbn [hex_digits] in Hh.
    apply andb_prop in Hh as [Hp Hh]. apply andb_prop in Hh as [Hq Hh].
    apply bool_decide_eq_true in Hp as [a Ha], Hq as [b Hb].
    destruct IH as (bs & Hbs & Hlen); [done| |].
    { destruct Hev as [k Hk]. cbn [String.length] in Hk. exists (k - 1). lia. }
    exists (hex.join a b :: bs). rewrite DecodeString_pair, Ha, Hb, Hbs.
    split; [done|]. cbn [length String.length]. lia.
Qed.

(** ** Running a method *)

Lemma bind_run {S A B} (m : M S A) (f : A -> M S B) (s : S) :
  (m ≫= f) s = match m s with
               | (s', inl e) => (s', inl e)
               | (s', inr a) => f a s'
               end.
Proof. reflexivity. Qed.

Lemma for_range_from_check {S A} (p : A -> bool) (err : nat -> error) (l : list A) :
  forall (i : nat) (s : S),
    for_range_from i l (fun i x => return_if (p x) (err i)) s =
    match find_index p l with
    | Some k => (s, inl (err (i + k)))
    | None => (s, inr ())
    end.
Proof.
  induction l as [|x l IH]; intros i s; [reflexivity|].
  cbn [for_range_from find_index]. rewrite bind_run.
  destruct (p x); cbn [return_if raise mret M_ret].
  - by rewrite Nat.add_0_r.
  - rewrite IH. destruct (find_index p l) as [k|]; cbn; [|done].
    by rewrite Nat.add_succ_r.
Qed.

Lemma for_range_check {S A} (p : A -> bool) (err : nat -> error) (sl : option (list A)) (s : S) :
  for_range sl (fun i x => return_if (p x) (err i)) s =
  match find_index p (elems sl) with
  | Some k => (s, inl (err k))
  | None => (s, inr ())
  end.
Proof. unfold for_range. by rewrite for_range_from_check. Qed.

Lemma for_range_entries {S A} (what : string) (sl : option (list (option A))) (s : S) :
  for_range sl (fun i x =>
    return_if (is_nil x) (fmt_Errorf (what +:+ fmt.Sprintf_d i +:+ " missing"))) s =
  match find_index is_nil (elems sl) with
  | Some k => (s, inl (fmt_Errorf (what +:+ fmt.Sprintf_d k +:+ " missing")))
  | None => (s, inr ())
  end.
Proof.
  apply (for_range_check is_nil
           (fun i => fmt_Errorf (what +:+ fmt.Sprintf_d i +:+ " missing"))).
Qed.

Lemma for_range_strings {S} (what : string) (sl : option (list string)) (s : S) :
  for_range sl (fun i x =>
    return_if (String.eqb x EmptyString)
      (fmt_Errorf (what +:+ fmt.Sprintf_d i +:+ " missing"))) s =
  match find_index (fun x => String.eqb x EmptyString) (elems sl) with
  | Some k => (s, inl (fmt_Errorf (what +:+ fmt.Sprintf_d k +:+ " missing")))
  | None => (s, inr ())
  end.
Proof.
  apply (for_range_check (fun x => String.eqb x EmptyString)
           (fun i => fmt_Errorf (what +:+ fmt.Sprintf_d i +:+ " missing"))).
Qed.

Lemma copy_full (dst src : list byte) : length dst = length src -> copy dst src = src.
Proof.
  intros Hl. unfold copy. rewrite Hl, take_ge, drop_ge by lia. apply app_nil_r.
Qed.

Lemma hex_field_error_eq (s : string) (n : nat) (missing invalid wrong_length : string) :
  hex_field_error s n missing invalid wrong_length =
  if String.eqb s EmptyString then Some (errors_New missing)
  else match hex.DecodeString (strings.TrimPrefix s "0x") with
       | inl e => Some (errors_Wrap e invalid)
       | inr bs =>
           if Nat.eqb (length bs) n then None else Some (errors_New wrong_length)
       end.
Proof. reflexivity. Qed.

Lemma decoded_eq (s : string) :
  decoded s =
  match hex.DecodeString (strings.TrimPrefix s "0x") with
  | inr bs => bs
  | inl _ => []
  end.
Proof. reflexivity. Qed.

Ltac run_step :=
  repeat first
    [ rewrite bind_run
    | progress (cbn [return_if wrap_err raise mret M_ret modify negb is_nil elems]) ].

Ltac pointer_step p :=
  unfold pointer_field_error at 1; run_step; destruct p; run_step; [|reflexivity].

Ltac sequence_step sl :=
  unfold sequence_field_error at 1; run_step;
  destruct sl as [sl|]; run_step; [|reflexivity];
  rewrite for_range_entries; unfold entries_error at 1; cbn [elems];
  destruct (find_index is_nil sl); run_step; [reflexivity|].

Ltac hex_step s :=
  rewrite hex_field_error_eq, (decoded_eq s); run_step;
  destruct (String.eqb s EmptyString); run_step; [reflexivity|];
  destruct (hex.DecodeString (strings.TrimPrefix s "0x")); run_step; [reflexivity|];
  match goal with
  | |- context [Nat.eqb ?n ?m] => destruct (Nat.eqb n m); run_step; [|reflexivity]
  end.

Section Unpack.
Context `{SubObjects}.

Lemma set_BlobKZGCommitments_id (b : BlindedBeaconBlockBody.t) v :
  BlindedBeaconBlockBody.BlobKZGCommitments b = v ->
  BlindedBeaconBlockBody.set_BlobKZGCommitments v b = b.
Proof. intros <-. by destruct b. Qed.

Lemma commitment_error_eq (x : string) :
  commitment_error x =
  match hex.DecodeString (strings.TrimPrefix x "0x") with
  | inl e => Some (errors_Wrap e "failed to parse blob KZG commitment")
  | inr bs =>
      if Nat.eqb (length bs) deneb.KZGCommitmentLength then None
      else Some (errors_New "incorrect length for blob KZG commitment")
  end.
Proof. reflexivity. Qed.

Lemma commitments_loop (l : list string) :
  forall (pre : list (list byte)) (b : BlindedBeaconBlockBody.t),
    BlindedBeaconBlockBody.BlobKZGCommitments b =
      Some (pre ++ replicate (length l) zero_KZGCommitment) ->
    for_range_from (length pre) l (fun i x =>
      data' ← wrap_err (hex.DecodeString (strings.TrimPrefix x "0x"))
        "failed to parse blob KZG commitment";
      return_if (negb (Nat.eqb (length data') deneb.KZGCommitmentLength))
        (errors_New "incorrect length for blob KZG commitment");;
      modify (BlindedBeaconBlockBody.copy_KZGCommitment i data')) b =
    (BlindedBeaconBlockBody.set_BlobKZGCommitments (Some (pre ++ commitments_so_far l)) b,
     match first_error (commitment_error <$> l) with
     | Some e => inl e
     | None => inr ()
     end).
Proof.
  induction l as [|x l IH]; intros pre b Hb.
  - cbn [for_range_from commitments_so_far fmap list_fmap first_error mret M_ret].
    by rewrite set_BlobKZGCommitments_id.
  - cbn [for_range_from commitments_so_far fmap list_fmap first_error].
    rewrite bind_run, bind_run.
    rewrite !(commitment_error_eq x).
    destruct (hex.DecodeString (strings.TrimPrefix x "0x")) as [e|bs] eqn:Hx;
      cbn [wrap_err raise mret M_ret].
    { by rewrite set_BlobKZGCommitments_id. }
    rewrite bind_run.
    destruct (Nat.eqb (length bs) deneb.KZGCommitmentLength) eqn:Hn;
      cbn [negb return_if raise mret M_ret].
    2:{ by rewrite set_BlobKZGCommitments_id. }
    apply Nat.eqb_eq in Hn.
    cbn [modify].
    specialize (IH (pre ++ [bs]) (BlindedBeaconBlockBody.copy_KZGCommitment (length pre) bs b)).
    rewrite length_app in IH. cbn [length] in IH.
    rewrite Nat.add_1_r in IH. rewrite IH.
    + unfold decoded, hex_bytes. rewrite Hx.
      rewrite <- app_assoc. cbn [app].
      destruct (first_error (commitment_error <$> l)); reflexivity.
    + unfold BlindedBeaconBlockBody.copy_KZGCommitment.
      rewrite Hb. cbn [length replicate]. cbn [BlindedBeaconBlockBody.set_BlobKZGCommitments BlindedBeaconBlockBody.BlobKZGCommitments fmap option_fmap option_map].
      f_equal.
      rewrite <- app_assoc. cbn [app].
      rewrite <- (Nat.add_0_r (length pre)), alter_app_r.
      cbn [alter list_alter]. by rewrite copy_full.
Qed.


Lemma commitments_so_far_ok (l : list string) :
  first_error (commitment_error <$> l) = None ->
  commitments_so_far l = decoded <$> l.
Proof.
  induction l as [|x l IH]; [done|].
  cbn [fmap list_fmap first_error commitments_so_far].
  destruct (commitment_error x); [done|]. intros Hl. by rewrite IH.
Qed.

Lemma commitments_range (l : list string) (b : BlindedBeaconBlockBody.t) :
  for_range (Some l) (fun i x =>
    data' ← wrap_err (hex.DecodeString (strings.TrimPrefix x "0x"))
      "failed to parse blob KZG commitment";
    return_if (negb (Nat.eqb (length data') deneb.KZGCommitmentLength))
      (errors_New "incorrect length for blob KZG commitment");;
    modify (BlindedBeaconBlockBody.copy_KZGCommitment i data'))
    (BlindedBeaconBlockBody.set_BlobKZGCommitments
       (BlindedBeaconBlockBody.make_KZGCommitments (length l)) b) =
  (BlindedBeaconBlockBody.set_BlobKZGCommitments (Some (commitments_so_far l)) b,
   match first_error (commitment_error <$> l) with
   | Some e => inl e
   | None => inr ()
   end).
Proof.
  unfold for_range. cbn [elems].
  by rewrite (commitments_loop l []).
Qed.

Lemma unpack_unpack_fields (d : blindedBeaconBlockBodyJSON.t) (b : BlindedBeaconBlockBody.t) :
  BlindedBeaconBlockBody.unpack d b = unpack_fields fields d b.
Proof.
  destruct d as [r e g ps ats att dp ve sa eph bls kzg er].
  unfold BlindedBeaconBlockBody.unpack, fields.
  cbn [unpack_fields field_error write write_failed
       blindedBeaconBlockBodyJSON.RANDAOReveal blindedBeaconBlockBodyJSON.ETH1Data
       blindedBeaconBlockBodyJSON.Graffiti blindedBeaconBlockBodyJSON.ProposerSlashings
       blindedBeaconBlockBodyJSON.AttesterSlashings blindedBeaconBlockBodyJSON.Attestations
       blindedBeaconBlockBodyJSON.Deposits blindedBeaconBlockBodyJSON.VoluntaryExits
       blindedBeaconBlockBodyJSON.SyncAggregate blindedBeaconBlockBodyJSON.ExecutionPayloadHeader
       blindedBeaconBlockBodyJSON.BLSToExecutionChanges blindedBeaconBlockBodyJSON.BlobKZGCommitments
       blindedBeaconBlockBodyJSON.ExecutionRequests].
  hex_step r.
  pointer_step e.
  hex_step g.
  sequence_step ps.
  sequence_step ats.
  sequence_step att.
  sequence_step dp.
  sequence_step ve.
  pointer_step sa.
  pointer_step eph.
  (* the optional list *)
  unfold optional_sequence_field_error at 1.
  assert (forall b1 : BlindedBeaconBlockBody.t,
    (return_if (is_nil kzg) (errors_New "blob KZG commitments missing");;
     for_range kzg (fun i x =>
       return_if (String.eqb x EmptyString)
         (fmt_Errorf ("blob KZG commitments entry " +:+ fmt.Sprintf_d i +:+ " missing")));;
     modify (BlindedBeaconBlockBody.set_BlobKZGCommitments
               (BlindedBeaconBlockBody.make_KZGCommitments (length (elems kzg))));;
     for_range kzg (fun i x =>
       data' ← wrap_err (hex.DecodeString (strings.TrimPrefix x "0x"))
         "failed to parse blob KZG commitment";
       return_if (negb (Nat.eqb (length data') deneb.KZGCommitmentLength))
         (errors_New "incorrect length for blob KZG commitment");;
       modify (BlindedBeaconBlockBody.copy_KZGCommitment i data'));;
     return_if (is_nil er) (errors_New "execution requests missing");;
     modify (BlindedBeaconBlockBody.set_ExecutionRequests er);;
     mret ()) b1 =
    match commitments_field_error kzg with
    | Some e =>
        (match kzg with
         | Some l =>
             match find_index (fun x => String.eqb x EmptyString) l with
             | Some _ => b1
             | None =>
                 BlindedBeaconBlockBody.set_BlobKZGCommitments
                   (Some (commitments_so_far l)) b1
             end
         | None => b1
         end, inl e)
    | None =>
        match pointer_field_error er "execution requests" with
        | Some e =>
            (BlindedBeaconBlockBody.set_BlobKZGCommitments
               (Some (decoded <$> elems kzg)) b1, inl e)
        | None =>
            (BlindedBeaconBlockBody.set_ExecutionRequests er
               (BlindedBeaconBlockBody.set_BlobKZGCommitments
                  (Some (decoded <$> elems kzg)) b1), inr ())
        end
    end) as Htail.
  { intros b1. unfold commitments_field_error. run_step.
    destruct kzg as [kzg|]; run_step; [|reflexivity].
    rewrite for_range_strings. cbn [elems].
    destruct (find_index (fun x => String.eqb x EmptyString) kzg); run_step; [reflexivity|].
    rewrite commitments_range.
    destruct (first_error (commitment_error <$> kzg)) eqn:Hkzg; [reflexivity|].
    rewrite (commitments_so_far_ok _ Hkzg).
    pointer_step er. reflexivity. }
  destruct bls as [bls|]; run_step.
  - rewrite for_range_entries. unfold entries_error at 1. cbn [elems].
    destruct (find_index is_nil bls); run_step; [reflexivity|].
    apply Htail.
  - apply Htail.
Qed.
End Unpack.

(** ** The pass, field by field *)

Section Pass.
Context `{SubObjects}.

Lemma err_of_unpack_fields (fs : list field) (d : blindedBeaconBlockBodyJSON.t) :
  forall b, err_of (unpack_fields fs d b) = first_error ((fun f => field_error f d) <$> fs).
Proof.
  induction fs as [|f fs IH]; intros b; [reflexivity|].
  cbn [unpack_fields fmap list_fmap first_error].
  destruct (field_error f d); [reflexivity|apply IH].
Qed.

Lemma first_error_before (fs : list field) (d : blindedBeaconBlockBodyJSON.t) (f : field) (e : error) :
  f ∈ fs -> field_error f d = Some e ->
  Forall (fun g => field_error g d = None) (fields_before_in fs f) ->
  first_error ((fun f => field_error f d) <$> fs) = Some e.
Proof.
  induction fs as [|g fs IH]; intros Hin He Hbefore; [by apply elem_of_nil in Hin|].
  cbn [fmap list_fmap first_error fields_before_in] in *.
  destruct (decide (g = f)) as [->|Hne].
  - by rewrite He.
  - apply Forall_cons in Hbefore as [-> Hbefore].
    apply elem_of_cons in Hin as [->|Hin]; [done|]. by apply IH.
Qed.

Lemma first_error_some (fs : list field) (d : blindedBeaconBlockBodyJSON.t) (f : field) :
  f ∈ fs -> is_Some (field_error f d) ->
  is_Some (first_error ((fun f => field_error f d) <$> fs)).
Proof.
  induction fs as [|g fs IH]; intros Hin He; [by apply elem_of_nil in Hin|].
  cbn [fmap list_fmap first_error].
  destruct (field_error g d) eqn:Hg; [by eexists|].
  apply elem_of_cons in Hin as [->|Hin]; [|by apply IH].
  rewrite Hg in He. by destruct He.
Qed.

Lemma elem_of_fields (f : field) : f ∈ fields.
Proof. destruct f; unfold fields; set_solver. Qed.

Lemma NoDup_fields : NoDup fields.
Proof. by apply (bool_decide_unpack _). Qed.

(** The first failing field decides the error. *)
Lemma unpack_first_error (d : blindedBeaconBlockBodyJSON.t) (b : BlindedBeaconBlockBody.t) (f : field) (e : error) :
  field_error f d = Some e ->
  Forall (fun g => field_error g d = None) (fields_before f) ->
  err_of (BlindedBeaconBlockBody.unpack d b) = Some e.
Proof.
  intros He Hbefore. rewrite unpack_unpack_fields, err_of_unpack_fields.
  eapply first_error_before; eauto using elem_of_fields.
Qed.

Lemma unpack_fails (d : blindedBeaconBlockBodyJSON.t) (b : BlindedBeaconBlockBody.t) (f : field) :
  is_Some (field_error f d) -> is_Some (err_of (BlindedBeaconBlockBody.unpack d b)).
Proof.
  intros He. rewrite unpack_unpack_fields, err_of_unpack_fields.
  eapply first_error_some; eauto using elem_of_fields.
Qed.

Lemma same_field_refl (f : field) (b : BlindedBeaconBlockBody.t) : same_field f b b.
Proof. by destruct f. Qed.

Lemma same_field_trans (f : field) (b1 b2 b3 : BlindedBeaconBlockBody.t) :
  same_field f b1 b2 -> same_field f b2 b3 -> same_field f b1 b3.
Proof. destruct f; cbn; congruence. Qed.

Lemma write_other (f g : field) (d : blindedBeaconBlockBodyJSON.t) (b : BlindedBeaconBlockBody.t) :
  g <> f -> same_field g b (write f d b).
Proof. destruct f, g; intros Hne; try done. Qed.

Lemma write_failed_other (f g : field) (d : blindedBeaconBlockBodyJSON.t) (b : BlindedBeaconBlockBody.t) :
  g <> f -> same_field g b (write_failed f d b).
Proof.
  destruct f; intros Hne; try apply same_field_refl.
  cbn [write_failed]. destruct (blindedBeaconBlockBodyJSON.BlobKZGCommitments d) as [l|];
    [|apply same_field_refl].
  destruct (find_index _ l); [apply same_field_refl|].
  by destruct g.
Qed.

Lemma write_same (f : field) (d : blindedBeaconBlockBodyJSON.t) (b1 b2 : BlindedBeaconBlockBody.t) :
  same_field f b1 b2 -> same_field f (write f d b1) (write f d b2).
Proof. destruct f; cbn; try done; by intros ->. Qed.

Lemma unpack_fields_frame (fs : list field) (d : blindedBeaconBlockBodyJSON.t) (g : field) :
  g ∉ fs -> forall b, same_field g b (unpack_fields fs d b).1.
Proof.
  induction fs as [|f fs IH]; intros Hg b; [apply same_field_refl|].
  apply not_elem_of_cons in Hg as [Hne Hg].
  cbn [unpack_fields]. destruct (field_error f d).
  - by apply write_failed_other.
  - eapply same_field_trans; [by apply write_other|by apply IH].
Qed.

Lemma elem_of_fields_before_in (fs : list field) (f g : field) :
  g ∈ fields_before_in fs f -> g ∈ fs.
Proof.
  induction fs as [|h fs IH]; [done|]. cbn [fields_before_in].
  destruct (decide (h = f)); [by intros ?%elem_of_nil|].
  intros [->|?]%elem_of_cons; [left|right; auto].
Qed.

Lemma elem_of_fields_after_in (fs : list field) (f g : field) :
  g ∈ fields_after_in fs f -> g ∈ fs.
Proof.
  induction fs as [|h fs IH]; [done|]. cbn [fields_after_in].
  destruct (decide (h = f)); intros ?; right; auto.
Qed.

Lemma unpack_fields_failed (fs : list field) (d : blindedBeaconBlockBodyJSON.t) :
  NoDup fs ->
  forall (b b' : BlindedBeaconBlockBody.t) (e : error),
    unpack_fields fs d b = (b', inl e) ->
    exists f, f ∈ fs /\ field_error f d = Some e /\
      Forall (fun g => field_error g d = None /\ same_field g (write g d b) b')
        (fields_before_in fs f) /\
      Forall (fun g => same_field g b b') (fields_after_in fs f).
Proof.
  induction fs as [|f fs IH]; intros Hnd b b' e Hrun; [done|].
  apply NoDup_cons in Hnd as [Hf Hnd].
  cbn [unpack_fields] in Hrun. destruct (field_error f d) as [e'|] eqn:Hfe.
  - injection Hrun as <- <-. exists f.
    cbn [fields_before_in fields_after_in]. rewrite !decide_True by done.
    split_and!; [set_solver|done|done|].
    apply Forall_forall. intros g Hg. apply write_failed_other. intros ->. contradiction.
  - destruct (IH Hnd _ _ _ Hrun) as (f' & Hin & He & Hbefore & Hafter).
    exists f'. assert (f <> f') by (intros ->; contradiction).
    cbn [fields_before_in fields_after_in]. rewrite !decide_False by done.
    split_and!; [set_solver|done| |].
    + apply Forall_cons. split.
      * split; [done|].
        generalize (unpack_fields_frame fs d f Hf (write f d b)). by rewrite Hrun.
      * apply Forall_forall. intros g Hg.
        destruct (proj1 (Forall_forall _ _) Hbefore g Hg) as [Hge Hgs].
        split; [done|].
        eapply same_field_trans; [|exact Hgs].
        apply write_same, write_other. intros ->.
        by apply elem_of_fields_before_in in Hg.
    + apply Forall_forall. intros g Hg.
      eapply same_field_trans; [|exact (proj1 (Forall_forall _ _) Hafter g Hg)].
      apply write_other. intros ->. by apply elem_of_fields_after_in in Hg.
Qed.

(** A failed [unpack] names its first failing field; the fields before it
    hold what was decoded, the fields after it what they held. *)
Lemma unpack_failed (d : blindedBeaconBlockBodyJSON.t) (b b' : BlindedBeaconBlockBody.t) (e : error) :
  BlindedBeaconBlockBody.unpack d b = (b', inl e) ->
  exists f, field_error f d = Some e /\
    Forall (fun g => field_error g d = None /\ same_field g (write g d b) b')
      (fields_before f) /\
    Forall (fun g => same_field g b b') (fields_after f).
Proof.
  rewrite unpack_unpack_fields. intros Hrun.
  destruct (unpack_fields_failed fields d NoDup_fields _ _ _ Hrun) as (f & _ & ?).
  by exists f.
Qed.

Lemma unpack_fields_ok (fs : list field) (d : blindedBeaconBlockBodyJSON.t) :
  Forall (fun f => field_error f d = None) fs ->
  forall b, unpack_fields fs d b = (foldl (fun b f => write f d b) b fs, inr ()).
Proof.
  induction fs as [|f fs IH]; intros Hfs b; [reflexivity|].
  apply Forall_cons in Hfs as [Hf Hfs].
  cbn [unpack_fields foldl]. rewrite Hf. by apply IH.
Qed.

Lemma unpack_fields_ok_inv (fs : list field) (d : blindedBeaconBlockBodyJSON.t) :
  forall b b', unpack_fields fs d b = (b', inr ()) ->
    Forall (fun f => field_error f d = None) fs.
Proof.
  induction fs as [|f fs IH]; intros b b' Hrun; [done|].
  cbn [unpack_fields] in Hrun. destruct (field_error f d) eqn:Hf; [done|].
  apply Forall_cons. eauto.
Qed.

End Pass.

(** ** The signed block, and what marshalling writes *)

Section RoundTrip.
Context `{SubObjects}.

(** [SignedBeaconBlock.unpack], check by check. *)
Lemma SignedBeaconBlock_unpack_eq (d : signedBeaconBlockJSON.t) (s : SignedBeaconBlock.t) :
  SignedBeaconBlock.unpack d s =
  match signedBeaconBlockJSON.Message d with
  | None => (s, inl (errors_New "message missing"))
  | Some m =>
      let s1 := SignedBeaconBlock.set_Message (Some m) s in
      if String.eqb (signedBeaconBlockJSON.Signature d) EmptyString
      then (s1, inl (errors_New "signature missing"))
      else
        match hex_bytes (signedBeaconBlockJSON.Signature d) with
        | inl e => (s1, inl (errors_Wrap e "invalid value for signature"))
        | inr bs =>
            if Nat.eqb (length bs) phase0.SignatureLength
            then (SignedBeaconBlock.mk (Some m) (copy (SignedBeaconBlock.Signature s) bs), inr ())
            else (s1, inl (fmt_Errorf
                   ("incorrect length " +:+ fmt.Sprintf_d (length bs) +:+ " for signature")))
        end
  end.
Proof.
  destruct d as [m sig]. unfold SignedBeaconBlock.unpack, hex_bytes.
  cbn [signedBeaconBlockJSON.Message signedBeaconBlockJSON.Signature].
  run_step. destruct m as [m|]; run_step; [|reflexivity].
  destruct (String.eqb sig EmptyString); run_step; [reflexivity|].
  destruct (hex.DecodeString (strings.TrimPrefix sig "0x")) as [e|bs]; run_step; [reflexivity|].
  destruct (Nat.eqb (length bs) phase0.SignatureLength); run_step; reflexivity.
Qed.

Lemma length_nonempty {A} (l : list A) (n : nat) : length l = Datatypes.S n -> l <> [].
Proof. by destruct l. Qed.

Lemma hex_field_error_Sprintf (bs : list byte) (n : nat) (missing invalid wrong_length : string) :
  length bs = n -> n <> 0 ->
  hex_field_error (fmt.Sprintf_sharp_x bs) n missing invalid wrong_length = None.
Proof.
  intros Hn Hpos. unfold hex_field_error, hex_value_error.
  rewrite Sprintf_nonempty by (destruct bs; [done|discriminate]).
  rewrite hex_bytes_Sprintf, Hn. by rewrite Nat.eqb_refl.
Qed.

Lemma decoded_Sprintf (bs : list byte) : decoded (fmt.Sprintf_sharp_x bs) = bs.
Proof. unfold decoded. by rewrite hex_bytes_Sprintf. Qed.

Lemma find_index_None {A} (p : A -> bool) (l : list A) :
  forallb (fun x => negb (p x)) l = true -> find_index p l = None.
Proof.
  induction l as [|x l IH]; [done|]. cbn [forallb find_index].
  intros [Hx Hl]%andb_prop. apply negb_true_iff in Hx. rewrite Hx, IH; done.
Qed.

Lemma sequence_field_error_populated {A} (sl : option (list (option A))) (what : string) :
  populated sl = true -> sequence_field_error sl what = None.
Proof.
  destruct sl as [l|]; [|done]. cbn [populated sequence_field_error]. intros Hl.
  unfold entries_error. by rewrite find_index_None.
Qed.

Lemma optional_sequence_field_error_no_nil {A} (sl : option (list (option A))) (what : string) :
  no_nil_entry sl = true -> optional_sequence_field_error sl what = None.
Proof.
  destruct sl as [l|]; [|done]. unfold no_nil_entry. cbn [elems optional_sequence_field_error].
  intros Hl. unfold entries_error. by rewrite find_index_None.
Qed.

Lemma pointer_field_error_present {A} (p : option A) (what : string) :
  is_nil p = false -> pointer_field_error p what = None.
Proof. unfold pointer_field_error. by intros ->. Qed.

Lemma commitments_field_error_String (l : list (list byte)) :
  forallb (fun k => Nat.eqb (length k) deneb.KZGCommitmentLength) l = true ->
  commitments_field_error (Some (map deneb.KZGCommitment_String l)) = None /\
  decoded <$> map deneb.KZGCommitment_String l = l.
Proof.
  intros Hl. unfold commitments_field_error.
  assert (Forall (fun k => length k = deneb.KZGCommitmentLength) l) as Hall.
  { apply Forall_forall. intros k Hk. apply list_elem_of_In in Hk.
    rewrite forallb_forall in Hl. by apply Nat.eqb_eq, Hl. }
  clear Hl. induction Hall as [|k l Hk Hall [IH1 IH2]]; [done|].
  cbn [map find_index fmap list_fmap first_error]. unfold deneb.KZGCommitment_String at 1 2 3.
  rewrite Sprintf_nonempty by (by eapply length_nonempty).
  destruct (find_index _ (map _ l)) eqn:Hfi; [done|]. cbn [fmap option_fmap option_map].
  unfold commitment_error at 1, hex_value_error.
  rewrite hex_bytes_Sprintf, Hk, Nat.eqb_refl. rewrite decoded_Sprintf.
  split; [exact IH1|]. f_equal. exact IH2.
Qed.
End RoundTrip.

(** ** Round trip through JSON *)

Section RoundTripJSON.
Context `{SubObjects} `{JSON signedBeaconBlockJSON.t} `{JSON blindedBeaconBlockBodyJSON.t}.

Lemma SignedBeaconBlock_roundtrip (o s : SignedBeaconBlock.t) (bs : list byte) :
  json_faithful signedBeaconBlockJSON.t ->
  well_formed_signed_block o -> signed_block_arrays s ->
  SignedBeaconBlock.MarshalJSON o = inr bs ->
  SignedBeaconBlock.UnmarshalJSON bs s = (o, inr ()).
Proof.
  intros Hjson [Ho Hm] Hs Hbs. apply Hjson in Hbs.
  unfold SignedBeaconBlock.UnmarshalJSON. run_step. rewrite Hbs. run_step.
  rewrite SignedBeaconBlock_unpack_eq.
  destruct o as [[m|] sig]; [|done]. unfold signed_block_arrays in *.
  cbn [signedBeaconBlockJSON.Message signedBeaconBlockJSON.Signature
       SignedBeaconBlock.Message SignedBeaconBlock.Signature] in *.
  rewrite Sprintf_nonempty by (by eapply length_nonempty).
  rewrite hex_bytes_Sprintf, Ho, Nat.eqb_refl.
  rewrite copy_full by congruence. reflexivity.
Qed.

Lemma BlindedBeaconBlockBody_roundtrip (o b : BlindedBeaconBlockBody.t) (bs : list byte) :
  json_faithful blindedBeaconBlockBodyJSON.t ->
  well_formed_body o ->
  no_nil_entry (BlindedBeaconBlockBody.BLSToExecutionChanges o) = true ->
  body_arrays b ->
  BlindedBeaconBlockBody.MarshalJSON o = inr bs ->
  BlindedBeaconBlockBody.UnmarshalJSON bs b =
    (BlindedBeaconBlockBody.set_BLSToExecutionChanges
       (Some (elems (BlindedBeaconBlockBody.BLSToExecutionChanges o))) o, inr ()).
Proof.
  intros Hjson Ho Hbls [Hb1 Hb2] Hbs. apply Hjson in Hbs.
  unfold BlindedBeaconBlockBody.UnmarshalJSON. run_step. rewrite Hbs. run_step.
  destruct Ho as ([Ho1 Ho2] & He & Hps & Hats & Hatt & Hdp & Hve & Hsa & Heph & Hkzg & Her).
  destruct o as [r e g ps ats att dp ve sa eph bls [kzg|] er]; [|done].
  cbn [BlindedBeaconBlockBody.RANDAOReveal BlindedBeaconBlockBody.ETH1Data
       BlindedBeaconBlockBody.Graffiti BlindedBeaconBlockBody.ProposerSlashings
       BlindedBeaconBlockBody.AttesterSlashings BlindedBeaconBlockBody.Attestations
       BlindedBeaconBlockBody.Deposits BlindedBeaconBlockBody.VoluntaryExits
       BlindedBeaconBlockBody.SyncAggregate BlindedBeaconBlockBody.ExecutionPayloadHeader
       BlindedBeaconBlockBody.BLSToExecutionChanges BlindedBeaconBlockBody.BlobKZGCommitments
       BlindedBeaconBlockBody.ExecutionRequests elems arrays_of] in *.
  destruct (commitments_field_error_String kzg Hkzg) as [Hkzg1 Hkzg2].
  rewrite unpack_unpack_fields, unpack_fields_ok.
  - unfold fields.
    cbn [foldl write blindedBeaconBlockBodyJSON.RANDAOReveal blindedBeaconBlockBodyJSON.ETH1Data
       blindedBeaconBlockBodyJSON.Graffiti blindedBeaconBlockBodyJSON.ProposerSlashings
       blindedBeaconBlockBodyJSON.AttesterSlashings blindedBeaconBlockBodyJSON.Attestations
       blindedBeaconBlockBodyJSON.Deposits blindedBeaconBlockBodyJSON.VoluntaryExits
       blindedBeaconBlockBodyJSON.SyncAggregate blindedBeaconBlockBodyJSON.ExecutionPayloadHeader
       blindedBeaconBlockBodyJSON.BLSToExecutionChanges blindedBeaconBlockBodyJSON.BlobKZGCommitments
       blindedBeaconBlockBodyJSON.ExecutionRequests elems].
    rewrite !decoded_Sprintf, Hkzg2.
    destruct b as [r' e' g' ps' ats' att' dp' ve' sa' eph' bls' kzg' er'].
    cbn [BlindedBeaconBlockBody.RANDAOReveal BlindedBeaconBlockBody.Graffiti] in *.
    cbn -[copy]. rewrite !copy_full by congruence. reflexivity.
  - unfold fields. repeat apply Forall_cons_2; try apply Forall_nil_2;
      cbn [field_error blindedBeaconBlockBodyJSON.RANDAOReveal blindedBeaconBlockBodyJSON.ETH1Data
       blindedBeaconBlockBodyJSON.Graffiti blindedBeaconBlockBodyJSON.ProposerSlashings
       blindedBeaconBlockBodyJSON.AttesterSlashings blindedBeaconBlockBodyJSON.Attestations
       blindedBeaconBlockBodyJSON.Deposits blindedBeaconBlockBodyJSON.VoluntaryExits
       blindedBeaconBlockBodyJSON.SyncAggregate blindedBeaconBlockBodyJSON.ExecutionPayloadHeader
       blindedBeaconBlockBodyJSON.BLSToExecutionChanges blindedBeaconBlockBodyJSON.BlobKZGCommitments
       blindedBeaconBlockBodyJSON.ExecutionRequests];
      auto using hex_field_error_Sprintf, sequence_field_error_populated,
        optional_sequence_field_error_no_nil, pointer_field_error_present.
  all: by apply hex_field_error_Sprintf.
Qed.
End RoundTripJSON.

(** C1 (amended): JSON round trip.  With a JSON library that reads back
    the struct it wrote: a signed block whose message is there comes back
    equal to itself; a body with every mandatory field populated, arrays of
    their lengths and no [nil] entry among its BLS-to-execution changes
    comes back with [BLSToExecutionChanges] turned from [nil] into the empty
    slice and every other field equal, hence equal to itself when that
    slice was not [nil]. *)
Theorem roundtrip_JSON `{SubObjects} `{JSON signedBeaconBlockJSON.t} `{JSON blindedBeaconBlockBodyJSON.t} :
  json_faithful signedBeaconBlockJSON.t ->
  json_faithful blindedBeaconBlockBodyJSON.t ->
  (forall (o s : SignedBeaconBlock.t) (bs : list byte),
     well_formed_signed_block o -> signed_block_arrays s ->
     SignedBeaconBlock.MarshalJSON o = inr bs ->
     SignedBeaconBlock.UnmarshalJSON bs s = (o, inr ())) /\
  (forall (o b : BlindedBeaconBlockBody.t) (bs : list byte),
     well_formed_body o ->
     no_nil_entry (BlindedBeaconBlockBody.BLSToExecutionChanges o) = true ->
     body_arrays b ->
     BlindedBeaconBlockBody.MarshalJSON o = inr bs ->
     BlindedBeaconBlockBody.UnmarshalJSON bs b =
       (BlindedBeaconBlockBody.set_BLSToExecutionChanges
          (Some (elems (BlindedBeaconBlockBody.BLSToExecutionChanges o))) o, inr ()) /\
     (is_nil (BlindedBeaconBlockBody.BLSToExecutionChanges o) = false ->
      BlindedBeaconBlockBody.UnmarshalJSON bs b = (o, inr ()))).
Proof.
  intros Hsigned Hbody. split.
  - intros o s bs. by apply SignedBeaconBlock_roundtrip.
  - intros o b bs Ho Hbls Hb Hbs.
    pose proof (BlindedBeaconBlockBody_roundtrip o b bs Hbody Ho Hbls Hb Hbs) as Hrt.
    split; [exact Hrt|]. intros Hnil. rewrite Hrt.
    destruct o as [r e g ps ats att dp ve sa eph [bls|] kzg er]; [reflexivity|discriminate].
Qed.

(** The sample JSON library reads back what it wrote. *)
Lemma one_document_faithful {W} `{EqDecision W} (w0 : W) :
  @json_faithful W (Sample.one_document w0).
Proof.
  intros w bs. cbn. destruct (decide (w = w0)) as [->|]; [done|discriminate].
Qed.

(** The sample body, marshalled and unmarshalled into a zeroed receiver. *)
Lemma roundtrip_JSON_witness :
  @BlindedBeaconBlockBody.UnmarshalJSON Sample.objects
    Sample.body_JSON [] Sample.zero_body = (Sample.body, inr ()).
Proof.
  refine (proj2 (proj2 (@roundtrip_JSON Sample.objects
            Sample.signed_block_JSON
            Sample.body_JSON _ _)
          Sample.body Sample.zero_body [] _ _ _ _) _).
  - apply one_document_faithful.
  - apply one_document_faithful.
  - vm_compute. repeat split.
  - vm_compute. reflexivity.
  - vm_compute. repeat split.
  - vm_compute. reflexivity.
  - vm_compute. reflexivity.
Defined.

(** C1, as stated, fails: a body with every mandatory field populated and
    [BLSToExecutionChanges] left [nil] is marshalled and unmarshalled
    without error, and comes back with the empty slice in that field. *)
Lemma roundtrip_JSON_nil_changes :
  @well_formed_body Sample.objects Sample.body_without_changes /\
  @json_faithful _ Sample.body_JSON_without_changes /\
  @BlindedBeaconBlockBody.MarshalJSON Sample.objects
    Sample.body_JSON_without_changes
    Sample.body_without_changes = inr [] /\
  exists b' : BlindedBeaconBlockBody.t,
    @BlindedBeaconBlockBody.UnmarshalJSON Sample.objects
      Sample.body_JSON_without_changes [] Sample.zero_body
      = (b', inr ()) /\
    BlindedBeaconBlockBody.BLSToExecutionChanges b' = Some [] /\
    BlindedBeaconBlockBody.BLSToExecutionChanges Sample.body_without_changes = None /\
    b' <> Sample.body_without_changes.
Proof.
  split; [vm_compute; repeat split|].
  split; [apply one_document_faithful|].
  split; [vm_compute; reflexivity|].
  eexists. split; [vm_compute; reflexivity|].
  split; [reflexivity|]. split; [reflexivity|].
  intros Heq. apply (f_equal BlindedBeaconBlockBody.BLSToExecutionChanges) in Heq.
  discriminate Heq.
Qed.
(** ** What a failed call leaves in the receiver *)

Lemma unpack_first_field_failed `{SubObjects} (d : blindedBeaconBlockBodyJSON.t) (b b' : BlindedBeaconBlockBody.t) (e e' : error) :
  field_error randao_reveal d = Some e' ->
  BlindedBeaconBlockBody.unpack d b = (b', inl e) -> b' = b.
Proof.
  rewrite unpack_unpack_fields. unfold fields. cbn [unpack_fields].
  intros ->. cbn [write_failed]. congruence.
Qed.

(** C2 (amended): a failed [unpack] is not atomic.  Its error is the error
    of the first field, in the order of declaration, whose validation
    fails; the fields before that one have been written to the receiver
    with their decoded values, the fields after it keep what they held.
    The receiver is untouched when the first field is the one that fails
    (a [nil] message for a signed block, the RANDAO reveal for a body). *)
Theorem unpack_failure_frame `{SubObjects} :
  (forall (d : signedBeaconBlockJSON.t) (s s' : SignedBeaconBlock.t) (e : error),
     SignedBeaconBlock.unpack d s = (s', inl e) ->
     SignedBeaconBlock.Signature s' = SignedBeaconBlock.Signature s /\
     (is_nil (signedBeaconBlockJSON.Message d) = true -> s' = s) /\
     (is_nil (signedBeaconBlockJSON.Message d) = false ->
      s' = SignedBeaconBlock.set_Message (signedBeaconBlockJSON.Message d) s)) /\
  (forall (d : blindedBeaconBlockBodyJSON.t) (b b' : BlindedBeaconBlockBody.t) (e : error),
     BlindedBeaconBlockBody.unpack d b = (b', inl e) ->
     exists f : field,
       field_error f d = Some e /\
       Forall (fun g => field_error g d = None /\ same_field g (write g d b) b')
         (fields_before f) /\
       Forall (fun g => same_field g b b') (fields_after f) /\
       (f = randao_reveal -> b' = b)).
Proof.
  split.
  - intros [m sig] s s' e. rewrite SignedBeaconBlock_unpack_eq.
    cbn [signedBeaconBlockJSON.Message signedBeaconBlockJSON.Signature].
    destruct m as [m|]; cbn [is_nil].
    + cbv zeta. destruct (String.eqb sig EmptyString).
      { intros [= <- <-]. by split_and!. }
      destruct (hex_bytes sig) as [e'|bs].
      { intros [= <- <-]. by split_and!. }
      destruct (Nat.eqb (length bs) phase0.SignatureLength); [done|].
      intros [= <- <-]. by split_and!.
    + intros [= <- <-]. by split_and!.
  - intros d b b' e Hrun.
    destruct (unpack_failed d b b' e Hrun) as (f & He & Hbefore & Hafter).
    exists f. split_and!; [done..|].
    intros ->. by eapply unpack_first_field_failed.
Qed.

(** The sample document without [eth1_data], unpacked into a zeroed receiver. *)
Lemma unpack_failure_frame_witness :
  exists f : field,
    @field_error Sample.objects f Sample.body_json_without_eth1
      = Some (errors_New "ETH1 data missing") /\
    Forall (fun g =>
        field_error g Sample.body_json_without_eth1 = None /\
        same_field g (write g Sample.body_json_without_eth1 Sample.zero_body)
          (BlindedBeaconBlockBody.unpack Sample.body_json_without_eth1 Sample.zero_body).1)
      (fields_before f) /\
    Forall (fun g =>
        same_field g Sample.zero_body
          (BlindedBeaconBlockBody.unpack Sample.body_json_without_eth1 Sample.zero_body).1)
      (fields_after f) /\
    (f = randao_reveal ->
     (BlindedBeaconBlockBody.unpack Sample.body_json_without_eth1 Sample.zero_body).1
       = Sample.zero_body).
Proof.
  apply (proj2 (@unpack_failure_frame Sample.objects) Sample.body_json_without_eth1
           Sample.zero_body).
  vm_compute. reflexivity.
Defined.

(** C2, as stated, fails: a signed block document with an empty signature
    is rejected after its message has been written to the receiver, and a
    body document without [eth1_data] is rejected after its RANDAO reveal
    has been written. *)
Lemma unpack_not_atomic :
  (exists s' : SignedBeaconBlock.t,
     @SignedBeaconBlock.unpack Sample.objects Sample.signed_block_json_without_signature
       Sample.zero_signed_block = (s', inl (errors_New "signature missing")) /\
     SignedBeaconBlock.Message s' = Some 7 /\
     SignedBeaconBlock.Message Sample.zero_signed_block = None /\
     s' <> Sample.zero_signed_block) /\
  (exists b' : BlindedBeaconBlockBody.t,
     @BlindedBeaconBlockBody.unpack Sample.objects Sample.body_json_without_eth1
       Sample.zero_body = (b', inl (errors_New "ETH1 data missing")) /\
     BlindedBeaconBlockBody.RANDAOReveal b' = Sample.signature /\
     BlindedBeaconBlockBody.RANDAOReveal Sample.zero_body = replicate 96 Byte.x00 /\
     b' <> Sample.zero_body).
Proof.
  split.
  - eexists. split; [vm_compute; reflexivity|].
    split; [reflexivity|]. split; [reflexivity|].
    intros Heq. apply (f_equal SignedBeaconBlock.Message) in Heq. discriminate Heq.
  - eexists. split; [vm_compute; reflexivity|].
    split; [reflexivity|]. split; [reflexivity|].
    intros Heq. apply (f_equal BlindedBeaconBlockBody.RANDAOReveal) in Heq.
    vm_compute in Heq. discriminate Heq.
Qed.
(** ** Prefixes of hex strings *)

Lemma eqb_empty_false (s : string) : s <> EmptyString -> String.eqb s EmptyString = false.
Proof. by destruct s. Qed.

Lemma decoded_0x (h : string) : hex_digits h = true -> decoded ("0x" +:+ h) = decoded h.
Proof. intros Hh. unfold decoded. by rewrite hex_bytes_0x. Qed.

Lemma hex_field_error_0x (h : string) (n : nat) (missing invalid wrong_length : string) :
  hex_digits h = true -> h <> EmptyString ->
  hex_field_error ("0x" +:+ h) n missing invalid wrong_length =
  hex_field_error h n missing invalid wrong_length.
Proof.
  intros Hh Hne. unfold hex_field_error, hex_value_error.
  rewrite hex_bytes_0x by done. by rewrite (eqb_empty_false h).
Qed.

Lemma commitment_error_0x (h : string) :
  hex_digits h = true -> commitment_error ("0x" +:+ h) = commitment_error h.
Proof. intros Hh. unfold commitment_error, hex_value_error. by rewrite hex_bytes_0x. Qed.

Lemma find_index_empty_0x (h : string) (l1 l2 : list string) :
  h <> EmptyString ->
  find_index (fun x => String.eqb x EmptyString) (l1 ++ ("0x" +:+ h) :: l2) =
  find_index (fun x => String.eqb x EmptyString) (l1 ++ h :: l2).
Proof.
  intros Hne. induction l1 as [|x l1 IH]; cbn [app find_index].
  - by rewrite (eqb_empty_false h).
  - by rewrite IH.
Qed.

Lemma commitments_so_far_0x (h : string) (l1 l2 : list string) :
  hex_digits h = true ->
  commitments_so_far (l1 ++ ("0x" +:+ h) :: l2) = commitments_so_far (l1 ++ h :: l2).
Proof.
  intros Hh. induction l1 as [|x l1 IH]; cbn [app commitments_so_far].
  - rewrite commitment_error_0x, decoded_0x by done. reflexivity.
  - rewrite IH. destruct (commitment_error x); [|reflexivity].
    cbn [length]. by rewrite !length_app.
Qed.

Lemma commitments_field_error_0x (h : string) (l1 l2 : list string) :
  hex_digits h = true -> h <> EmptyString ->
  commitments_field_error (Some (l1 ++ ("0x" +:+ h) :: l2)) =
  commitments_field_error (Some (l1 ++ h :: l2)).
Proof.
  intros Hh Hne. unfold commitments_field_error.
  rewrite find_index_empty_0x by done.
  by rewrite !fmap_app, !fmap_cons, commitment_error_0x.
Qed.

Lemma unpack_fields_ext `{SubObjects} (d d' : blindedBeaconBlockBodyJSON.t) (fs : list field) :
  (forall f, field_error f d = field_error f d' /\
     forall b, write f d b = write f d' b /\ write_failed f d b = write_failed f d' b) ->
  forall b, unpack_fields fs d b = unpack_fields fs d' b.
Proof.
  intros Hext. induction fs as [|f fs IH]; intros b; [reflexivity|].
  cbn [unpack_fields]. destruct (Hext f) as [-> Hw]. destruct (Hw b) as [-> ->].
  destruct (field_error f d'); [reflexivity|apply IH].
Qed.

(** The first error of a list of checks, by position. *)
Lemma first_error_lookup {A} (check : A -> option error) (l : list A) (i : nat) (x : A) (e : error) :
  l !! i = Some x -> check x = Some e ->
  (forall j y, j < i -> l !! j = Some y -> check y = None) ->
  first_error (check <$> l) = Some e.
Proof.
  revert i. induction l as [|y l IH]; intros i Hi He Hbefore; [done|].
  cbn [fmap list_fmap first_error]. destruct i as [|i].
  - injection Hi as ->. by rewrite He.
  - rewrite (Hbefore 0 y) by (done || lia). apply (IH i); [done..|].
    intros j z Hj Hz. apply (Hbefore (Datatypes.S j) z); [lia|done].
Qed.

(** The index of the first element that satisfies [p], by position. *)
Lemma find_index_lookup {A} (p : A -> bool) (l : list A) (i : nat) (x : A) :
  l !! i = Some x -> p x = true ->
  (forall j y, j < i -> l !! j = Some y -> p y = false) ->
  find_index p l = Some i.
Proof.
  revert i. induction l as [|y l IH]; intros i Hi Hp Hbefore; [done|].
  cbn [find_index]. destruct i as [|i].
  - injection Hi as ->. by rewrite Hp.
  - rewrite (Hbefore 0 y) by (done || lia). rewrite (IH i); [done..|].
    intros j z Hj Hz. apply (Hbefore (Datatypes.S j) z); [lia|done].
Qed.

Lemma find_index_none {A} (p : A -> bool) (l : list A) :
  (forall y, y ∈ l -> p y = false) -> find_index p l = None.
Proof.
  induction l as [|y l IH]; intros Hl; [done|]. cbn [find_index].
  rewrite Hl by left. rewrite IH; [done|]. intros z Hz. apply Hl. by right.
Qed.

Section Prefix.
Context `{SubObjects}.

(** The error of the commitment at index [i], the first one that fails. *)
Lemma unpack_commitment_error (d : blindedBeaconBlockBodyJSON.t) (b : BlindedBeaconBlockBody.t)
    (l : list string) (i : nat) (x : string) (e : error) :
  blindedBeaconBlockBodyJSON.BlobKZGCommitments d = Some l ->
  (forall y, y ∈ l -> String.eqb y EmptyString = false) ->
  l !! i = Some x -> commitment_error x = Some e ->
  (forall j y, j < i -> l !! j = Some y -> commitment_error y = None) ->
  Forall (fun g => field_error g d = None) (fields_before blob_kzg_commitments) ->
  err_of (BlindedBeaconBlockBody.unpack d b) = Some e.
Proof.
  intros Hl Hne Hi He Hbefore Hfields.
  apply (unpack_first_error d b blob_kzg_commitments); [|done].
  cbn [field_error]. rewrite Hl. unfold commitments_field_error.
  rewrite find_index_none by done. by eapply first_error_lookup.
Qed.

(** C3 (amended): the prefix of a hex string.  Only the lowercase [0x] is
    cut: for hex digits [h], the value [0x]+[h] is decoded exactly as [h]
    is, in the signature of a signed block and in the RANDAO reveal, the
    graffiti and every blob KZG commitment of a body, and with 192 digits
    the signature is accepted and holds the bytes of [h].  The uppercase
    [0X] is not cut: the value [0X]+[h] is an invalid value of its field,
    for the invalid byte [X]. *)
Theorem hex_prefix_handling (h : string) :
  hex_digits h = true -> h <> EmptyString ->
  (forall m s,
     SignedBeaconBlock.unpack (signedBeaconBlockJSON.mk m ("0x" +:+ h)) s =
     SignedBeaconBlock.unpack (signedBeaconBlockJSON.mk m h) s) /\
  (forall m s,
     String.length h = 2 * phase0.SignatureLength -> signed_block_arrays s ->
     exists bs, hex.DecodeString h = inr bs /\
       SignedBeaconBlock.unpack (signedBeaconBlockJSON.mk (Some m) ("0x" +:+ h)) s =
       (SignedBeaconBlock.mk (Some m) bs, inr ())) /\
  (forall m s,
     SignedBeaconBlock.unpack (signedBeaconBlockJSON.mk (Some m) ("0X" +:+ h)) s =
     (SignedBeaconBlock.set_Message (Some m) s,
      inl (errors_Wrap (hex_InvalidByteError "X") "invalid value for signature"))) /\
  (forall e g ps ats att dp ve sa eph bls kzg er b,
     BlindedBeaconBlockBody.unpack
       (blindedBeaconBlockBodyJSON.mk ("0x" +:+ h) e g ps ats att dp ve sa eph bls kzg er) b =
     BlindedBeaconBlockBody.unpack
       (blindedBeaconBlockBodyJSON.mk h e g ps ats att dp ve sa eph bls kzg er) b) /\
  (forall r e ps ats att dp ve sa eph bls kzg er b,
     BlindedBeaconBlockBody.unpack
       (blindedBeaconBlockBodyJSON.mk r e ("0x" +:+ h) ps ats att dp ve sa eph bls kzg er) b =
     BlindedBeaconBlockBody.unpack
       (blindedBeaconBlockBodyJSON.mk r e h ps ats att dp ve sa eph bls kzg er) b) /\
  (forall r e g ps ats att dp ve sa eph bls l1 l2 er b,
     BlindedBeaconBlockBody.unpack
       (blindedBeaconBlockBodyJSON.mk r e g ps ats att dp ve sa eph bls
          (Some (l1 ++ ("0x" +:+ h) :: l2)) er) b =
     BlindedBeaconBlockBody.unpack
       (blindedBeaconBlockBodyJSON.mk r e g ps ats att dp ve sa eph bls
          (Some (l1 ++ h :: l2)) er) b) /\
  (forall d b,
     blindedBeaconBlockBodyJSON.RANDAOReveal d = "0X" +:+ h ->
     BlindedBeaconBlockBody.unpack d b =
     (b, inl (errors_Wrap (hex_InvalidByteError "X") "invalid value for RANDAO reveal"))) /\
  (forall d b,
     blindedBeaconBlockBodyJSON.Graffiti d = "0X" +:+ h ->
     Forall (fun g => field_error g d = None) (fields_before graffiti) ->
     err_of (BlindedBeaconBlockBody.unpack d b) =
     Some (errors_Wrap (hex_InvalidByteError "X") "invalid value for graffiti")) /\
  (forall d b l i,
     blindedBeaconBlockBodyJSON.BlobKZGCommitments d = Some l ->
     (forall y, y ∈ l -> String.eqb y EmptyString = false) ->
     l !! i = Some ("0X" +:+ h) ->
     (forall j y, j < i -> l !! j = Some y -> commitment_error y = None) ->
     Forall (fun g => field_error g d = None) (fields_before blob_kzg_commitments) ->
     err_of (BlindedBeaconBlockBody.unpack d b) =
     Some (errors_Wrap (hex_InvalidByteError "X") "failed to parse blob KZG commitment")).
Proof.
  intros Hh Hne. split_and!.
  - intros m s. rewrite !SignedBeaconBlock_unpack_eq.
    cbn [signedBeaconBlockJSON.Message signedBeaconBlockJSON.Signature].
    by rewrite hex_bytes_0x, (eqb_empty_false h).
  - intros m s Hlen Hs.
    destruct (DecodeString_hex_digits h Hh) as (bs & Hbs & Hbytes).
    { exists phase0.SignatureLength. lia. }
    exists bs. split; [done|]. rewrite SignedBeaconBlock_unpack_eq.
    cbn [signedBeaconBlockJSON.Message signedBeaconBlockJSON.Signature].
    rewrite hex_bytes_0x by done. unfold hex_bytes.
    rewrite TrimPrefix_hex_digits, Hbs by done.
    assert (length bs = phase0.SignatureLength) as Hn by lia.
    cbv zeta. rewrite Hn, Nat.eqb_refl. cbn [String.eqb].
    rewrite copy_full; [done|]. by rewrite Hs.
  - intros m s. by rewrite SignedBeaconBlock_unpack_eq.
  - intros e g ps ats att dp ve sa eph bls kzg er b.
    rewrite !unpack_unpack_fields. apply unpack_fields_ext.
    intros []; cbn [field_error write write_failed blindedBeaconBlockBodyJSON.RANDAOReveal];
      try done.
    by rewrite hex_field_error_0x, decoded_0x.
  - intros r e ps ats att dp ve sa eph bls kzg er b.
    rewrite !unpack_unpack_fields. apply unpack_fields_ext.
    intros []; cbn [field_error write write_failed blindedBeaconBlockBodyJSON.Graffiti];
      try done.
    by rewrite hex_field_error_0x, decoded_0x.
  - intros r e g ps ats att dp ve sa eph bls l1 l2 er b.
    rewrite !unpack_unpack_fields. apply unpack_fields_ext.
    intros []; cbn [field_error write write_failed elems
                    blindedBeaconBlockBodyJSON.BlobKZGCommitments]; try done.
    rewrite commitments_field_error_0x, find_index_empty_0x, commitments_so_far_0x by done.
    by rewrite !fmap_app, !fmap_cons, decoded_0x.
  - intros d b Hr. rewrite unpack_unpack_fields. unfold fields.
    cbn [unpack_fields field_error write_failed]. by rewrite Hr.
  - intros d b Hg Hbefore. apply (unpack_first_error d b graffiti); [|done].
    cbn [field_error]. by rewrite Hg.
  - intros d b l i Hl Hempty Hi Hentries Hbefore.
    by eapply unpack_commitment_error.
Qed.

End Prefix.

(** The sample signature, with and without its [0x]. *)
Lemma hex_prefix_handling_witness :
  SignedBeaconBlock.unpack Sample.signed_block_json Sample.zero_signed_block =
  SignedBeaconBlock.unpack Sample.signed_block_json_digits Sample.zero_signed_block.
Proof.
  refine (proj1 (@hex_prefix_handling Sample.objects Sample.signature_hex _ _)
            (Some 7) Sample.zero_signed_block).
  - vm_compute. reflexivity.
  - vm_compute. discriminate.
Defined.

(** C3, as stated, fails: 192 valid digits after an uppercase [0X] are
    rejected in the signature of a signed block, where the same digits
    after [0x] are accepted. *)
Lemma uppercase_prefix_rejected :
  hex_digits Sample.signature_hex = true /\
  String.length Sample.signature_hex = 2 * phase0.SignatureLength /\
  SignedBeaconBlock.unpack Sample.signed_block_json_uppercase Sample.zero_signed_block =
  (@SignedBeaconBlock.mk Sample.objects (Some 7) (replicate 96 Byte.x00),
   inl (errors_Wrap (hex_InvalidByteError "X") "invalid value for signature")) /\
  SignedBeaconBlock.unpack Sample.signed_block_json Sample.zero_signed_block =
  (Sample.signed_block, inr ()).
Proof. split_and!; vm_compute; reflexivity. Qed.
(** ** The YAML codec of the bundle *)

Lemma ReplaceAll_quotes (s : list byte) :
  bytes.ReplaceAll s [double_quote] [single_quote] = requote <$> s.
Proof.
  unfold bytes.ReplaceAll. induction s as [|c s IH]; [reflexivity|].
  cbn [bytes.ReplaceAll_from bytes.HasPrefix length Nat.sub fmap list_fmap].
  unfold requote at 1. destruct (Byte.eqb c double_quote); cbn [app]; by rewrite IH.
Qed.

Lemma requote_not_double_quote (c : byte) : requote c <> double_quote.
Proof.
  unfold requote. destruct (Byte.eqb c double_quote) eqn:Hc; [discriminate|].
  intros ->. by rewrite Byte.byte_dec_lb in Hc.
Qed.

Section YAML.
Context `{SubObjects}.
Context `{YAMLMarshal signedBlockContentsYAML.t}.
Context `{YAMLUnmarshal signedBlockContentsJSON.t}.
Context `{JSON signedBlockContentsJSON.t}.
Variable UnmarshalJSON : list byte -> M SignedBlockContents.t unit.



(** C9: the output of [MarshalYAML] holds no double quote: it is the output
    of the flow-style writer with every double quote replaced by a single
    quote and every other byte kept. *)
Theorem MarshalYAML_single_quotes (s : SignedBlockContents.t) (out : list byte) :
  SignedBlockContents.MarshalYAML s = inr out ->
  (double_quote ∉ out) /\
  exists yamlBytes : list byte,
    yaml_MarshalWithOptions_Flow
      (signedBlockContentsYAML.mk (SignedBlockContents.SignedBlock s)
         (SignedBlockContents.KZGProofs s) (SignedBlockContents.Blobs s)) = inr yamlBytes /\
    length out = length yamlBytes /\
    forall (i : nat) (c : byte),
      yamlBytes !! i = Some c ->
      out !! i = Some (if Byte.eqb c double_quote then single_quote else c).
Proof.
  unfold SignedBlockContents.MarshalYAML.
  destruct (yaml_MarshalWithOptions_Flow _) as [err|yamlBytes]; [done|].
  intros [= <-]. rewrite ReplaceAll_quotes. split.
  - intros (c & Hc & _)%list_elem_of_fmap. by apply (requote_not_double_quote c).
  - exists yamlBytes. split; [done|]. split; [by rewrite length_fmap|].
    intros i c Hi. by rewrite list_lookup_fmap, Hi.
Qed.

End YAML.



(** The YAML of the sample bundle, whose writer quotes with double quotes. *)
Lemma MarshalYAML_single_quotes_witness :
  exists out : list byte,
    @SignedBlockContents.MarshalYAML Sample.objects Sample.flow_writer Sample.contents = inr out /\
    (double_quote ∉ out).
Proof.
  eexists. split; [vm_compute; reflexivity|].
  refine (proj1 (@MarshalYAML_single_quotes Sample.objects Sample.flow_writer
                   Sample.contents _ _)).
  vm_compute. reflexivity.
Defined.
(** ** Missing fields and missing entries *)

Lemma find_index_first_nil {A} (l : list (option A)) (i : nat) :
  first_nil_at l i -> find_index is_nil l = Some i.
Proof.
  intros [Hi Hbefore]. apply (find_index_lookup is_nil l i None); [done..|].
  intros j y Hj Hy. destruct (Hbefore j Hj) as [z Hz]. by simplify_eq.
Qed.

Lemma find_index_is_Some {A} (p : A -> bool) (l : list A) (x : A) :
  x ∈ l -> p x = true -> is_Some (find_index p l).
Proof.
  induction l as [|y l IH]; intros Hx Hp; [by apply elem_of_nil in Hx|].
  cbn [find_index]. destruct (p y) eqn:Hy; [by eexists|].
  apply elem_of_cons in Hx as [->|Hx]; [congruence|].
  destruct (IH Hx Hp) as [k ->]. by eexists.
Qed.

Lemma entries_error_first_nil {A} (l : list (option A)) (what : string) (i : nat) :
  first_nil_at l i ->
  entries_error l what =
  Some (fmt_Errorf (what +:+ " entry " +:+ fmt.Sprintf_d i +:+ " missing")).
Proof. intros Hi. unfold entries_error. by rewrite (find_index_first_nil l i). Qed.

Lemma entries_error_nil {A} (l : list (option A)) (what : string) :
  None ∈ l -> is_Some (entries_error l what).
Proof.
  intros Hl. unfold entries_error.
  destruct (find_index_is_Some is_nil l None Hl eq_refl) as [k ->]. by eexists.
Qed.

Lemma append_cons (x : ascii) (a c : string) : String x a +:+ c = String x (a +:+ c).
Proof. reflexivity. Qed.

Lemma append_length (a c : string) :
  String.length (a +:+ c) = String.length a + String.length c.
Proof.
  induction a as [|x a IH]; [reflexivity|].
  rewrite append_cons. cbn [String.length]. by rewrite IH.
Qed.

Lemma append_inj_l (a b c : string) : a +:+ c = b +:+ c -> a = b.
Proof.
  revert b. induction a as [|x a IH]; intros [|y b] Heq; [done| | |].
  - apply (f_equal String.length) in Heq. rewrite !append_length in Heq.
    cbn [String.length] in Heq. lia.
  - apply (f_equal String.length) in Heq. rewrite !append_length in Heq.
    cbn [String.length] in Heq. lia.
  - rewrite !append_cons in Heq. injection Heq as -> Heq. f_equal. by apply IH.
Qed.

(** The message of a missing entry tells its index. *)
Lemma entry_message_index (what : string) (i j : nat) :
  what +:+ fmt.Sprintf_d i +:+ " missing" = what +:+ fmt.Sprintf_d j +:+ " missing" ->
  i = j.
Proof.
  intros Heq. apply (inj (String.app what)) in Heq. apply append_inj_l in Heq.
  by apply (inj pretty) in Heq.
Qed.

Section Missing.
Context `{SubObjects}.

Lemma absent_field_error (f : field) (msg : string) (d : blindedBeaconBlockBodyJSON.t) :
  missing_message f = Some msg -> absent f d = true ->
  field_error f d = Some (errors_New msg).
Proof.
  destruct f; cbn [missing_message absent field_error]; intros [= <-] Ha;
    try (unfold hex_field_error; by rewrite Ha);
    try (unfold pointer_field_error; by rewrite Ha);
    try (by match goal with
            | Ha : is_nil ?sl = true |- _ => destruct sl
            end).
Qed.


Context `{JSON signedBeaconBlockJSON.t} `{JSON blindedBeaconBlockBodyJSON.t}.

(** C6: a missing mandatory field is an error.  A body document in which
    a mandatory field is absent (an empty string, a [nil] pointer or slice
    after [json.Unmarshal]) is never unpacked: [unpack] fails, and with the
    missing-field error of that very field when the fields before it are
    valid; an absent RANDAO reveal, the first field, is always the error
    reported; so after a successful [unpack] no mandatory field of the
    document was absent.  The same holds for the message and the signature
    of a signed block.  Every field but the BLS-to-execution changes is
    mandatory in this sense. *)
Theorem missing_field_is_error :
  (forall f, mandatory f = true <-> is_Some (missing_message f)) /\
  (forall (d : blindedBeaconBlockBodyJSON.t) (b : BlindedBeaconBlockBody.t) (f : field) (msg : string),
     missing_message f = Some msg -> absent f d = true ->
     is_Some (err_of (BlindedBeaconBlockBody.unpack d b)) /\
     (Forall (fun g => field_error g d = None) (fields_before f) ->
      err_of (BlindedBeaconBlockBody.unpack d b) = Some (errors_New msg))) /\
  (forall (d : blindedBeaconBlockBodyJSON.t) (b b' : BlindedBeaconBlockBody.t) (f : field),
     BlindedBeaconBlockBody.unpack d b = (b', inr ()) ->
     mandatory f = true -> absent f d = false) /\
  (forall (d : blindedBeaconBlockBodyJSON.t) (b : BlindedBeaconBlockBody.t),
     blindedBeaconBlockBodyJSON.RANDAOReveal d = EmptyString ->
     BlindedBeaconBlockBody.unpack d b = (b, inl (errors_New "RANDAO reveal missing"))) /\
  (forall (sig : string) (s : SignedBeaconBlock.t),
     SignedBeaconBlock.unpack (signedBeaconBlockJSON.mk None sig) s =
     (s, inl (errors_New "message missing"))) /\
  (forall (m : electra_BeaconBlock) (s : SignedBeaconBlock.t),
     SignedBeaconBlock.unpack (signedBeaconBlockJSON.mk (Some m) EmptyString) s =
     (SignedBeaconBlock.set_Message (Some m) s, inl (errors_New "signature missing"))) /\
  (forall (input : list byte) (d : blindedBeaconBlockBodyJSON.t) (b : BlindedBeaconBlockBody.t),
     json_Unmarshal input = inr d ->
     BlindedBeaconBlockBody.UnmarshalJSON input b = BlindedBeaconBlockBody.unpack d b) /\
  (forall (input : list byte) (d : signedBeaconBlockJSON.t) (s : SignedBeaconBlock.t),
     json_Unmarshal input = inr d ->
     SignedBeaconBlock.UnmarshalJSON input s = SignedBeaconBlock.unpack d s).
Proof.
  split_and!.
  - intros []; cbn; split; (done || by intros [? [=]] || by eexists).
  - intros d b f msg Hmsg Ha. pose proof (absent_field_error f msg d Hmsg Ha) as He. split.
    + apply (unpack_fails d b f). by rewrite He.
    + intros Hbefore. by apply (unpack_first_error d b f).
  - intros d b b' f Hrun Hf. destruct (absent f d) eqn:Ha; [|done].
    assert (is_Some (missing_message f)) as [msg Hmsg]
      by (destruct f; first [discriminate Hf | by eexists]).
    pose proof (absent_field_error f msg d Hmsg Ha) as He.
    destruct (unpack_fails d b f) as [e Herr]; [by rewrite He|].
    unfold err_of in Herr. by rewrite Hrun in Herr.
  - intros d b Hr. rewrite unpack_unpack_fields. unfold fields.
    cbn [unpack_fields field_error write_failed]. by rewrite Hr.
  - intros sig s. by rewrite SignedBeaconBlock_unpack_eq.
  - intros m s. by rewrite SignedBeaconBlock_unpack_eq.
  - intros input d b Hd. unfold BlindedBeaconBlockBody.UnmarshalJSON. run_step.
    rewrite Hd. by run_step.
  - intros input d s Hd. unfold SignedBeaconBlock.UnmarshalJSON. run_step.
    rewrite Hd. by run_step.
Qed.

(** C8: a [nil] entry of a mandatory list is an error that tells the list
    and the index.  With the first [nil] entry of the list at index [i],
    and the fields before the list valid, [unpack] fails with the error
    [<list> entry <i> missing]; whatever the other fields, a document with
    a [nil] entry in one of the five lists is rejected.  Two such messages
    for one list are equal for equal indices only. *)
Theorem null_entry_is_error :
  (forall d b l i,
     blindedBeaconBlockBodyJSON.ProposerSlashings d = Some l -> first_nil_at l i ->
     Forall (fun g => field_error g d = None) (fields_before proposer_slashings) ->
     err_of (BlindedBeaconBlockBody.unpack d b) =
     Some (fmt_Errorf ("proposer slashings entry " +:+ fmt.Sprintf_d i +:+ " missing"))) /\
  (forall d b l i,
     blindedBeaconBlockBodyJSON.AttesterSlashings d = Some l -> first_nil_at l i ->
     Forall (fun g => field_error g d = None) (fields_before attester_slashings) ->
     err_of (BlindedBeaconBlockBody.unpack d b) =
     Some (fmt_Errorf ("attester slashings entry " +:+ fmt.Sprintf_d i +:+ " missing"))) /\
  (forall d b l i,
     blindedBeaconBlockBodyJSON.Attestations d = Some l -> first_nil_at l i ->
     Forall (fun g => field_error g d = None) (fields_before attestations) ->
     err_of (BlindedBeaconBlockBody.unpack d b) =
     Some (fmt_Errorf ("attestations entry " +:+ fmt.Sprintf_d i +:+ " missing"))) /\
  (forall d b l i,
     blindedBeaconBlockBodyJSON.Deposits d = Some l -> first_nil_at l i ->
     Forall (fun g => field_error g d = None) (fields_before deposits) ->
     err_of (BlindedBeaconBlockBody.unpack d b) =
     Some (fmt_Errorf ("deposits entry " +:+ fmt.Sprintf_d i +:+ " missing"))) /\
  (forall d b l i,
     blindedBeaconBlockBodyJSON.VoluntaryExits d = Some l -> first_nil_at l i ->
     Forall (fun g => field_error g d = None) (fields_before voluntary_exits) ->
     err_of (BlindedBeaconBlockBody.unpack d b) =
     Some (fmt_Errorf ("voluntary exits entry " +:+ fmt.Sprintf_d i +:+ " missing"))) /\
  (forall d b l,
     blindedBeaconBlockBodyJSON.ProposerSlashings d = Some l -> None ∈ l ->
     is_Some (err_of (BlindedBeaconBlockBody.unpack d b))) /\
  (forall d b l,
     blindedBeaconBlockBodyJSON.AttesterSlashings d = Some l -> None ∈ l ->
     is_Some (err_of (BlindedBeaconBlockBody.unpack d b))) /\
  (forall d b l,
     blindedBeaconBlockBodyJSON.Attestations d = Some l -> None ∈ l ->
     is_Some (err_of (BlindedBeaconBlockBody.unpack d b))) /\
  (forall d b l,
     blindedBeaconBlockBodyJSON.Deposits d = Some l -> None ∈ l ->
     is_Some (err_of (BlindedBeaconBlockBody.unpack d b))) /\
  (forall d b l,
     blindedBeaconBlockBodyJSON.VoluntaryExits d = Some l -> None ∈ l ->
     is_Some (err_of (BlindedBeaconBlockBody.unpack d b))) /\
  (forall (what : string) (i j : nat),
     fmt_Errorf (what +:+ fmt.Sprintf_d i +:+ " missing") =
     fmt_Errorf (what +:+ fmt.Sprintf_d j +:+ " missing") -> i = j).
Proof.
  split_and!.
  - intros d b l i Hl Hi Hbefore. apply (unpack_first_error d b proposer_slashings); [|done].
    cbn [field_error]. rewrite Hl. apply (entries_error_first_nil l "proposer slashings" i Hi).
  - intros d b l i Hl Hi Hbefore. apply (unpack_first_error d b attester_slashings); [|done].
    cbn [field_error]. rewrite Hl. apply (entries_error_first_nil l "attester slashings" i Hi).
  - intros d b l i Hl Hi Hbefore. apply (unpack_first_error d b attestations); [|done].
    cbn [field_error]. rewrite Hl. apply (entries_error_first_nil l "attestations" i Hi).
  - intros d b l i Hl Hi Hbefore. apply (unpack_first_error d b deposits); [|done].
    cbn [field_error]. rewrite Hl. apply (entries_error_first_nil l "deposits" i Hi).
  - intros d b l i Hl Hi Hbefore. apply (unpack_first_error d b voluntary_exits); [|done].
    cbn [field_error]. rewrite Hl. apply (entries_error_first_nil l "voluntary exits" i Hi).
  - intros d b l Hl Hnil. apply (unpack_fails d b proposer_slashings).
    cbn [field_error]. rewrite Hl. by apply entries_error_nil.
  - intros d b l Hl Hnil. apply (unpack_fails d b attester_slashings).
    cbn [field_error]. rewrite Hl. by apply entries_error_nil.
  - intros d b l Hl Hnil. apply (unpack_fails d b attestations).
    cbn [field_error]. rewrite Hl. by apply entries_error_nil.
  - intros d b l Hl Hnil. apply (unpack_fails d b deposits).
    cbn [field_error]. rewrite Hl. by apply entries_error_nil.
  - intros d b l Hl Hnil. apply (unpack_fails d b voluntary_exits).
    cbn [field_error]. rewrite Hl. by apply entries_error_nil.
  - intros what i j [= Heq]. by apply (entry_message_index what).
Qed.

End Missing.

(** The fields before a given one are valid in a sample document. *)
Ltac sample_fields_valid :=
  unfold fields_before, fields; cbn [fields_before_in];
  repeat (rewrite decide_False by discriminate || rewrite decide_True by reflexivity);
  repeat first [apply Forall_nil_2 | apply Forall_cons_2; [vm_compute; reflexivity|]].

(** The sample document without [eth1_data]. *)
Lemma missing_field_is_error_witness :
  err_of (BlindedBeaconBlockBody.unpack Sample.body_json_without_eth1 Sample.zero_body) =
  Some (errors_New "ETH1 data missing").
Proof.
  pose proof (@missing_field_is_error Sample.objects Sample.signed_block_JSON Sample.body_JSON)
    as (_ & Hmissing & _).
  apply (Hmissing Sample.body_json_without_eth1 Sample.zero_body eth1_data).
  - reflexivity.
  - reflexivity.
  - sample_fields_valid.
Defined.

(** The sample document with [nil] for its one deposit. *)
Lemma null_entry_is_error_witness :
  err_of (BlindedBeaconBlockBody.unpack Sample.body_json_null_deposit Sample.zero_body) =
  Some (fmt_Errorf "deposits entry 0 missing").
Proof.
  pose proof (@null_entry_is_error Sample.objects) as (_ & _ & _ & Hdeposits & _).
  apply (Hdeposits Sample.body_json_null_deposit Sample.zero_body [None] 0).
  - reflexivity.
  - split; [reflexivity|]. intros j Hj. lia.
  - sample_fields_valid.
Defined.
(** ** Lengths, the optional list, and the bare prefix *)

Lemma hex_field_error_None (s : string) (n : nat) (missing invalid wrong_length : string) :
  hex_field_error s n missing invalid wrong_length = None <->
  String.eqb s EmptyString = false /\
  exists bs, hex_bytes s = inr bs /\ length bs = n.
Proof.
  unfold hex_field_error, hex_value_error.
  destruct (String.eqb s EmptyString); [split; [done|by intros [? _]]|].
  destruct (hex_bytes s) as [e|bs]; [split; [done|by intros [_ (? & ? & _)]]|].
  destruct (Nat.eqb_spec (length bs) n) as [Hn|Hn].
  - split; [|done]. intros _. split; [done|]. by exists bs.
  - split; [done|]. intros [_ (? & [= <-] & ?)]. done.
Qed.

Lemma hex_field_error_wrong_length (s : string) (n : nat) (missing invalid wrong_length : string) (bs : list byte) :
  String.eqb s EmptyString = false -> hex_bytes s = inr bs -> length bs <> n ->
  hex_field_error s n missing invalid wrong_length = Some (errors_New wrong_length).
Proof.
  intros Hs Hbs Hn. unfold hex_field_error, hex_value_error. rewrite Hs, Hbs.
  by destruct (Nat.eqb_spec (length bs) n).
Qed.

Lemma commitment_error_wrong_length (x : string) (bs : list byte) :
  hex_bytes x = inr bs -> length bs <> deneb.KZGCommitmentLength ->
  commitment_error x = Some (errors_New "incorrect length for blob KZG commitment").
Proof.
  intros Hbs Hn. unfold commitment_error, hex_value_error. rewrite Hbs.
  by destruct (Nat.eqb_spec (length bs) deneb.KZGCommitmentLength).
Qed.

Lemma commitment_error_None (x : string) :
  commitment_error x = None ->
  hex_bytes x = inr (decoded x) /\ length (decoded x) = deneb.KZGCommitmentLength.
Proof.
  unfold commitment_error, hex_value_error, decoded.
  destruct (hex_bytes x) as [e|bs]; [done|].
  by destruct (Nat.eqb_spec (length bs) deneb.KZGCommitmentLength).
Qed.

Lemma first_error_None {A} (check : A -> option error) (l : list A) :
  first_error (check <$> l) = None -> Forall (fun x => check x = None) l.
Proof.
  induction l as [|x l IH]; [done|]. cbn [fmap list_fmap first_error].
  destruct (check x) eqn:Hx; [done|]. intros Hl. apply Forall_cons. auto.
Qed.

Lemma commitments_field_error_None (sl : option (list string)) :
  commitments_field_error sl = None ->
  exists l, sl = Some l /\
    Forall (fun x => hex_bytes x = inr (decoded x) /\
                     length (decoded x) = deneb.KZGCommitmentLength) l.
Proof.
  destruct sl as [l|]; [|done]. unfold commitments_field_error.
  destruct (find_index _ l); [done|]. intros Hl%first_error_None.
  exists l. split; [done|]. eapply Forall_impl; [exact Hl|]. apply commitment_error_None.
Qed.

Section Lengths.
Context `{SubObjects}.

(** A successful [unpack]: no field has an error and every field has been
    written. *)
Lemma unpack_ok (d : blindedBeaconBlockBodyJSON.t) (b b' : BlindedBeaconBlockBody.t) :
  BlindedBeaconBlockBody.unpack d b = (b', inr ()) ->
  Forall (fun f => field_error f d = None) fields /\
  b' = foldl (fun b f => write f d b) b fields.
Proof.
  rewrite unpack_unpack_fields. intros Hrun.
  pose proof (unpack_fields_ok_inv fields d b b' Hrun) as Hfields.
  split; [done|]. rewrite unpack_fields_ok in Hrun by done. congruence.
Qed.

Lemma fields_valid (d : blindedBeaconBlockBodyJSON.t) (f : field) :
  Forall (fun f => field_error f d = None) fields -> field_error f d = None.
Proof. intros Hfields. apply (proj1 (Forall_forall _ _) Hfields), elem_of_fields. Qed.


(** C5: fixed lengths are enforced.  A signature that decodes to other
    than 96 bytes is rejected with its length in the error, one of 96 bytes
    is accepted and stored as it is; in a body, a RANDAO reveal of other
    than 96 bytes, a graffiti of other than 32 bytes and a blob KZG
    commitment of other than 48 bytes are each rejected with the
    incorrect-length error of the field when it is the first check to fail;
    and after a successful [unpack] the three fields hold exactly the bytes
    their strings decode to, of exactly those lengths. *)
Theorem fixed_length_enforced :
  (forall (m : electra_BeaconBlock) (sig : string) (s : SignedBeaconBlock.t) (bs : list byte),
     String.eqb sig EmptyString = false -> hex_bytes sig = inr bs ->
     (length bs <> phase0.SignatureLength ->
      SignedBeaconBlock.unpack (signedBeaconBlockJSON.mk (Some m) sig) s =
      (SignedBeaconBlock.set_Message (Some m) s,
       inl (fmt_Errorf
              ("incorrect length " +:+ fmt.Sprintf_d (length bs) +:+ " for signature")))) /\
     (length bs = phase0.SignatureLength -> signed_block_arrays s ->
      SignedBeaconBlock.unpack (signedBeaconBlockJSON.mk (Some m) sig) s =
      (SignedBeaconBlock.mk (Some m) bs, inr ()))) /\
  (forall (d : blindedBeaconBlockBodyJSON.t) (b : BlindedBeaconBlockBody.t) (bs : list byte),
     String.eqb (blindedBeaconBlockBodyJSON.RANDAOReveal d) EmptyString = false ->
     hex_bytes (blindedBeaconBlockBodyJSON.RANDAOReveal d) = inr bs ->
     length bs <> phase0.SignatureLength ->
     BlindedBeaconBlockBody.unpack d b =
     (b, inl (errors_New "incorrect length for RANDAO reveal"))) /\
  (forall (d : blindedBeaconBlockBodyJSON.t) (b : BlindedBeaconBlockBody.t) (bs : list byte),
     String.eqb (blindedBeaconBlockBodyJSON.Graffiti d) EmptyString = false ->
     hex_bytes (blindedBeaconBlockBodyJSON.Graffiti d) = inr bs ->
     length bs <> phase0.GraffitiLength ->
     is_Some (err_of (BlindedBeaconBlockBody.unpack d b)) /\
     (Forall (fun g => field_error g d = None) (fields_before graffiti) ->
      err_of (BlindedBeaconBlockBody.unpack d b) =
      Some (errors_New "incorrect length for graffiti"))) /\
  (forall (d : blindedBeaconBlockBodyJSON.t) (b : BlindedBeaconBlockBody.t)
          (l : list string) (i : nat) (x : string) (bs : list byte),
     blindedBeaconBlockBodyJSON.BlobKZGCommitments d = Some l ->
     l !! i = Some x -> hex_bytes x = inr bs ->
     length bs <> deneb.KZGCommitmentLength ->
     is_Some (err_of (BlindedBeaconBlockBody.unpack d b)) /\
     ((forall y, y ∈ l -> String.eqb y EmptyString = false) ->
      (forall j y, j < i -> l !! j = Some y -> commitment_error y = None) ->
      Forall (fun g => field_error g d = None) (fields_before blob_kzg_commitments) ->
      err_of (BlindedBeaconBlockBody.unpack d b) =
      Some (errors_New "incorrect length for blob KZG commitment"))) /\
  (forall (d : blindedBeaconBlockBodyJSON.t) (b b' : BlindedBeaconBlockBody.t),
     BlindedBeaconBlockBody.unpack d b = (b', inr ()) -> body_arrays b ->
     hex_bytes (blindedBeaconBlockBodyJSON.RANDAOReveal d) =
       inr (BlindedBeaconBlockBody.RANDAOReveal b') /\
     length (BlindedBeaconBlockBody.RANDAOReveal b') = phase0.SignatureLength /\
     hex_bytes (blindedBeaconBlockBodyJSON.Graffiti d) =
       inr (BlindedBeaconBlockBody.Graffiti b') /\
     length (BlindedBeaconBlockBody.Graffiti b') = phase0.GraffitiLength /\
     exists (l : list string) (ks : list (list byte)),
       blindedBeaconBlockBodyJSON.BlobKZGCommitments d = Some l /\
       BlindedBeaconBlockBody.BlobKZGCommitments b' = Some ks /\
       Forall2 (fun x k => hex_bytes x = inr k /\ length k = deneb.KZGCommitmentLength) l ks) /\
  (forall (d : blindedBeaconBlockBodyJSON.t),
     (field_error randao_reveal d = None <->
      String.eqb (blindedBeaconBlockBodyJSON.RANDAOReveal d) EmptyString = false /\
      exists bs, hex_bytes (blindedBeaconBlockBodyJSON.RANDAOReveal d) = inr bs /\
                 length bs = phase0.SignatureLength) /\
     (field_error graffiti d = None <->
      String.eqb (blindedBeaconBlockBodyJSON.Graffiti d) EmptyString = false /\
      exists bs, hex_bytes (blindedBeaconBlockBodyJSON.Graffiti d) = inr bs /\
                 length bs = phase0.GraffitiLength)) /\
  (forall (d : blindedBeaconBlockBodyJSON.t) (b : BlindedBeaconBlockBody.t),
     Forall (fun f => field_error f d = None) fields ->
     exists b' : BlindedBeaconBlockBody.t,
       BlindedBeaconBlockBody.unpack d b = (b', inr ())).
Proof.
  split_and!.
  - intros m sig s bs Hsig Hbs. rewrite SignedBeaconBlock_unpack_eq.
    cbn [signedBeaconBlockJSON.Message signedBeaconBlockJSON.Signature]. cbv zeta.
    rewrite Hsig, Hbs. split.
    + intros Hn. by destruct (Nat.eqb_spec (length bs) phase0.SignatureLength).
    + intros Hn Hs. rewrite Hn, Nat.eqb_refl. rewrite copy_full; [done|]. by rewrite Hs.
  - intros d b bs Hr Hbs Hn. rewrite unpack_unpack_fields. unfold fields.
    cbn [unpack_fields field_error write_failed].
    by rewrite (hex_field_error_wrong_length _ _ _ _ _ bs).
  - intros d b bs Hg Hbs Hn.
    assert (field_error graffiti d = Some (errors_New "incorrect length for graffiti")) as He.
    { cbn [field_error]. by apply (hex_field_error_wrong_length _ _ _ _ _ bs). }
    split.
    + apply (unpack_fails d b graffiti). by rewrite He.
    + intros Hbefore. by apply (unpack_first_error d b graffiti).
  - intros d b l i x bs Hl Hi Hbs Hn.
    pose proof (commitment_error_wrong_length x bs Hbs Hn) as He. split.
    + apply (unpack_fails d b blob_kzg_commitments). cbn [field_error]. rewrite Hl.
      unfold commitments_field_error. destruct (find_index _ l); [by eexists|].
      destruct (first_error (commitment_error <$> l)) eqn:Hfirst; [by eexists|].
      apply first_error_None in Hfirst.
      apply list_elem_of_lookup_2 in Hi.
      rewrite (proj1 (Forall_forall _ _) Hfirst x Hi) in He. done.
    + intros Hempty Hentries Hbefore. by eapply unpack_commitment_error.
  - intros d b b' Hrun [Hb1 Hb2]. apply unpack_ok in Hrun as [Hfields ->].
    pose proof (fields_valid d randao_reveal Hfields) as Hr.
    pose proof (fields_valid d graffiti Hfields) as Hg.
    pose proof (fields_valid d blob_kzg_commitments Hfields) as Hk.
    cbn [field_error] in Hr, Hg, Hk.
    apply hex_field_error_None in Hr as (_ & r & Hr & Hrn).
    apply hex_field_error_None in Hg as (_ & g & Hg & Hgn).
    apply commitments_field_error_None in Hk as (l & Hl & Hk).
    unfold fields. cbn [foldl]. cbn -[copy decoded].
    assert (decoded (blindedBeaconBlockBodyJSON.RANDAOReveal d) = r) as ->
      by (unfold decoded; by rewrite Hr).
    assert (decoded (blindedBeaconBlockBodyJSON.Graffiti d) = g) as ->
      by (unfold decoded; by rewrite Hg).
    rewrite Hr, Hg, !copy_full by congruence.
    split_and!; [done..|].
    exists l, (decoded <$> l). rewrite Hl. split_and!; [done..|].
    apply Forall2_fmap_r, Forall_Forall2_diag. exact Hk.
  - intros d. split; apply hex_field_error_None.
  - intros d b Hfields. eexists. by rewrite unpack_unpack_fields, unpack_fields_ok.
Qed.


(** C7: the optional list.  A body document that is valid in every other
    field and omits the BLS-to-execution changes is unpacked, and the
    body then holds the empty slice, not [nil], in that field; after any
    successful [unpack] the field holds the entries of the document.  When
    the list is there, its first [nil] entry, at index [i], is the error
    [bls to execution changes entry <i> missing] when the fields before the
    list are valid, and a document with a [nil] entry in it is rejected,
    whatever its other fields. *)
Theorem optional_changes_default :
  (forall r e g ps ats att dp ve sa eph bls kzg er (b : BlindedBeaconBlockBody.t),
     (forall f, f <> bls_to_execution_changes ->
        field_error f
          (blindedBeaconBlockBodyJSON.mk r e g ps ats att dp ve sa eph bls kzg er) = None) ->
     exists b' : BlindedBeaconBlockBody.t,
       BlindedBeaconBlockBody.unpack
         (blindedBeaconBlockBodyJSON.mk r e g ps ats att dp ve sa eph None kzg er) b
         = (b', inr ()) /\
       BlindedBeaconBlockBody.BLSToExecutionChanges b' = Some []) /\
  (forall (d : blindedBeaconBlockBodyJSON.t) (b b' : BlindedBeaconBlockBody.t),
     BlindedBeaconBlockBody.unpack d b = (b', inr ()) ->
     BlindedBeaconBlockBody.BLSToExecutionChanges b' =
     Some (elems (blindedBeaconBlockBodyJSON.BLSToExecutionChanges d))) /\
  (forall (d : blindedBeaconBlockBodyJSON.t) (b : BlindedBeaconBlockBody.t)
          (l : list (option capella_SignedBLSToExecutionChange)) (i : nat),
     blindedBeaconBlockBodyJSON.BLSToExecutionChanges d = Some l -> first_nil_at l i ->
     Forall (fun g => field_error g d = None) (fields_before bls_to_execution_changes) ->
     err_of (BlindedBeaconBlockBody.unpack d b) =
     Some (fmt_Errorf ("bls to execution changes entry " +:+ fmt.Sprintf_d i +:+ " missing"))) /\
  (forall (d : blindedBeaconBlockBodyJSON.t) (b : BlindedBeaconBlockBody.t)
          (l : list (option capella_SignedBLSToExecutionChange)),
     blindedBeaconBlockBodyJSON.BLSToExecutionChanges d = Some l -> None ∈ l ->
     is_Some (err_of (BlindedBeaconBlockBody.unpack d b))).
Proof.
  split_and!.
  - intros r e g ps ats att dp ve sa eph bls kzg er b Hvalid.
    eexists. rewrite unpack_unpack_fields, unpack_fields_ok.
    + split; reflexivity.
    + apply Forall_forall. intros f _.
      destruct (decide (f = bls_to_execution_changes)) as [->|Hf]; [reflexivity|].
      rewrite <- (Hvalid f Hf). by destruct f.
  - intros d b b' Hrun. by apply unpack_ok in Hrun as [_ ->].
  - intros d b l i Hl Hi Hbefore.
    apply (unpack_first_error d b bls_to_execution_changes); [|done].
    cbn [field_error]. rewrite Hl.
    apply (entries_error_first_nil l "bls to execution changes" i Hi).
  - intros d b l Hl Hnil. apply (unpack_fails d b bls_to_execution_changes).
    cbn [field_error]. rewrite Hl. by apply entries_error_nil.
Qed.

(** C10: a bare [0x] is a value, of no bytes.  It passes the check for an
    empty string and decodes to the empty byte slice, so the field fails
    for its length and not as missing: the signature of a signed block
    with [incorrect length 0 for signature], the RANDAO reveal with its
    incorrect-length error, and the graffiti and a blob KZG commitment
    with theirs when they are the first check to fail. *)
Theorem bare_prefix_is_wrong_length :
  String.eqb "0x" EmptyString = false /\
  hex_bytes "0x" = inr [] /\
  (forall (m : electra_BeaconBlock) (s : SignedBeaconBlock.t),
     SignedBeaconBlock.unpack (signedBeaconBlockJSON.mk (Some m) "0x") s =
     (SignedBeaconBlock.set_Message (Some m) s,
      inl (fmt_Errorf "incorrect length 0 for signature"))) /\
  (forall (d : blindedBeaconBlockBodyJSON.t) (b : BlindedBeaconBlockBody.t),
     blindedBeaconBlockBodyJSON.RANDAOReveal d = "0x" ->
     BlindedBeaconBlockBody.unpack d b =
     (b, inl (errors_New "incorrect length for RANDAO reveal"))) /\
  (forall (d : blindedBeaconBlockBodyJSON.t) (b : BlindedBeaconBlockBody.t),
     blindedBeaconBlockBodyJSON.Graffiti d = "0x" ->
     is_Some (err_of (BlindedBeaconBlockBody.unpack d b)) /\
     (Forall (fun g => field_error g d = None) (fields_before graffiti) ->
      err_of (BlindedBeaconBlockBody.unpack d b) =
      Some (errors_New "incorrect length for graffiti"))) /\
  (forall (d : blindedBeaconBlockBodyJSON.t) (b : BlindedBeaconBlockBody.t)
          (l : list string) (i : nat),
     blindedBeaconBlockBodyJSON.BlobKZGCommitments d = Some l ->
     l !! i = Some "0x" ->
     (forall y, y ∈ l -> String.eqb y EmptyString = false) ->
     (forall j y, j < i -> l !! j = Some y -> commitment_error y = None) ->
     Forall (fun g => field_error g d = None) (fields_before blob_kzg_commitments) ->
     err_of (BlindedBeaconBlockBody.unpack d b) =
     Some (errors_New "incorrect length for blob KZG commitment")).
Proof.
  split_and!; [reflexivity..| | | |].
  - intros m s. by rewrite SignedBeaconBlock_unpack_eq.
  - intros d b Hr. rewrite unpack_unpack_fields. unfold fields.
    cbn [unpack_fields field_error write_failed]. by rewrite Hr.
  - intros d b Hg.
    assert (field_error graffiti d = Some (errors_New "incorrect length for graffiti")) as He.
    { cbn [field_error]. by rewrite Hg. }
    split.
    + apply (unpack_fails d b graffiti). by rewrite He.
    + intros Hbefore. by apply (unpack_first_error d b graffiti).
  - intros d b l i Hl Hi Hempty Hentries Hbefore.
    by eapply unpack_commitment_error.
Qed.

End Lengths.

(** The sample signed block with a signature of 95 bytes. *)
Lemma fixed_length_enforced_witness :
  SignedBeaconBlock.unpack Sample.signed_block_json_short Sample.zero_signed_block =
  (@SignedBeaconBlock.set_Message Sample.objects (Some 7) Sample.zero_signed_block,
   inl (fmt_Errorf "incorrect length 95 for signature")).
Proof.
  pose proof (@fixed_length_enforced Sample.objects) as (Hsignature & _).
  refine (proj1 (Hsignature 7 ("0x" +:+ hex.EncodeToString (replicate 95 Byte.xab))
                   Sample.zero_signed_block (replicate 95 Byte.xab) _ _) _).
  - reflexivity.
  - vm_compute. reflexivity.
  - vm_compute. discriminate.
Defined.

(** The sample document without its BLS-to-execution changes. *)
Lemma optional_changes_default_witness :
  exists b' : BlindedBeaconBlockBody.t,
    BlindedBeaconBlockBody.unpack Sample.body_json_without_changes Sample.zero_body
      = (b', inr ()) /\
    BlindedBeaconBlockBody.BLSToExecutionChanges b' = Some [].
Proof.
  pose proof (@optional_changes_default Sample.objects) as (Homitted & _).
  apply (Homitted ("0x" +:+ Sample.signature_hex) (Some 1) ("0x" +:+ Sample.graffiti_hex)
           (Some [Some 2]) (Some []) (Some [Some 3; Some 4]) (Some [Some 5]) (Some [])
           (Some 6) (Some 7) (Some [Some 8])
           (Some ["0x" +:+ Sample.commitment_hex; "0x" +:+ Sample.commitment_hex]) (Some 9)
           Sample.zero_body).
  intros f _. destruct f; vm_compute; reflexivity.
Defined.

(** The sample document with a bare [0x] for its graffiti. *)
Lemma bare_prefix_is_wrong_length_witness :
  err_of (BlindedBeaconBlockBody.unpack Sample.body_json_bare_graffiti Sample.zero_body) =
  Some (errors_New "incorrect length for graffiti").
Proof.
  pose proof (@bare_prefix_is_wrong_length Sample.objects) as (_ & _ & _ & _ & Hgraffiti & _).
  apply (Hgraffiti Sample.body_json_bare_graffiti Sample.zero_body).
  - reflexivity.
  - sample_fields_valid.
Defined.

(** * Further properties *)

(** ** What [hex.DecodeString] accepts *)

Lemma hex_digits_first_invalid (s : string) :
  hex_digits s = true <-> first_invalid s = None.
Proof.
  induction s as [|c s IH]; [done|]. cbn [hex_digits first_invalid].
  destruct (hex.fromHexChar c) as [a|] eqn:Hc.
  - rewrite bool_decide_eq_true_2 by (by eexists). exact IH.
  - rewrite bool_decide_eq_false_2 by (by intros [? [=]]). done.
Qed.

Lemma first_invalid_cons (c : ascii) (s : string) :
  first_invalid (String c s) =
  match hex.fromHexChar c with
  | Some _ => first_invalid s
  | None => Some c
  end.
Proof. reflexivity. Qed.

Lemma DecodeString_first_invalid (s : string) (c : ascii) :
  first_invalid s = Some c -> hex.DecodeString s = inl (hex_InvalidByteError c).
Proof.
  induction s as [|p|p q s IH] using string_pairs_ind; [done| |].
  - cbn [first_invalid hex.DecodeString]. by destruct (hex.fromHexChar p); intros [= <-].
  - rewrite DecodeString_pair, !first_invalid_cons.
    destruct (hex.fromHexChar p); [|by intros [= <-]].
    destruct (hex.fromHexChar q); [|by intros [= <-]].
    intros Hs. by rewrite IH.
Qed.

Lemma DecodeString_odd_length (s : string) :
  hex_digits s = true -> Nat.Odd (String.length s) ->
  hex.DecodeString s = inl hex_ErrLength.
Proof.
  induction s as [|p|p q s IH] using string_pairs_ind; intros Hs Hodd.
  - destruct Hodd as [k Hk]. cbn in Hk. lia.
  - cbn [hex_digits] in Hs. apply andb_prop in Hs as [[a Ha]%bool_decide_eq_true _].
    cbn [hex.DecodeString]. by rewrite Ha.
  - cbn [hex_digits] in Hs.
    apply andb_prop in Hs as [[a Ha]%bool_decide_eq_true Hs].
    apply andb_prop in Hs as [[b Hb]%bool_decide_eq_true Hs].
    rewrite DecodeString_pair, Ha, Hb, IH; [done..|].
    destruct Hodd as [k Hk]. cbn [String.length] in Hk. exists (k - 1). lia.
Qed.

Lemma DecodeString_inr (s : string) (bs : list byte) :
  hex.DecodeString s = inr bs ->
  hex_digits s = true /\ String.length s = 2 * length bs.
Proof.
  revert bs. induction s as [|p|p q s IH] using string_pairs_ind; intros bs.
  - by intros [= <-].
  - cbn [hex.DecodeString]. by destruct (hex.fromHexChar p).
  - rewrite DecodeString_pair. cbn [hex_digits String.length].
    destruct (hex.fromHexChar p) as [a|] eqn:Ha; [|done].
    destruct (hex.fromHexChar q) as [b|] eqn:Hb; [|done].
    destruct (hex.DecodeString s) as [e|bs'] eqn:Hs; [done|]. intros [= <-].
    destruct (IH bs' eq_refl) as [-> Hlen].
    rewrite !bool_decide_eq_true_2 by (by eexists). cbn [length]. split; [done|lia].
Qed.

Lemma fromHexChar_digit_lower (c : ascii) (a : N) :
  hex.fromHexChar c = Some a -> (a < 16)%N /\ hex.digit a = lower_hex c.
Proof.
  destruct c as [[] [] [] [] [] [] [] []]; vm_compute; intros [= <-]; by vm_compute.
Qed.

Lemma join_split (a b : N) :
  (a < 16)%N -> (b < 16)%N ->
  N.shiftr (Byte.to_N (hex.join a b)) 4 = a /\ N.land (Byte.to_N (hex.join a b)) 15 = b.
Proof.
  intros Ha Hb.
  assert (a = 0 \/ a = 1 \/ a = 2 \/ a = 3 \/ a = 4 \/ a = 5 \/ a = 6 \/ a = 7 \/
          a = 8 \/ a = 9 \/ a = 10 \/ a = 11 \/ a = 12 \/ a = 13 \/ a = 14 \/ a = 15)%N
    as Ha' by lia.
  assert (b = 0 \/ b = 1 \/ b = 2 \/ b = 3 \/ b = 4 \/ b = 5 \/ b = 6 \/ b = 7 \/
          b = 8 \/ b = 9 \/ b = 10 \/ b = 11 \/ b = 12 \/ b = 13 \/ b = 14 \/ b = 15)%N
    as Hb' by lia.
  clear Ha Hb.
  repeat (destruct Ha' as [->|Ha']); try subst a;
    repeat (destruct Hb' as [->|Hb']); try subst b; by vm_compute.
Qed.

(** Encoding what was decoded gives the digits back in lowercase. *)
Lemma EncodeToString_DecodeString (s : string) (bs : list byte) :
  hex.DecodeString s = inr bs -> hex.EncodeToString bs = lower s.
Proof.
  revert bs. induction s as [|p|p q s IH] using string_pairs_ind; intros bs.
  - by intros [= <-].
  - cbn [hex.DecodeString]. by destruct (hex.fromHexChar p).
  - rewrite DecodeString_pair.
    destruct (hex.fromHexChar p) as [a|] eqn:Hp; [|done].
    destruct (hex.fromHexChar q) as [b|] eqn:Hq; [|done].
    destruct (hex.DecodeString s) as [e|bs'] eqn:Hs; [done|]. intros [= <-].
    apply fromHexChar_digit_lower in Hp as [Ha Hp], Hq as [Hb Hq].
    destruct (join_split a b Ha Hb) as [Hhi Hlo].
    cbn [hex.EncodeToString lower]. rewrite Hhi, Hlo, Hp, Hq. by rewrite (IH bs').
Qed.

Lemma EncodeToString_length (bs : list byte) :
  String.length (hex.EncodeToString bs) = 2 * length bs.
Proof. induction bs as [|v bs IH]; cbn [hex.EncodeToString String.length length]; lia. Qed.

Lemma byte_digits_lowercase (v : byte) :
  lowercase_digits
    (String (hex.digit (N.shiftr (Byte.to_N v) 4))
       (String (hex.digit (N.land (Byte.to_N v) 15)) EmptyString)) = true.
Proof. destruct v; by vm_compute. Qed.

Lemma EncodeToString_lowercase (bs : list byte) :
  lowercase_digits (hex.EncodeToString bs) = true.
Proof.
  induction bs as [|v bs IH]; [done|].
  pose proof (byte_digits_lowercase v) as Hv.
  cbn [hex.EncodeToString lowercase_digits] in *.
  apply andb_prop in Hv as [-> Hv]. apply andb_prop in Hv as [-> _]. exact IH.
Qed.

Lemma lower_length (s : string) : String.length (lower s) = String.length s.
Proof. induction s as [|c s IH]; cbn [lower String.length]; congruence. Qed.

(** A hex string of [n] bytes is a non-empty string that decodes to [n]
    bytes. *)
Lemma accepts_hex_spec (n : nat) (s : string) :
  n <> 0 ->
  accepts_hex n s = true <->
  String.eqb s EmptyString = false /\ exists bs, hex_bytes s = inr bs /\ length bs = n.
Proof.
  intros Hn. unfold accepts_hex, hex_bytes. split.
  - intros [Hd Hlen]%andb_prop. apply Nat.eqb_eq in Hlen.
    destruct (DecodeString_hex_digits _ Hd) as (bs & Hbs & Hl); [exists n; lia|].
    split.
    + destruct s; [|done]. cbn in Hlen. lia.
    + exists bs. split; [done|lia].
  - intros [_ (bs & Hbs & Hl)]. apply DecodeString_inr in Hbs as [-> Hlen].
    cbn [andb]. apply Nat.eqb_eq. lia.
Qed.

(** ** Malformed hex, and the documents that are accepted *)

Lemma hex_field_error_invalid (s : string) (n : nat) (missing invalid wrong_length : string) (e : error) :
  String.eqb s EmptyString = false -> hex_bytes s = inl e ->
  hex_field_error s n missing invalid wrong_length = Some (errors_Wrap e invalid).
Proof. intros Hs He. unfold hex_field_error, hex_value_error. by rewrite Hs, He. Qed.

Lemma find_index_None_inv {A} (p : A -> bool) (l : list A) :
  find_index p l = None -> forallb (fun x => negb (p x)) l = true.
Proof.
  induction l as [|x l IH]; [done|]. cbn [find_index forallb].
  destruct (p x); [done|]. destruct (find_index p l); [done|]. intros _. by apply IH.
Qed.

Lemma first_error_None_2 {A} (check : A -> option error) (l : list A) :
  Forall (fun x => check x = None) l -> first_error (check <$> l) = None.
Proof.
  induction 1 as [|x l Hx Hl IH]; [done|]. cbn [fmap list_fmap first_error]. by rewrite Hx.
Qed.

Lemma pointer_field_error_None {A} (p : option A) (what : string) :
  pointer_field_error p what = None <-> negb (is_nil p) = true.
Proof. unfold pointer_field_error. by destruct p. Qed.

Lemma sequence_field_error_None {A} (sl : option (list (option A))) (what : string) :
  sequence_field_error sl what = None <-> populated sl = true.
Proof.
  split; [|apply sequence_field_error_populated].
  destruct sl as [l|]; [|done]. cbn [sequence_field_error populated]. unfold entries_error.
  destruct (find_index is_nil l) eqn:Hl; [done|]. intros _. by apply find_index_None_inv.
Qed.

Lemma optional_sequence_field_error_None {A} (sl : option (list (option A))) (what : string) :
  optional_sequence_field_error sl what = None <-> no_nil_entry sl = true.
Proof.
  split; [|apply optional_sequence_field_error_no_nil].
  destruct sl as [l|]; [|done]. unfold no_nil_entry.
  cbn [optional_sequence_field_error elems]. unfold entries_error.
  destruct (find_index is_nil l) eqn:Hl; [done|]. intros _. by apply find_index_None_inv.
Qed.

Lemma hex_field_error_accepts (s : string) (n : nat) (missing invalid wrong_length : string) :
  n <> 0 ->
  hex_field_error s n missing invalid wrong_length = None <-> accepts_hex n s = true.
Proof. intros Hn. by rewrite hex_field_error_None, accepts_hex_spec. Qed.

Lemma commitment_error_accepts (x : string) :
  String.eqb x EmptyString = false /\ commitment_error x = None <->
  accepts_hex deneb.KZGCommitmentLength x = true.
Proof.
  rewrite accepts_hex_spec by done. split.
  - intros [Hx [Hbs Hlen]%commitment_error_None]. split; [done|]. by eexists.
  - intros [Hx (bs & Hbs & Hlen)]. split; [done|].
    unfold commitment_error, hex_value_error. rewrite Hbs, Hlen. by rewrite Nat.eqb_refl.
Qed.

Lemma commitments_field_error_accepts (sl : option (list string)) :
  commitments_field_error sl = None <->
  match sl with
  | None => false
  | Some l => forallb (accepts_hex deneb.KZGCommitmentLength) l
  end = true.
Proof.
  destruct sl as [l|]; [|done]. unfold commitments_field_error. split.
  - destruct (find_index _ l) eqn:Hempty; [done|].
    apply find_index_None_inv in Hempty. intros Herr%first_error_None.
    apply forallb_forall. intros x Hx. apply commitment_error_accepts. split.
    + rewrite forallb_forall in Hempty. by apply negb_true_iff, Hempty.
    + apply (proj1 (Forall_forall _ _) Herr). by apply list_elem_of_In.
  - intros Hl. rewrite forallb_forall in Hl.
    rewrite find_index_none.
    + apply first_error_None_2, Forall_forall. intros x Hx%list_elem_of_In.
      by apply commitment_error_accepts, Hl.
    + intros x Hx%list_elem_of_In. by apply commitment_error_accepts, Hl.
Qed.

Section Acceptance.
Context `{SubObjects}.

Lemma fields_valid_accepted (d : blindedBeaconBlockBodyJSON.t) :
  Forall (fun f => field_error f d = None) fields <-> accepted_body d = true.
Proof.
  unfold accepted_body, fields. rewrite !andb_true_iff, !Forall_cons, Forall_nil.
  cbn [field_error].
  rewrite !hex_field_error_accepts by done.
  rewrite !pointer_field_error_None, !sequence_field_error_None,
    optional_sequence_field_error_None, commitments_field_error_accepts.
  tauto.
Qed.

Lemma err_of_None_fields (d : blindedBeaconBlockBodyJSON.t) (b : BlindedBeaconBlockBody.t) :
  err_of (BlindedBeaconBlockBody.unpack d b) = None <->
  Forall (fun f => field_error f d = None) fields.
Proof.
  rewrite unpack_unpack_fields. split.
  - intros Herr. destruct (unpack_fields fields d b) as [b' [e|[]]] eqn:Hrun; [done|].
    by eapply unpack_fields_ok_inv.
  - intros Hfields. by rewrite unpack_fields_ok.
Qed.

(** X1: a hex value that does not decode is an invalid value of its
    field.  The string after its optional [0x] fails to decode for its
    first character that is no hex digit, or, all being digits, for its odd
    length; the error of [hex.DecodeString] is then wrapped with the
    message of the field: always so for the signature of a signed block
    with a message and for the RANDAO reveal, and for the graffiti and a
    blob KZG commitment when theirs is the first check to fail. *)
Theorem malformed_hex_is_invalid_value :
  (forall (s : string) (c : ascii),
     first_invalid (strings.TrimPrefix s "0x") = Some c ->
     hex_bytes s = inl (hex_InvalidByteError c)) /\
  (forall (s : string),
     hex_digits (strings.TrimPrefix s "0x") = true ->
     Nat.Odd (String.length (strings.TrimPrefix s "0x")) ->
     hex_bytes s = inl hex_ErrLength) /\
  (forall (m : electra_BeaconBlock) (sig : string) (s : SignedBeaconBlock.t) (e : error),
     String.eqb sig EmptyString = false -> hex_bytes sig = inl e ->
     SignedBeaconBlock.unpack (signedBeaconBlockJSON.mk (Some m) sig) s =
     (SignedBeaconBlock.set_Message (Some m) s,
      inl (errors_Wrap e "invalid value for signature"))) /\
  (forall (d : blindedBeaconBlockBodyJSON.t) (b : BlindedBeaconBlockBody.t) (e : error),
     String.eqb (blindedBeaconBlockBodyJSON.RANDAOReveal d) EmptyString = false ->
     hex_bytes (blindedBeaconBlockBodyJSON.RANDAOReveal d) = inl e ->
     BlindedBeaconBlockBody.unpack d b =
     (b, inl (errors_Wrap e "invalid value for RANDAO reveal"))) /\
  (forall (d : blindedBeaconBlockBodyJSON.t) (b : BlindedBeaconBlockBody.t) (e : error),
     String.eqb (blindedBeaconBlockBodyJSON.Graffiti d) EmptyString = false ->
     hex_bytes (blindedBeaconBlockBodyJSON.Graffiti d) = inl e ->
     Forall (fun g => field_error g d = None) (fields_before graffiti) ->
     err_of (BlindedBeaconBlockBody.unpack d b) =
     Some (errors_Wrap e "invalid value for graffiti")) /\
  (forall (d : blindedBeaconBlockBodyJSON.t) (b : BlindedBeaconBlockBody.t)
          (l : list string) (i : nat) (x : string) (e : error),
     blindedBeaconBlockBodyJSON.BlobKZGCommitments d = Some l ->
     (forall y, y ∈ l -> String.eqb y EmptyString = false) ->
     l !! i = Some x -> hex_bytes x = inl e ->
     (forall j y, j < i -> l !! j = Some y ->
        accepts_hex deneb.KZGCommitmentLength y = true) ->
     Forall (fun g => field_error g d = None) (fields_before blob_kzg_commitments) ->
     err_of (BlindedBeaconBlockBody.unpack d b) =
     Some (errors_Wrap e "failed to parse blob KZG commitment")).
Proof.
  split_and!.
  - intros s c Hc. by apply DecodeString_first_invalid.
  - intros s Hd Hodd. by apply DecodeString_odd_length.
  - intros m sig s e Hsig He. rewrite SignedBeaconBlock_unpack_eq.
    cbn [signedBeaconBlockJSON.Message signedBeaconBlockJSON.Signature]. cbv zeta.
    by rewrite Hsig, He.
  - intros d b e Hr He. rewrite unpack_unpack_fields. unfold fields.
    cbn [unpack_fields field_error write_failed].
    by rewrite (hex_field_error_invalid _ _ _ _ _ e).
  - intros d b e Hg He Hbefore. apply (unpack_first_error d b graffiti); [|done].
    cbn [field_error]. by apply hex_field_error_invalid.
  - intros d b l i x e Hl Hempty Hi He Hentries Hbefore.
    eapply unpack_commitment_error; [done..| | |done].
    + unfold commitment_error, hex_value_error. by rewrite He.
    + intros j y Hj Hy. by apply commitment_error_accepts, (Hentries j).
Qed.

(** The signed block: no error exactly for a message and a signature of
    the right length. *)
Lemma SignedBeaconBlock_err_of_None (d : signedBeaconBlockJSON.t) (s : SignedBeaconBlock.t) :
  err_of (SignedBeaconBlock.unpack d s) = None <-> accepted_signed_block d = true.
Proof.
  rewrite SignedBeaconBlock_unpack_eq. unfold accepted_signed_block.
  destruct d as [[m|] sig]; cbn [signedBeaconBlockJSON.Message signedBeaconBlockJSON.Signature
                               is_nil negb andb]; [|done].
  rewrite accepts_hex_spec by done. cbv zeta.
  destruct (String.eqb sig EmptyString); [split; [done|by intros [? _]]|].
  destruct (hex_bytes sig) as [e|bs]; [split; [done|by intros [_ (? & ? & _)]]|].
  destruct (Nat.eqb_spec (length bs) phase0.SignatureLength) as [Hn|Hn].
  - split; [|done]. intros _. split; [done|]. by exists bs.
  - split; [done|]. intros [_ (? & [= <-] & ?)]. done.
Qed.

(** X2: the signed block documents that are accepted.  [unpack] returns
    no error exactly when the message is there and the signature is,
    after an optional [0x], 192 hex digits of either case. *)
Theorem SignedBeaconBlock_unpack_accepts (d : signedBeaconBlockJSON.t) (s : SignedBeaconBlock.t) :
  err_of (SignedBeaconBlock.unpack d s) = None <-> accepted_signed_block d = true.
Proof. apply SignedBeaconBlock_err_of_None. Qed.

(** X3: the body documents that are accepted.  [unpack] returns no error
    exactly when the RANDAO reveal, the graffiti and every commitment are
    hex strings of 96, 32 and 48 bytes, the four containers and the
    commitments list are there, the five mandatory lists are there without
    a [nil] entry, and the optional list has no [nil] entry. *)
Theorem BlindedBeaconBlockBody_unpack_accepts (d : blindedBeaconBlockBodyJSON.t) (b : BlindedBeaconBlockBody.t) :
  err_of (BlindedBeaconBlockBody.unpack d b) = None <-> accepted_body d = true.
Proof. by rewrite err_of_None_fields, fields_valid_accepted. Qed.

End Acceptance.

(** A signature of three digits. *)
Lemma malformed_hex_is_invalid_value_witness :
  SignedBeaconBlock.unpack (@signedBeaconBlockJSON.mk Sample.objects (Some 7) "0xabc")
    Sample.zero_signed_block =
  (@SignedBeaconBlock.set_Message Sample.objects (Some 7) Sample.zero_signed_block,
   inl (errors_Wrap hex_ErrLength "invalid value for signature")).
Proof.
  pose proof (@malformed_hex_is_invalid_value Sample.objects) as (_ & _ & Hsignature & _).
  apply (Hsignature 7 "0xabc" Sample.zero_signed_block hex_ErrLength).
  - reflexivity.
  - reflexivity.
Defined.

(** ** What a successful call leaves in the receiver *)

Lemma copy_length (dst src : list byte) : length (copy dst src) = length dst.
Proof. unfold copy. rewrite length_app, length_take, length_drop. lia. Qed.

Lemma accepts_hex_Sprintf (bs : list byte) (n : nat) :
  length bs = n -> n <> 0 -> accepts_hex n (fmt.Sprintf_sharp_x bs) = true.
Proof.
  intros Hlen Hn. apply accepts_hex_spec; [done|]. split.
  - apply Sprintf_nonempty. destruct bs; [done|discriminate].
  - exists bs. by rewrite hex_bytes_Sprintf.
Qed.

Ltac body_projections :=
  cbn [BlindedBeaconBlockBody.RANDAOReveal BlindedBeaconBlockBody.ETH1Data
       BlindedBeaconBlockBody.Graffiti BlindedBeaconBlockBody.ProposerSlashings
       BlindedBeaconBlockBody.AttesterSlashings BlindedBeaconBlockBody.Attestations
       BlindedBeaconBlockBody.Deposits BlindedBeaconBlockBody.VoluntaryExits
       BlindedBeaconBlockBody.SyncAggregate BlindedBeaconBlockBody.ExecutionPayloadHeader
       BlindedBeaconBlockBody.BLSToExecutionChanges BlindedBeaconBlockBody.BlobKZGCommitments
       BlindedBeaconBlockBody.ExecutionRequests
       blindedBeaconBlockBodyJSON.RANDAOReveal blindedBeaconBlockBodyJSON.ETH1Data
       blindedBeaconBlockBodyJSON.Graffiti blindedBeaconBlockBodyJSON.ProposerSlashings
       blindedBeaconBlockBodyJSON.AttesterSlashings blindedBeaconBlockBodyJSON.Attestations
       blindedBeaconBlockBodyJSON.Deposits blindedBeaconBlockBodyJSON.VoluntaryExits
       blindedBeaconBlockBodyJSON.SyncAggregate blindedBeaconBlockBodyJSON.ExecutionPayloadHeader
       blindedBeaconBlockBodyJSON.BLSToExecutionChanges blindedBeaconBlockBodyJSON.BlobKZGCommitments
       blindedBeaconBlockBodyJSON.ExecutionRequests] in *.

Section Success.
Context `{SubObjects}.

Lemma accepts_hex_decoded (n : nat) (s : string) :
  n <> 0 -> accepts_hex n s = true ->
  String.eqb s EmptyString = false /\ hex_bytes s = inr (decoded s) /\ length (decoded s) = n.
Proof.
  intros Hn (Hs & bs & Hbs & Hlen)%accepts_hex_spec; [|done].
  unfold decoded. by rewrite Hbs.
Qed.

Lemma unpack_accepted (d : blindedBeaconBlockBodyJSON.t) (b : BlindedBeaconBlockBody.t) :
  accepted_body d = true -> body_arrays b ->
  BlindedBeaconBlockBody.unpack d b = (unpacked d, inr ()).
Proof.
  intros Hd [Hb1 Hb2]. pose proof Hd as Hfields%fields_valid_accepted.
  rewrite unpack_unpack_fields, unpack_fields_ok by done.
  unfold accepted_body in Hd. rewrite !andb_true_iff in Hd.
  destruct Hd as ((((((((((((Hr & _) & Hg) & _) & _) & _) & _) & _) & _) & _) & _) & _) & _).
  apply accepts_hex_decoded in Hr as (_ & _ & Hr); [|done].
  apply accepts_hex_decoded in Hg as (_ & _ & Hg); [|done].
  destruct b as [r' e' g' ps' ats' att' dp' ve' sa' eph' bls' kzg' er']. body_projections.
  unfold fields, unpacked. cbn [foldl]. cbn -[copy decoded].
  rewrite !copy_full by congruence. reflexivity.
Qed.

Lemma unpack_ok_accepted (d : blindedBeaconBlockBodyJSON.t) (b b' : BlindedBeaconBlockBody.t) :
  BlindedBeaconBlockBody.unpack d b = (b', inr ()) -> accepted_body d = true.
Proof.
  intros Hrun. apply fields_valid_accepted, (err_of_None_fields d b).
  unfold err_of. by rewrite Hrun.
Qed.

Lemma unpacked_well_formed (d : blindedBeaconBlockBodyJSON.t) :
  accepted_body d = true ->
  well_formed_body (unpacked d) /\
  no_nil_entry (BlindedBeaconBlockBody.BLSToExecutionChanges (unpacked d)) = true /\
  is_nil (BlindedBeaconBlockBody.BLSToExecutionChanges (unpacked d)) = false.
Proof.
  unfold accepted_body. rewrite !andb_true_iff, !negb_true_iff.
  intros ((((((((((((Hr & He) & Hg) & Hps) & Hats) & Hatt) & Hdp) & Hve) & Hsa) & Heph)
             & Hbls) & Hkzg) & Her).
  apply accepts_hex_decoded in Hr as (_ & _ & Hr); [|done].
  apply accepts_hex_decoded in Hg as (_ & _ & Hg); [|done].
  unfold well_formed_body, body_arrays, unpacked. body_projections.
  split_and!; try done.
  destruct (blindedBeaconBlockBodyJSON.BlobKZGCommitments d) as [l|]; [|done].
  cbn [elems arrays_of]. apply forallb_forall. intros k Hk%list_elem_of_In.
  apply list_elem_of_fmap in Hk as (x & -> & Hx%list_elem_of_In).
  rewrite forallb_forall in Hkzg.
  apply Nat.eqb_eq. by apply (accepts_hex_decoded deneb.KZGCommitmentLength x), Hkzg.
Qed.

(** X4: what a successful [unpack] establishes.  The signed block then
    has its message; the body has every mandatory pointer and list, no
    list holds a [nil] entry, the BLS-to-execution changes are not [nil],
    and every commitment has 48 bytes (the two arrays of the receiver
    keeping their lengths). *)
Theorem unpack_establishes_well_formed :
  (forall (d : signedBeaconBlockJSON.t) (s s' : SignedBeaconBlock.t),
     SignedBeaconBlock.unpack d s = (s', inr ()) -> signed_block_arrays s ->
     well_formed_signed_block s') /\
  (forall (d : blindedBeaconBlockBodyJSON.t) (b b' : BlindedBeaconBlockBody.t),
     BlindedBeaconBlockBody.unpack d b = (b', inr ()) -> body_arrays b ->
     well_formed_body b' /\
     no_nil_entry (BlindedBeaconBlockBody.BLSToExecutionChanges b') = true /\
     is_nil (BlindedBeaconBlockBody.BLSToExecutionChanges b') = false).
Proof.
  split.
  - intros [m sig] s s'. rewrite SignedBeaconBlock_unpack_eq.
    cbn [signedBeaconBlockJSON.Message signedBeaconBlockJSON.Signature].
    destruct m as [m|]; [|done]. cbv zeta.
    destruct (String.eqb sig EmptyString); [done|].
    destruct (hex_bytes sig) as [e|bs]; [done|].
    destruct (Nat.eqb_spec (length bs) phase0.SignatureLength) as [Hn|Hn]; [|done].
    intros [= <-] Hs. split; [|done]. unfold signed_block_arrays in *.
    cbn [SignedBeaconBlock.Signature]. by rewrite copy_length.
  - intros d b b' Hrun Hb. pose proof (unpack_ok_accepted d b b' Hrun) as Hd.
    rewrite (unpack_accepted d b Hd Hb) in Hrun. injection Hrun as <-.
    by apply unpacked_well_formed.
Qed.

(** X6: the receiver does not matter.  The error of [unpack] is the same
    whatever the receiver holds, and a successful [unpack] overwrites every
    field: two receivers end up equal. *)
Theorem unpack_ignores_receiver :
  (forall (d : signedBeaconBlockJSON.t) (s1 s2 : SignedBeaconBlock.t),
     err_of (SignedBeaconBlock.unpack d s1) = err_of (SignedBeaconBlock.unpack d s2)) /\
  (forall (d : signedBeaconBlockJSON.t) (s1 s2 s' : SignedBeaconBlock.t),
     signed_block_arrays s1 -> signed_block_arrays s2 ->
     SignedBeaconBlock.unpack d s1 = (s', inr ()) ->
     SignedBeaconBlock.unpack d s2 = (s', inr ())) /\
  (forall (d : blindedBeaconBlockBodyJSON.t) (b1 b2 : BlindedBeaconBlockBody.t),
     err_of (BlindedBeaconBlockBody.unpack d b1) =
     err_of (BlindedBeaconBlockBody.unpack d b2)) /\
  (forall (d : blindedBeaconBlockBodyJSON.t) (b1 b2 b' : BlindedBeaconBlockBody.t),
     body_arrays b1 -> body_arrays b2 ->
     BlindedBeaconBlockBody.unpack d b1 = (b', inr ()) ->
     BlindedBeaconBlockBody.unpack d b2 = (b', inr ())).
Proof.
  split_and!.
  - intros [m sig] s1 s2. rewrite !SignedBeaconBlock_unpack_eq.
    cbn [signedBeaconBlockJSON.Message signedBeaconBlockJSON.Signature].
    destruct m as [m|]; [|done]. cbv zeta.
    destruct (String.eqb sig EmptyString); [done|].
    destruct (hex_bytes sig) as [e|bs]; [done|].
    by destruct (Nat.eqb (length bs) phase0.SignatureLength).
  - intros [m sig] s1 s2 s' Hs1 Hs2. rewrite !SignedBeaconBlock_unpack_eq.
    cbn [signedBeaconBlockJSON.Message signedBeaconBlockJSON.Signature].
    destruct m as [m|]; [|done]. cbv zeta.
    destruct (String.eqb sig EmptyString); [done|].
    destruct (hex_bytes sig) as [e|bs]; [done|].
    destruct (Nat.eqb_spec (length bs) phase0.SignatureLength) as [Hn|Hn]; [|done].
    unfold signed_block_arrays in *. rewrite !copy_full by congruence. done.
  - intros d b1 b2. by rewrite !unpack_unpack_fields, !err_of_unpack_fields.
  - intros d b1 b2 b' Hb1 Hb2 Hrun.
    pose proof (unpack_ok_accepted d b1 b' Hrun) as Hd.
    rewrite (unpack_accepted d b1 Hd Hb1) in Hrun. injection Hrun as <-.
    by apply unpack_accepted.
Qed.

End Success.

(** The sample documents, unpacked into zeroed receivers. *)
Lemma unpack_establishes_well_formed_witness :
  well_formed_body Sample.body /\
  no_nil_entry (BlindedBeaconBlockBody.BLSToExecutionChanges Sample.body) = true /\
  is_nil (BlindedBeaconBlockBody.BLSToExecutionChanges Sample.body) = false.
Proof.
  apply (proj2 (@unpack_establishes_well_formed Sample.objects)
           Sample.body_json Sample.zero_body Sample.body).
  - vm_compute. reflexivity.
  - vm_compute. by split.
Defined.

(** The sample document, unpacked into the sample body instead of a zeroed
    receiver. *)
Lemma unpack_ignores_receiver_witness :
  BlindedBeaconBlockBody.unpack Sample.body_json_without_changes Sample.body =
  (BlindedBeaconBlockBody.set_BLSToExecutionChanges (Some []) Sample.body, inr ()).
Proof.
  pose proof (@unpack_ignores_receiver Sample.objects) as (_ & _ & _ & Hbody).
  apply (Hbody Sample.body_json_without_changes Sample.zero_body Sample.body).
  - vm_compute. by split.
  - vm_compute. by split.
  - vm_compute. reflexivity.
Defined.

(** ** Marshalling what was unpacked, and unpacking what was marshalled *)

Lemma Sprintf_decoded (n : nat) (s : string) :
  n <> 0 -> accepts_hex n s = true -> fmt.Sprintf_sharp_x (decoded s) = canonical_hex s.
Proof.
  intros Hn Hs. destruct (accepts_hex_decoded n s Hn Hs) as (_ & Hbs & Hlen).
  unfold canonical_hex, fmt.Sprintf_sharp_x.
  rewrite (EncodeToString_DecodeString _ _ Hbs).
  destruct (decoded s); [|done]. cbn in Hlen. lia.
Qed.

Lemma written_hex_Sprintf (bs : list byte) (n : nat) :
  length bs = n -> n <> 0 -> written_hex n (fmt.Sprintf_sharp_x bs) = true.
Proof.
  intros Hlen Hn. unfold written_hex, fmt.Sprintf_sharp_x.
  destruct bs as [|v bs]; [cbn in Hlen; lia|].
  change (strings.CutPrefix ("0x" +:+ hex.EncodeToString (v :: bs)) "0x")
    with (Some (hex.EncodeToString (v :: bs))).
  cbv beta iota. rewrite EncodeToString_lowercase, EncodeToString_length, Hlen. apply Nat.eqb_refl.
Qed.

Section Compose.
Context `{SubObjects} `{JSON signedBeaconBlockJSON.t} `{JSON blindedBeaconBlockBodyJSON.t}.

Lemma SignedBeaconBlock_unpack_well_formed (d : signedBeaconBlockJSON.t) (s s' : SignedBeaconBlock.t) :
  SignedBeaconBlock.unpack d s = (s', inr ()) -> signed_block_arrays s ->
  well_formed_signed_block s'.
Proof.
  destruct d as [m sig]. rewrite SignedBeaconBlock_unpack_eq.
  cbn [signedBeaconBlockJSON.Message signedBeaconBlockJSON.Signature].
  destruct m as [m|]; [|done]. cbv zeta.
  destruct (String.eqb sig EmptyString); [done|].
  destruct (hex_bytes sig) as [e|bs]; [done|].
  destruct (Nat.eqb_spec (length bs) phase0.SignatureLength) as [Hn|Hn]; [|done].
  intros [= <-] Hs. split; [|done]. unfold signed_block_arrays in *.
  cbn [SignedBeaconBlock.Signature]. by rewrite copy_length.
Qed.

Lemma BlindedBeaconBlockBody_unpack_well_formed (d : blindedBeaconBlockBodyJSON.t) (b b' : BlindedBeaconBlockBody.t) :
  BlindedBeaconBlockBody.unpack d b = (b', inr ()) -> body_arrays b ->
  well_formed_body b' /\
  no_nil_entry (BlindedBeaconBlockBody.BLSToExecutionChanges b') = true /\
  is_nil (BlindedBeaconBlockBody.BLSToExecutionChanges b') = false.
Proof.
  intros Hrun Hb. pose proof (unpack_ok_accepted d b b' Hrun) as Hd.
  rewrite (unpack_accepted d b Hd Hb) in Hrun. injection Hrun as <-.
  by apply unpacked_well_formed.
Qed.

Lemma MarshalJSON_unpacked (d : blindedBeaconBlockBodyJSON.t) :
  accepted_body d = true ->
  BlindedBeaconBlockBody.MarshalJSON (unpacked d) = json_Marshal (canonical_body d).
Proof.
  unfold accepted_body. rewrite !andb_true_iff.
  intros ((((((((((((Hr & _) & Hg) & _) & _) & _) & _) & _) & _) & _) & _) & Hkzg) & _).
  unfold BlindedBeaconBlockBody.MarshalJSON, unpacked, canonical_body. body_projections.
  cbv zeta. rewrite (Sprintf_decoded phase0.SignatureLength _ ltac:(done) Hr),
    (Sprintf_decoded phase0.GraffitiLength _ ltac:(done) Hg).
  do 3 f_equal.
  destruct (blindedBeaconBlockBodyJSON.BlobKZGCommitments d) as [l|]; [|done].
  cbn [elems]. rewrite forallb_forall in Hkzg.
  induction l as [|x l IH]; [done|]. cbn [fmap list_fmap map].
  unfold deneb.KZGCommitment_String at 1.
  rewrite (Sprintf_decoded deneb.KZGCommitmentLength x) by (done || apply Hkzg; by left).
  f_equal. apply IH. intros y Hy. apply Hkzg. by right.
Qed.

(** X7: marshalling what was unpacked writes the document back in its
    canonical form: every hex string with its [0x] and in lowercase, the
    BLS-to-execution changes as a list even where the document had none,
    every other field as it was. *)
Theorem MarshalJSON_after_unpack :
  (forall (d : signedBeaconBlockJSON.t) (s s' : SignedBeaconBlock.t),
     SignedBeaconBlock.unpack d s = (s', inr ()) -> signed_block_arrays s ->
     SignedBeaconBlock.MarshalJSON s' = json_Marshal (canonical_signed_block d)) /\
  (forall (d : blindedBeaconBlockBodyJSON.t) (b b' : BlindedBeaconBlockBody.t),
     BlindedBeaconBlockBody.unpack d b = (b', inr ()) -> body_arrays b ->
     BlindedBeaconBlockBody.MarshalJSON b' = json_Marshal (canonical_body d)).
Proof.
  split.
  - intros d s s' Hrun Hs.
    assert (accepted_signed_block d = true) as Hd.
    { apply (SignedBeaconBlock_err_of_None d s). unfold err_of. by rewrite Hrun. }
    revert Hrun. rewrite SignedBeaconBlock_unpack_eq.
    unfold accepted_signed_block in Hd. destruct d as [m sig].
    cbn [signedBeaconBlockJSON.Message signedBeaconBlockJSON.Signature] in *.
    apply andb_prop in Hd as [Hm Hsig].
    pose proof (Sprintf_decoded phase0.SignatureLength _ ltac:(done) Hsig) as Hcanon.
    destruct (accepts_hex_decoded phase0.SignatureLength _ ltac:(done) Hsig) as (Hne & Hbs & Hlen).
    destruct m as [m|]; [|done]. cbv zeta. rewrite Hne, Hbs, Hlen, Nat.eqb_refl.
    intros [= <-]. unfold SignedBeaconBlock.MarshalJSON, canonical_signed_block.
    cbn [SignedBeaconBlock.Message SignedBeaconBlock.Signature
         signedBeaconBlockJSON.Message signedBeaconBlockJSON.Signature].
    rewrite copy_full by (by rewrite Hs). by rewrite Hcanon.
  - intros d b b' Hrun Hb. pose proof (unpack_ok_accepted d b b' Hrun) as Hd.
    rewrite (unpack_accepted d b Hd Hb) in Hrun. injection Hrun as <-.
    by apply MarshalJSON_unpacked.
Qed.

(** X5: decoding is idempotent through the codec.  With a JSON library
    that reads back the struct it wrote, an object that [unpack] produced
    is marshalled and unmarshalled to itself, into any receiver. *)
Theorem unpacked_roundtrip :
  json_faithful signedBeaconBlockJSON.t ->
  json_faithful blindedBeaconBlockBodyJSON.t ->
  (forall (d : signedBeaconBlockJSON.t) (s s' s2 : SignedBeaconBlock.t) (bs : list byte),
     SignedBeaconBlock.unpack d s = (s', inr ()) ->
     signed_block_arrays s -> signed_block_arrays s2 ->
     SignedBeaconBlock.MarshalJSON s' = inr bs ->
     SignedBeaconBlock.UnmarshalJSON bs s2 = (s', inr ())) /\
  (forall (d : blindedBeaconBlockBodyJSON.t) (b b' b2 : BlindedBeaconBlockBody.t) (bs : list byte),
     BlindedBeaconBlockBody.unpack d b = (b', inr ()) ->
     body_arrays b -> body_arrays b2 ->
     BlindedBeaconBlockBody.MarshalJSON b' = inr bs ->
     BlindedBeaconBlockBody.UnmarshalJSON bs b2 = (b', inr ())).
Proof.
  intros Hsigned Hbody. split.
  - intros d s s' s2 bs Hrun Hs Hs2 Hbs.
    apply (SignedBeaconBlock_roundtrip s' s2 bs Hsigned); [|done..].
    by apply (SignedBeaconBlock_unpack_well_formed d s).
  - intros d b b' b2 bs Hrun Hb Hb2 Hbs.
    destruct (BlindedBeaconBlockBody_unpack_well_formed d b b' Hrun Hb) as (Hwf & Hnil & Hsome).
    rewrite (BlindedBeaconBlockBody_roundtrip b' b2 bs Hbody Hwf Hnil Hb2 Hbs).
    destruct b' as [r e g ps ats att dp ve sa eph [bls|] kzg er]; [reflexivity|discriminate].
Qed.


Lemma accepted_body_marshalled (o : BlindedBeaconBlockBody.t) :
  body_arrays_all o ->
  accepted_body
    (blindedBeaconBlockBodyJSON.mk
       (fmt.Sprintf_sharp_x (BlindedBeaconBlockBody.RANDAOReveal o))
       (BlindedBeaconBlockBody.ETH1Data o)
       (fmt.Sprintf_sharp_x (BlindedBeaconBlockBody.Graffiti o))
       (BlindedBeaconBlockBody.ProposerSlashings o)
       (BlindedBeaconBlockBody.AttesterSlashings o)
       (BlindedBeaconBlockBody.Attestations o)
       (BlindedBeaconBlockBody.Deposits o)
       (BlindedBeaconBlockBody.VoluntaryExits o)
       (BlindedBeaconBlockBody.SyncAggregate o)
       (BlindedBeaconBlockBody.ExecutionPayloadHeader o)
       (BlindedBeaconBlockBody.BLSToExecutionChanges o)
       (Some (map deneb.KZGCommitment_String
                (elems (BlindedBeaconBlockBody.BlobKZGCommitments o))))
       (BlindedBeaconBlockBody.ExecutionRequests o)) = reads_back o.
Proof.
  intros [[Hr Hg] Hk]. unfold accepted_body, reads_back. body_projections.
  rewrite (accepts_hex_Sprintf _ _ Hr), (accepts_hex_Sprintf _ _ Hg) by done.
  assert (forallb (accepts_hex deneb.KZGCommitmentLength)
            (map deneb.KZGCommitment_String
               (elems (BlindedBeaconBlockBody.BlobKZGCommitments o))) = true) as ->.
  { apply forallb_forall. intros x (k & <- & Hin)%in_map_iff.
    apply accepts_hex_Sprintf; [|done].
    by apply (proj1 (Forall_forall _ _) Hk), list_elem_of_In. }
  cbn [andb]. by rewrite !andb_true_r.
Qed.

(** X9: the bodies that survive the round trip.  With a JSON library that
    reads back the struct it wrote, and arrays of the lengths of their
    types, unmarshalling the JSON of a body succeeds exactly when its
    mandatory pointers and lists are there and no list holds a [nil]
    entry; the body then comes back with [nil] turned into the empty slice
    in its BLS-to-execution changes and in its commitments, which need not
    be there.  A signed block comes back exactly when it has its
    message. *)
Theorem roundtrip_succeeds_iff :
  json_faithful signedBeaconBlockJSON.t ->
  json_faithful blindedBeaconBlockBodyJSON.t ->
  (forall (o s : SignedBeaconBlock.t) (bs : list byte),
     signed_block_arrays o -> SignedBeaconBlock.MarshalJSON o = inr bs ->
     (err_of (SignedBeaconBlock.UnmarshalJSON bs s) = None <->
      is_nil (SignedBeaconBlock.Message o) = false)) /\
  (forall (o b : BlindedBeaconBlockBody.t) (bs : list byte),
     body_arrays_all o -> body_arrays b ->
     BlindedBeaconBlockBody.MarshalJSON o = inr bs ->
     (err_of (BlindedBeaconBlockBody.UnmarshalJSON bs b) = None <-> reads_back o = true) /\
     (reads_back o = true ->
      BlindedBeaconBlockBody.UnmarshalJSON bs b =
      (BlindedBeaconBlockBody.set_BlobKZGCommitments
         (Some (elems (BlindedBeaconBlockBody.BlobKZGCommitments o)))
         (BlindedBeaconBlockBody.set_BLSToExecutionChanges
            (Some (elems (BlindedBeaconBlockBody.BLSToExecutionChanges o))) o),
       inr ()))).
Proof.
  intros Hsigned Hbody. split.
  - intros o s bs Ho Hbs. apply Hsigned in Hbs.
    unfold SignedBeaconBlock.UnmarshalJSON. run_step. rewrite Hbs. run_step.
    rewrite SignedBeaconBlock_err_of_None. unfold accepted_signed_block.
    cbn [signedBeaconBlockJSON.Message signedBeaconBlockJSON.Signature].
    rewrite (accepts_hex_Sprintf _ _ Ho) by done.
    rewrite andb_true_r. apply negb_true_iff.
  - intros o b bs Ho Hb Hbs. apply Hbody in Hbs.
    unfold BlindedBeaconBlockBody.UnmarshalJSON. run_step. rewrite Hbs. run_step.
    split.
    + by rewrite err_of_None_fields, fields_valid_accepted, accepted_body_marshalled.
    + intros Hreads. rewrite unpack_accepted; [|by rewrite accepted_body_marshalled|done].
      unfold unpacked. body_projections. rewrite !decoded_Sprintf. f_equal.
      destruct Ho as [_ Hk]. destruct o as [r e g ps ats att dp ve sa eph bls kzg er].
      body_projections.
      unfold BlindedBeaconBlockBody.set_BlobKZGCommitments,
        BlindedBeaconBlockBody.set_BLSToExecutionChanges. body_projections.
      do 2 f_equal. cbn [elems]. clear Hbs Hreads. induction Hk as [|k l Hlen Hk IH]; [done|].
      cbn [map fmap list_fmap]. unfold deneb.KZGCommitment_String at 1.
      by rewrite decoded_Sprintf, IH.
Qed.

End Compose.

(** X10: what [MarshalJSON] writes for a hex field: whatever the JSON
    library, the struct it is given has [0x] and 192 lowercase digits for
    a signature or a RANDAO reveal, 64 for the graffiti, and 96 for each
    commitment, one string per commitment. *)
Theorem MarshalJSON_writes_lowercase_hex `{SubObjects} :
  (forall o : SignedBeaconBlock.t,
     signed_block_arrays o ->
     exists w : signedBeaconBlockJSON.t,
       (forall J : JSON signedBeaconBlockJSON.t,
          @SignedBeaconBlock.MarshalJSON _ J o = @json_Marshal _ J w) /\
       written_hex phase0.SignatureLength (signedBeaconBlockJSON.Signature w) = true) /\
  (forall o : BlindedBeaconBlockBody.t,
     body_arrays_all o ->
     exists (w : blindedBeaconBlockBodyJSON.t) (l : list string),
       (forall J : JSON blindedBeaconBlockBodyJSON.t,
          @BlindedBeaconBlockBody.MarshalJSON _ J o = @json_Marshal _ J w) /\
       written_hex phase0.SignatureLength (blindedBeaconBlockBodyJSON.RANDAOReveal w) = true /\
       written_hex phase0.GraffitiLength (blindedBeaconBlockBodyJSON.Graffiti w) = true /\
       blindedBeaconBlockBodyJSON.BlobKZGCommitments w = Some l /\
       length l = length (elems (BlindedBeaconBlockBody.BlobKZGCommitments o)) /\
       forallb (written_hex deneb.KZGCommitmentLength) l = true).
Proof.
  split.
  - intros o Ho. eexists. split; [intros J; reflexivity|].
    cbn [signedBeaconBlockJSON.Signature]. by apply written_hex_Sprintf.
  - intros o [[Hr Hg] Hk]. do 2 eexists. split; [intros J; reflexivity|].
    body_projections. split_and!; [by apply written_hex_Sprintf..|reflexivity| |].
    + by rewrite length_map.
    + apply forallb_forall. intros x (k & <- & Hin)%in_map_iff.
      apply written_hex_Sprintf; [|done].
      by apply (proj1 (Forall_forall _ _) Hk), list_elem_of_In.
Qed.

(** The sample signed block, unpacked from uppercase digits. *)
Lemma MarshalJSON_after_unpack_witness :
  @SignedBeaconBlock.MarshalJSON _ Sample.signed_block_JSON Sample.signed_block =
  @json_Marshal _ Sample.signed_block_JSON
    (canonical_signed_block Sample.signed_block_json_uppercase_digits).
Proof.
  apply (proj1 (@MarshalJSON_after_unpack Sample.objects Sample.signed_block_JSON
                  Sample.body_JSON)
           Sample.signed_block_json_uppercase_digits Sample.zero_signed_block).
  - vm_compute. reflexivity.
  - vm_compute. reflexivity.
Defined.

(** The sample body, unpacked from its document, then marshalled and
    unmarshalled into itself. *)
Lemma unpacked_roundtrip_witness :
  @BlindedBeaconBlockBody.UnmarshalJSON Sample.objects Sample.body_JSON [] Sample.body =
  (Sample.body, inr ()).
Proof.
  refine (proj2 (@unpacked_roundtrip Sample.objects Sample.signed_block_JSON
                   Sample.body_JSON _ _)
            Sample.body_json Sample.zero_body Sample.body Sample.body [] _ _ _ _).
  - apply one_document_faithful.
  - apply one_document_faithful.
  - vm_compute. reflexivity.
  - vm_compute. by split.
  - vm_compute. by split.
  - vm_compute. reflexivity.
Defined.

(** The sample body without its changes, marshalled and unmarshalled. *)
Lemma roundtrip_succeeds_iff_witness :
  @BlindedBeaconBlockBody.UnmarshalJSON Sample.objects Sample.body_JSON_without_changes []
    Sample.zero_body =
  (BlindedBeaconBlockBody.set_BlobKZGCommitments
     (Some (elems (BlindedBeaconBlockBody.BlobKZGCommitments Sample.body_without_changes)))
     (BlindedBeaconBlockBody.set_BLSToExecutionChanges
        (Some (elems (BlindedBeaconBlockBody.BLSToExecutionChanges
                        Sample.body_without_changes)))
        Sample.body_without_changes),
   inr ()).
Proof.
  refine (proj2 (proj2 (@roundtrip_succeeds_iff Sample.objects Sample.signed_block_JSON
                          Sample.body_JSON_without_changes _ _)
            Sample.body_without_changes Sample.zero_body [] _ _ _) _).
  - apply one_document_faithful.
  - apply one_document_faithful.
  - split; [by split|]. vm_compute. by repeat constructor.
  - vm_compute. by split.
  - vm_compute. reflexivity.
  - vm_compute. reflexivity.
Defined.

(** The sample body. *)
Lemma MarshalJSON_writes_lowercase_hex_witness :
  exists (w : blindedBeaconBlockBodyJSON.t) (l : list string),
    (forall J : JSON blindedBeaconBlockBodyJSON.t,
       @BlindedBeaconBlockBody.MarshalJSON Sample.objects J Sample.body =
       @json_Marshal _ J w) /\
    written_hex phase0.SignatureLength (blindedBeaconBlockBodyJSON.RANDAOReveal w) = true /\
    written_hex phase0.GraffitiLength (blindedBeaconBlockBodyJSON.Graffiti w) = true /\
    blindedBeaconBlockBodyJSON.BlobKZGCommitments w = Some l /\
    length l = length (elems (BlindedBeaconBlockBody.BlobKZGCommitments Sample.body)) /\
    forallb (written_hex deneb.KZGCommitmentLength) l = true.
Proof.
  apply (proj2 (@MarshalJSON_writes_lowercase_hex Sample.objects) Sample.body).
  split; [by split|]. vm_compute. by repeat constructor.
Defined.

(** ** The error tells the field *)

Lemma hex_field_error_form (s : string) (n : nat) (missing invalid wrong_length : string) (e : error) :
  hex_field_error s n missing invalid wrong_length = Some e ->
  hex_error_form missing invalid wrong_length e.
Proof.
  unfold hex_field_error, hex_value_error, hex_error_form.
  destruct (String.eqb s EmptyString); [intros [= <-]; by left|].
  destruct (hex_bytes s) as [c|bs]; [intros [= <-]; right; left; by eexists|].
  destruct (Nat.eqb (length bs) n); [done|]. intros [= <-]. by right; right.
Qed.

Lemma entries_error_form {A} (l : list (option A)) (what : string) (e : error) :
  entries_error l what = Some e -> list_error_form what e.
Proof.
  unfold entries_error, list_error_form. destruct (find_index is_nil l) as [i|]; [|done].
  intros [= <-]. right. by eexists.
Qed.

Lemma sequence_field_error_form {A} (sl : option (list (option A))) (what : string) (e : error) :
  sequence_field_error sl what = Some e -> list_error_form what e.
Proof.
  destruct sl as [l|]; cbn [sequence_field_error].
  - apply entries_error_form.
  - intros [= <-]. by left.
Qed.

Lemma optional_sequence_field_error_form {A} (sl : option (list (option A))) (what : string) (e : error) :
  optional_sequence_field_error sl what = Some e -> list_error_form what e.
Proof.
  destruct sl as [l|]; cbn [optional_sequence_field_error]; [|done]. apply entries_error_form.
Qed.

Lemma pointer_field_error_form {A} (p : option A) (what : string) (e : error) :
  pointer_field_error p what = Some e -> e = errors_New (what +:+ " missing").
Proof. unfold pointer_field_error. destruct (is_nil p); [|done]. by intros [= <-]. Qed.

Lemma first_error_Some {A} (check : A -> option error) (l : list A) (e : error) :
  first_error (check <$> l) = Some e -> exists x, check x = Some e.
Proof.
  induction l as [|x l IH]; [done|]. cbn [fmap list_fmap first_error].
  destruct (check x) eqn:Hx; [intros [= <-]; by exists x|]. exact IH.
Qed.

Lemma commitments_field_error_form (sl : option (list string)) (e : error) :
  commitments_field_error sl = Some e ->
  list_error_form "blob KZG commitments" e \/
  (exists c, e = errors_Wrap c "failed to parse blob KZG commitment") \/
  e = errors_New "incorrect length for blob KZG commitment".
Proof.
  destruct sl as [l|]; cbn [commitments_field_error]; [|intros [= <-]; left; by left].
  destruct (find_index _ l) as [i|]; [intros [= <-]; left; right; by eexists|].
  intros (x & Hx)%first_error_Some. right.
  unfold commitment_error, hex_value_error in Hx.
  destruct (hex_bytes x) as [c|bs]; [injection Hx as <-; left; by eexists|].
  destruct (Nat.eqb (length bs) deneb.KZGCommitmentLength); [done|].
  injection Hx as <-. by right.
Qed.

Lemma field_error_form `{SubObjects} (f : field) (d : blindedBeaconBlockBodyJSON.t) (e : error) :
  field_error f d = Some e -> error_form f e.
Proof.
  destruct f; cbn [field_error error_form]; intros He;
    first [ exact (hex_field_error_form _ _ _ _ _ _ He)
          | exact (sequence_field_error_form _ _ _ He)
          | exact (optional_sequence_field_error_form _ _ _ He)
          | exact (pointer_field_error_form _ _ _ He)
          | exact (commitments_field_error_form _ _ He) ].
Qed.

Ltac split_forms :=
  repeat match goal with
         | H : hex_error_form _ _ _ _ |- _ => destruct H as [H|[[? H]|H]]
         | H : list_error_form _ _ |- _ => destruct H as [H|[? H]]
         | H : _ \/ _ |- _ => destruct H as [H|H]
         | H : exists _, _ |- _ => destruct H as [? H]
         end.

Lemma error_form_inj (f g : field) (e : error) : error_form f e -> error_form g e -> f = g.
Proof.
  destruct f, g; try reflexivity; cbn [error_form]; intros Hf Hg; exfalso;
    split_forms; subst e; cbv [String.append] in Hg; discriminate Hg.
Qed.

Section Identify.
Context `{SubObjects}.

(** X8: the error tells the field.  Every error of [unpack] is one of the
    errors listed for its first failing field, no error is listed for two
    fields, and so two calls that fail with the same error fail at the same
    field. *)
Theorem error_identifies_field :
  (forall (d : blindedBeaconBlockBodyJSON.t) (b b' : BlindedBeaconBlockBody.t) (e : error),
     BlindedBeaconBlockBody.unpack d b = (b', inl e) ->
     exists f, field_error f d = Some e /\ error_form f e) /\
  (forall (f g : field) (e : error), error_form f e -> error_form g e -> f = g) /\
  (forall (d1 d2 : blindedBeaconBlockBodyJSON.t) (b1 b2 b1' b2' : BlindedBeaconBlockBody.t)
          (e : error),
     BlindedBeaconBlockBody.unpack d1 b1 = (b1', inl e) ->
     BlindedBeaconBlockBody.unpack d2 b2 = (b2', inl e) ->
     exists f, field_error f d1 = Some e /\ field_error f d2 = Some e /\
       Forall (fun g => field_error g d1 = None) (fields_before f) /\
       Forall (fun g => field_error g d2 = None) (fields_before f)).
Proof.
  split_and!.
  - intros d b b' e (f & He & _)%unpack_failed. exists f. eauto using field_error_form.
  - apply error_form_inj.
  - intros d1 d2 b1 b2 b1' b2' e (f & Hf & Hbf & _)%unpack_failed
      (g & Hg & Hbg & _)%unpack_failed.
    assert (f = g) as <- by eauto using error_form_inj, field_error_form.
    exists f. split_and!; [done..| |].
    + eapply Forall_impl; [exact Hbf|]. by intros ? [? _].
    + eapply Forall_impl; [exact Hbg|]. by intros ? [? _].
Qed.

(** The receiver when field [f] is the first to fail. *)
Lemma unpack_fields_first_failure (fs : list field) (d : blindedBeaconBlockBodyJSON.t) (f : field) (e : error) :
  f ∈ fs -> field_error f d = Some e ->
  Forall (fun g => field_error g d = None) (fields_before_in fs f) ->
  forall b, unpack_fields fs d b =
    (write_failed f d (foldl (fun b g => write g d b) b (fields_before_in fs f)), inl e).
Proof.
  induction fs as [|g fs IH]; intros Hin He Hbefore b; [by apply elem_of_nil in Hin|].
  cbn [unpack_fields fields_before_in] in *.
  destruct (decide (g = f)) as [->|Hne].
  - by rewrite He.
  - apply Forall_cons in Hbefore as [Hg Hbefore]. rewrite Hg. cbn [foldl].
    apply elem_of_cons in Hin as [->|Hin]; [done|]. by apply IH.
Qed.

Lemma commitments_so_far_length (l : list string) :
  length (commitments_so_far l) = length l.
Proof.
  induction l as [|x l IH]; [done|]. cbn [commitments_so_far].
  destruct (commitment_error x); cbn [length]; [by rewrite length_replicate|by rewrite IH].
Qed.

Lemma commitments_so_far_lookup (l : list string) (i : nat) (x : string) (e : error) :
  l !! i = Some x -> commitment_error x = Some e ->
  (forall j y, j < i -> l !! j = Some y -> commitment_error y = None) ->
  commitments_so_far l =
  (decoded <$> take i l) ++ replicate (length l - i) zero_KZGCommitment.
Proof.
  revert i. induction l as [|y l IH]; intros i Hi He Hbefore; [done|].
  cbn [commitments_so_far]. destruct i as [|i].
  - injection Hi as ->. rewrite He. by rewrite Nat.sub_0_r.
  - rewrite (Hbefore 0 y) by (done || lia). cbn [take fmap list_fmap app length Nat.sub].
    f_equal. apply (IH i); [done..|].
    intros j z Hj Hz. apply (Hbefore (Datatypes.S j) z); [lia|done].
Qed.

(** X11: what a failure among the commitments leaves.  When the
    commitments are the first field to fail, an empty entry or a [nil]
    list leaves the commitments of the receiver as they were; an entry
    that does not decode to 48 bytes, at index [i], leaves a new array of
    as many commitments as the document has entries, the first [i] of them
    decoded and the others zeroed. *)
Theorem commitments_after_failure :
  (forall (d : blindedBeaconBlockBodyJSON.t) (b : BlindedBeaconBlockBody.t)
          (l : list string) (i : nat) (x : string) (e : error),
     blindedBeaconBlockBodyJSON.BlobKZGCommitments d = Some l ->
     (forall y, y ∈ l -> String.eqb y EmptyString = false) ->
     l !! i = Some x -> commitment_error x = Some e ->
     (forall j y, j < i -> l !! j = Some y -> commitment_error y = None) ->
     Forall (fun g => field_error g d = None) (fields_before blob_kzg_commitments) ->
     exists b' : BlindedBeaconBlockBody.t,
       BlindedBeaconBlockBody.unpack d b = (b', inl e) /\
       BlindedBeaconBlockBody.BlobKZGCommitments b' =
       Some ((decoded <$> take i l) ++ replicate (length l - i) zero_KZGCommitment)) /\
  (forall (d : blindedBeaconBlockBodyJSON.t) (b : BlindedBeaconBlockBody.t) (e : error),
     field_error blob_kzg_commitments d = Some e ->
     find_index (fun x => String.eqb x EmptyString)
       (elems (blindedBeaconBlockBodyJSON.BlobKZGCommitments d)) <> None \/
     blindedBeaconBlockBodyJSON.BlobKZGCommitments d = None ->
     Forall (fun g => field_error g d = None) (fields_before blob_kzg_commitments) ->
     exists b' : BlindedBeaconBlockBody.t,
       BlindedBeaconBlockBody.unpack d b = (b', inl e) /\
       BlindedBeaconBlockBody.BlobKZGCommitments b' =
       BlindedBeaconBlockBody.BlobKZGCommitments b).
Proof.
  split.
  - intros d b l i x e Hl Hempty Hi He Hentries Hbefore.
    assert (field_error blob_kzg_commitments d = Some e) as Hfield.
    { cbn [field_error]. rewrite Hl. unfold commitments_field_error.
      rewrite find_index_none by done. by eapply first_error_lookup. }
    eexists. rewrite unpack_unpack_fields.
    rewrite (unpack_fields_first_failure fields d blob_kzg_commitments e);
      [|apply elem_of_fields|done..].
    split; [reflexivity|]. cbn [write_failed]. rewrite Hl, find_index_none by done.
    cbn [BlindedBeaconBlockBody.set_BlobKZGCommitments BlindedBeaconBlockBody.BlobKZGCommitments].
    f_equal. by eapply commitments_so_far_lookup.
  - intros d b e Hfield Hcase Hbefore.
    eexists. rewrite unpack_unpack_fields.
    rewrite (unpack_fields_first_failure fields d blob_kzg_commitments e);
      [|apply elem_of_fields|done..].
    split; [reflexivity|].
    assert (forall b0 : BlindedBeaconBlockBody.t,
              write_failed blob_kzg_commitments d b0 = b0) as ->.
    { intros b0. cbn [write_failed].
      destruct (blindedBeaconBlockBodyJSON.BlobKZGCommitments d) as [l|]; [|done].
      cbn [elems] in Hcase. destruct (find_index _ l); [done|]. by destruct Hcase. }
    by destruct b.
Qed.

End Identify.

(** Two sample documents that fail for a [nil] deposit. *)
Lemma error_identifies_field_witness :
  exists f,
    @field_error Sample.objects f Sample.body_json_null_deposit =
      Some (fmt_Errorf "deposits entry 0 missing") /\
    error_form f (fmt_Errorf "deposits entry 0 missing").
Proof.
  apply (proj1 (@error_identifies_field Sample.objects) Sample.body_json_null_deposit
           Sample.zero_body
           (BlindedBeaconBlockBody.unpack Sample.body_json_null_deposit Sample.zero_body).1).
  vm_compute. reflexivity.
Defined.

(** The sample document with a second commitment of 47 bytes. *)
Lemma commitments_after_failure_witness :
  exists b' : BlindedBeaconBlockBody.t,
    BlindedBeaconBlockBody.unpack Sample.body_json_short_commitment Sample.zero_body =
      (b', inl (errors_New "incorrect length for blob KZG commitment")) /\
    BlindedBeaconBlockBody.BlobKZGCommitments b' =
      Some ((decoded <$> take 1 ["0x" +:+ Sample.commitment_hex;
                                  "0x" +:+ hex.EncodeToString (replicate 47 Byte.xc0)]) ++
            replicate (2 - 1) zero_KZGCommitment).
Proof.
  apply (proj1 (@commitments_after_failure Sample.objects) Sample.body_json_short_commitment
           Sample.zero_body
           ["0x" +:+ Sample.commitment_hex; "0x" +:+ hex.EncodeToString (replicate 47 Byte.xc0)]
           1 ("0x" +:+ hex.EncodeToString (replicate 47 Byte.xc0))).
  - reflexivity.
  - intros y Hy. apply list_elem_of_In in Hy.
    destruct Hy as [<-|[<-|[]]]; vm_compute; reflexivity.
  - reflexivity.
  - vm_compute. reflexivity.
  - intros [|j] y Hj Hy; [|lia]. injection Hy as <-. vm_compute. reflexivity.
  - sample_fields_valid.
Defined.

(** ** Kinds of errors, and two edges of the signature *)

Lemma error_form_not_invalid_JSON (f : field) (c : error) :
  ~ error_form f (errors_Wrap c "invalid JSON").
Proof. destruct f; cbn [error_form]; intros Hf; split_forms; discriminate Hf. Qed.

Section Kinds.
Context `{SubObjects} `{JSON signedBeaconBlockJSON.t} `{JSON blindedBeaconBlockBodyJSON.t}.

(** X12: failures of [json.Unmarshal] and failures of [unpack].  A failed
    [UnmarshalJSON] either reports the error of [json.Unmarshal], wrapped
    as [invalid JSON], with the receiver untouched, or it reports the
    error of [unpack] on the parsed struct.  No error of [unpack] is
    wrapped as [invalid JSON]: an error so wrapped is the error of
    [json.Unmarshal], whatever made the library fail (the codec of a
    nested container included), and the receiver is then as it was. *)
Theorem UnmarshalJSON_error_kinds :
  (forall (input : list byte) (b b' : BlindedBeaconBlockBody.t) (e : error),
     BlindedBeaconBlockBody.UnmarshalJSON input b = (b', inl e) ->
     (exists c, json_Unmarshal (W := blindedBeaconBlockBodyJSON.t) input = inl c /\
        e = errors_Wrap c "invalid JSON" /\ b' = b) \/
     (exists d f, json_Unmarshal input = inr d /\
        BlindedBeaconBlockBody.unpack d b = (b', inl e) /\ error_form f e)) /\
  (forall (f : field) (c : error), ~ error_form f (errors_Wrap c "invalid JSON")) /\
  (forall (input : list byte) (s s' : SignedBeaconBlock.t) (e : error),
     SignedBeaconBlock.UnmarshalJSON input s = (s', inl e) ->
     (exists c, json_Unmarshal (W := signedBeaconBlockJSON.t) input = inl c /\
        e = errors_Wrap c "invalid JSON" /\ s' = s) \/
     (exists d, json_Unmarshal input = inr d /\
        SignedBeaconBlock.unpack d s = (s', inl e) /\
        (e = errors_New "message missing" \/ e = errors_New "signature missing" \/
         (exists c, e = errors_Wrap c "invalid value for signature") \/
         exists n : nat,
           e = fmt_Errorf ("incorrect length " +:+ fmt.Sprintf_d n +:+ " for signature")))) /\
  (forall (input : list byte) (b b' : BlindedBeaconBlockBody.t) (c : error),
     BlindedBeaconBlockBody.UnmarshalJSON input b = (b', inl (errors_Wrap c "invalid JSON")) ->
     json_Unmarshal (W := blindedBeaconBlockBodyJSON.t) input = inl c /\ b' = b) /\
  (forall (input : list byte) (s s' : SignedBeaconBlock.t) (c : error),
     SignedBeaconBlock.UnmarshalJSON input s = (s', inl (errors_Wrap c "invalid JSON")) ->
     json_Unmarshal (W := signedBeaconBlockJSON.t) input = inl c /\ s' = s).
Proof.
  assert (forall (input : list byte) (b b' : BlindedBeaconBlockBody.t) (e : error),
     BlindedBeaconBlockBody.UnmarshalJSON input b = (b', inl e) ->
     (exists c, json_Unmarshal (W := blindedBeaconBlockBodyJSON.t) input = inl c /\
        e = errors_Wrap c "invalid JSON" /\ b' = b) \/
     (exists d f, json_Unmarshal input = inr d /\
        BlindedBeaconBlockBody.unpack d b = (b', inl e) /\ error_form f e)) as Hbody.
  { intros input b b' e. unfold BlindedBeaconBlockBody.UnmarshalJSON. run_step.
    destruct (json_Unmarshal input) as [c|d]; run_step.
    - intros [= <- <-]. left. by exists c.
    - intros Hrun. right. pose proof Hrun as (f & He & _)%unpack_failed.
      exists d, f. eauto using field_error_form. }
  assert (forall (input : list byte) (s s' : SignedBeaconBlock.t) (e : error),
     SignedBeaconBlock.UnmarshalJSON input s = (s', inl e) ->
     (exists c, json_Unmarshal (W := signedBeaconBlockJSON.t) input = inl c /\
        e = errors_Wrap c "invalid JSON" /\ s' = s) \/
     (exists d, json_Unmarshal input = inr d /\
        SignedBeaconBlock.unpack d s = (s', inl e) /\
        (e = errors_New "message missing" \/ e = errors_New "signature missing" \/
         (exists c, e = errors_Wrap c "invalid value for signature") \/
         exists n : nat,
           e = fmt_Errorf ("incorrect length " +:+ fmt.Sprintf_d n +:+ " for signature"))))
    as Hsigned.
  { intros input s s' e. unfold SignedBeaconBlock.UnmarshalJSON. run_step.
    destruct (json_Unmarshal input) as [c|d]; run_step.
    - intros [= <- <-]. left. by exists c.
    - intros Hrun. right. exists d. split_and!; [done..|].
      revert Hrun. rewrite SignedBeaconBlock_unpack_eq.
      destruct (signedBeaconBlockJSON.Message d); [|intros [= _ <-]; by left]. cbv zeta.
      destruct (String.eqb _ EmptyString); [intros [= _ <-]; by right; left|].
      destruct (hex_bytes _) as [c|bs]; [intros [= _ <-]; right; right; left; by eexists|].
      destruct (Nat.eqb _ _); [done|]. intros [= _ <-]. right; right; right. by eexists. }
  split_and!.
  - exact Hbody.
  - apply error_form_not_invalid_JSON.
  - exact Hsigned.
  - intros input b b' c [(c' & Hc & [= <-] & ->)|(d & f & _ & _ & Hf)]%Hbody; [done|].
    by apply error_form_not_invalid_JSON in Hf.
  - intros input s s' c [(c' & Hc & [= <-] & ->)|(d & _ & _ & He)]%Hsigned; [done|].
    destruct He as [He|[He|[[c' He]|[n He]]]]; discriminate He.
Qed.

End Kinds.

Section Edges.
Context `{SubObjects}.

(** X13: the prefix is cut once.  A value with [0x] twice is, after one
    [0x] is cut, no string of hex digits: the signature and the RANDAO
    reveal are then invalid values, for the byte [x]. *)
Theorem doubled_prefix_is_invalid :
  (forall (m : electra_BeaconBlock) (h : string) (s : SignedBeaconBlock.t),
     SignedBeaconBlock.unpack (signedBeaconBlockJSON.mk (Some m) ("0x0x" +:+ h)) s =
     (SignedBeaconBlock.set_Message (Some m) s,
      inl (errors_Wrap (hex_InvalidByteError "x") "invalid value for signature"))) /\
  (forall (d : blindedBeaconBlockBodyJSON.t) (h : string) (b : BlindedBeaconBlockBody.t),
     blindedBeaconBlockBodyJSON.RANDAOReveal d = "0x0x" +:+ h ->
     BlindedBeaconBlockBody.unpack d b =
     (b, inl (errors_Wrap (hex_InvalidByteError "x") "invalid value for RANDAO reveal"))).
Proof.
  split.
  - intros m h s. by rewrite SignedBeaconBlock_unpack_eq.
  - intros d h b Hr. rewrite unpack_unpack_fields. unfold fields.
    cbn [unpack_fields field_error write_failed]. by rewrite Hr.
Qed.

(** X14: the length in the error of a signature.  A signature of [2 * k]
    hex digits after its optional [0x], with [k] other than 96, is
    rejected with [incorrect length k for signature]: the count is of
    bytes, not of characters. *)
Theorem signature_length_reported (m : electra_BeaconBlock) (sig : string) (s : SignedBeaconBlock.t) (k : nat) :
  String.eqb sig EmptyString = false ->
  hex_digits (strings.TrimPrefix sig "0x") = true ->
  String.length (strings.TrimPrefix sig "0x") = 2 * k ->
  k <> phase0.SignatureLength ->
  SignedBeaconBlock.unpack (signedBeaconBlockJSON.mk (Some m) sig) s =
  (SignedBeaconBlock.set_Message (Some m) s,
   inl (fmt_Errorf ("incorrect length " +:+ fmt.Sprintf_d k +:+ " for signature"))).
Proof.
  intros Hsig Hd Hlen Hk.
  destruct (DecodeString_hex_digits _ Hd) as (bs & Hbs & Hl); [exists k; lia|].
  assert (length bs = k) as <- by lia.
  rewrite SignedBeaconBlock_unpack_eq.
  cbn [signedBeaconBlockJSON.Message signedBeaconBlockJSON.Signature]. cbv zeta.
  unfold hex_bytes. rewrite Hsig, Hbs.
  by destruct (Nat.eqb_spec (length bs) phase0.SignatureLength).
Qed.

End Edges.

(** The sample signed block with a signature of 95 bytes. *)
Lemma signature_length_reported_witness :
  SignedBeaconBlock.unpack Sample.signed_block_json_short Sample.zero_signed_block =
  (@SignedBeaconBlock.set_Message Sample.objects (Some 7) Sample.zero_signed_block,
   inl (fmt_Errorf ("incorrect length " +:+ fmt.Sprintf_d 95 +:+ " for signature"))).
Proof.
  apply (@signature_length_reported Sample.objects 7
           ("0x" +:+ hex.EncodeToString (replicate 95 Byte.xab)) Sample.zero_signed_block 95).
  - reflexivity.
  - vm_compute. reflexivity.
  - vm_compute. reflexivity.
  - vm_compute. discriminate.
Defined.

(** The sample body without ETH1 data, read from the one document of a
    sample library: the error is the one of [unpack]. *)
Lemma UnmarshalJSON_error_kinds_witness :
  let J := @Sample.one_document _ Sample.blindedBeaconBlockBodyJSON_eq_dec
             Sample.body_json_without_eth1 in
  let b' := (@BlindedBeaconBlockBody.UnmarshalJSON Sample.objects J [] Sample.zero_body).1 in
  let e := errors_New "ETH1 data missing" in
  (exists c, @json_Unmarshal _ J [] = inl c /\ e = errors_Wrap c "invalid JSON" /\
     b' = Sample.zero_body) \/
  (exists d f, @json_Unmarshal _ J [] = inr d /\
     BlindedBeaconBlockBody.unpack d Sample.zero_body = (b', inl e) /\ error_form f e).
Proof.
  intros J b' e.
  apply (proj1 (@UnmarshalJSON_error_kinds Sample.objects Sample.signed_block_JSON J)
           [] Sample.zero_body b' e).
  vm_compute. reflexivity.
Defined.

(** The sample body with the prefix of its RANDAO reveal twice. *)
Lemma doubled_prefix_is_invalid_witness :
  BlindedBeaconBlockBody.unpack Sample.body_json_doubled_prefix Sample.zero_body =
  (Sample.zero_body,
   inl (errors_Wrap (hex_InvalidByteError "x") "invalid value for RANDAO reveal")).
Proof.
  apply (proj2 (@doubled_prefix_is_invalid Sample.objects) Sample.body_json_doubled_prefix
           Sample.signature_hex Sample.zero_body).
  reflexivity.
Defined.
